(** * monitor.py: a shallow embedding and its verification

    The program samples CPU and memory usage (psutil, /proc, typeperf)
    and shows it as a text line or as a scrolling ASCII graph.

    Python values are modelled as follows.
    - [float] is IEEE binary64: Rocq's primitive [float], with the
      operations of [PrimFloat]; their meaning is given by [SpecFloat]
      through the equations of [FloatAxioms].
    - [int] is [Z] (unbounded).
    - [str] is [string]; a character stands for a code point below 256.
    - [None] in an optional value is [None]; a raised exception is
      [Raise e] in the [result] type, so that every function that may
      raise returns a [result].
    - The outside world (files under /proc, the typeperf process, psutil,
      the terminal size) is a record that the samplers read. *)

From Stdlib Require Import ZArith List String Ascii Bool Lia.
From Stdlib Require Import Floats Reals Lra DecimalString.
Import ListNotations.

Set Warnings "-inexact-float".

Local Open Scope string_scope.
Local Open Scope list_scope.
Local Open Scope Z_scope.

(** ** Exceptions and results *)

Inductive exn : Type :=
| ValueError
| TypeError
| IndexError
| OverflowError
| ZeroDivisionError
| OSError
| FileNotFoundError
| CsvError.

Inductive result (A : Type) : Type :=
| Ok (a : A)
| Raise (e : exn).

Arguments Ok {A} a.
Arguments Raise {A} e.

Definition bind {A B : Type} (r : result A) (k : A -> result B) : result B :=
  match r with
  | Ok a => k a
  | Raise e => Raise e
  end.

Notation "x <- r ;; k" := (bind r (fun x => k))
  (at level 61, r at next level, right associativity).
Notation "' p <- r ;; k" := (bind r (fun x => let p := x in k))
  (at level 61, p pattern, r at next level, right associativity).

Fixpoint mapM {A B : Type} (f : A -> result B) (l : list A) : result (list B) :=
  match l with
  | [] => Ok []
  | a :: l' => b <- f a ;; bs <- mapM f l' ;; Ok (b :: bs)
  end.

(** [try r except (e1, ...): h]: the handler runs for the listed
    exceptions only. *)
Definition catch {A : Type} (r : result A) (handles : exn -> bool) (h : result A)
  : result A :=
  match r with
  | Ok a => Ok a
  | Raise e => if handles e then h else Raise e
  end.

(** ** Characters and strings *)

Definition code (c : ascii) : Z := Z.of_N (N_of_ascii c).

(** [str.isspace] on one character (code points below 256). *)
Definition isspace (c : ascii) : bool :=
  let n := code c in
  ((9 <=? n) && (n <=? 13)) || ((28 <=? n) && (n <=? 32))
  || (n =? 133) || (n =? 160).

(** Line boundaries of [str.splitlines] (code points below 256). *)
Definition islinebreak (c : ascii) : bool :=
  let n := code c in
  ((10 <=? n) && (n <=? 13)) || ((28 <=? n) && (n <=? 30)) || (n =? 133).

Definition isdigit (c : ascii) : bool :=
  let n := code c in (48 <=? n) && (n <=? 57).

Definition digit_val (c : ascii) : Z := code c - 48.

Definition lower (c : ascii) : ascii :=
  let n := code c in
  if (65 <=? n) && (n <=? 90) then ascii_of_N (Z.to_N (n + 32)) else c.

Fixpoint lower_str (s : string) : string :=
  match s with
  | EmptyString => EmptyString
  | String c s' => String (lower c) (lower_str s')
  end.

Definition len (s : string) : Z := Z.of_nat (String.length s).

Fixpoint lstrip (s : string) : string :=
  match s with
  | String c s' => if isspace c then lstrip s' else s
  | EmptyString => EmptyString
  end.

(** [rstrip]: a character is kept when it is not a space or when
    something is kept after it. *)
Fixpoint rstrip (s : string) : string :=
  match s with
  | EmptyString => EmptyString
  | String c s' =>
      match rstrip s' with
      | EmptyString => if isspace c then EmptyString else String c EmptyString
      | r => String c r
      end
  end.

Definition strip (s : string) : string := rstrip (lstrip s).

(** The blanks that [int] and [float] skip around a number: the C
    [isspace] set and the two blanks above 127.  The separators 28..31,
    which [str.isspace] accepts, are not skipped there. *)
Definition isspace_number (c : ascii) : bool :=
  let n := code c in
  ((9 <=? n) && (n <=? 13)) || (n =? 32) || (n =? 133) || (n =? 160).

Fixpoint lstrip_number (s : string) : string :=
  match s with
  | String c s' => if isspace_number c then lstrip_number s' else s
  | EmptyString => EmptyString
  end.

Fixpoint rstrip_number (s : string) : string :=
  match s with
  | EmptyString => EmptyString
  | String c s' =>
      match rstrip_number s' with
      | EmptyString =>
          if isspace_number c then EmptyString else String c EmptyString
      | r => String c r
      end
  end.

Definition strip_number (s : string) : string :=
  rstrip_number (lstrip_number s).

(** Truth value of a [str]: non-empty. *)
Definition truthy_str (s : string) : bool :=
  match s with EmptyString => false | _ => true end.

Fixpoint startswith (p s : string) : bool :=
  match p, s with
  | EmptyString, _ => true
  | String a p', String b s' => Ascii.eqb a b && startswith p' s'
  | String _ _, EmptyString => false
  end.

(** [str.split()] with no argument: the maximal runs of characters that
    are not spaces.  [cur] is the run being read, reversed. *)
Fixpoint split_ws_aux (s : string) (cur : list ascii) : list string :=
  let flush := match cur with
               | [] => []
               | _ => [string_of_list_ascii (rev cur)]
               end in
  match s with
  | EmptyString => flush
  | String c s' =>
      if isspace c then flush ++ split_ws_aux s' []
      else split_ws_aux s' (c :: cur)
  end.

Definition split_ws (s : string) : list string := split_ws_aux s [].

(** [s.split(":", 1)]: at most one cut, at the first colon. *)
Fixpoint split_colon1_aux (s : string) (cur : list ascii) : list string :=
  match s with
  | EmptyString => [string_of_list_ascii (rev cur)]
  | String c s' =>
      if Ascii.eqb c ":" then [string_of_list_ascii (rev cur); s']
      else split_colon1_aux s' (c :: cur)
  end.

Definition split_colon1 (s : string) : list string := split_colon1_aux s [].

(** [str.splitlines()]: cut at every line boundary, "\r\n" counting as
    one; no empty last line.  [after_cr] says that the previous character
    was a carriage return. *)
Fixpoint splitlines_aux (s : string) (cur : list ascii) (after_cr : bool)
  : list string :=
  match s with
  | EmptyString =>
      match cur with
      | [] => []
      | _ => [string_of_list_ascii (rev cur)]
      end
  | String c s' =>
      if after_cr && (code c =? 10) then splitlines_aux s' cur false
      else if islinebreak c then
        string_of_list_ascii (rev cur) :: splitlines_aux s' [] (code c =? 13)
      else splitlines_aux s' (c :: cur) false
  end.

Definition splitlines (s : string) : list string := splitlines_aux s [] false.

(** ** Integers and their text *)

(** [str(n)] for an [int]. *)
Definition str_of_int (n : Z) : string := NilZero.string_of_int (Z.to_int n).

(** A run of decimal digits in which single underscores may separate
    digits; returns the value, the number of digits and what follows. *)
Fixpoint digits_loop (s : string) (acc cnt : Z) : Z * Z * string :=
  match s with
  | String c s' =>
      if isdigit c then digits_loop s' (10 * acc + digit_val c) (cnt + 1)
      else if Ascii.eqb c "_" then
        match s' with
        | String c' s'' =>
            if isdigit c' then digits_loop s'' (10 * acc + digit_val c') (cnt + 1)
            else (acc, cnt, s)
        | EmptyString => (acc, cnt, s)
        end
      else (acc, cnt, s)
  | EmptyString => (acc, cnt, s)
  end.

Definition digitpart (s : string) : option (Z * Z * string) :=
  match s with
  | String c s' => if isdigit c then Some (digits_loop s' (digit_val c) 1) else None
  | EmptyString => None
  end.

(** An optional sign; [true] is minus. *)
Definition read_sign (s : string) : bool * string :=
  match s with
  | String c s' =>
      if Ascii.eqb c "-" then (true, s')
      else if Ascii.eqb c "+" then (false, s')
      else (false, s)
  | EmptyString => (false, s)
  end.

(** Limit on the digits of an [int] read from text (CPython 3.11). *)
Definition int_max_str_digits : Z := 4300.

(** [int(s)] for a [str], base ten. *)
Definition py_int (s : string) : result Z :=
  let '(neg, t) := read_sign (strip_number s) in
  match digitpart t with
  | Some (v, cnt, EmptyString) =>
      if cnt >? int_max_str_digits then Raise ValueError
      else Ok (if neg then - v else v)
  | _ => Raise ValueError
  end.

(** ** Floats *)

Definition f0 : float := 0%float.
Definition f1 : float := 1%float.
Definition f100 : float := 100%float.

(** Truth value of a [float]: not zero (a NaN is true). *)
Definition truthy_float (x : float) : bool := negb (PrimFloat.eqb x f0).

(** The two-argument [min] and [max] of Python: the first argument is
    kept unless the second is strictly smaller (resp. larger). *)
Definition py_min (a b : float) : float := if PrimFloat.ltb b a then b else a.
Definition py_max (a b : float) : float := if PrimFloat.ltb a b then b else a.

(** Conversion of an [int] to [float], correctly rounded (ties to even);
    OverflowError when the result is not finite. *)
Definition float_of_int (z : Z) : result float :=
  match binary_normalize prec emax z 0 false with
  | S754_infinity _ => Raise OverflowError
  | sf => Ok (SF2Prim sf)
  end.

(** The correctly rounded quotient of two positive integers. *)
Definition sf_quotient (neg : bool) (a b : Z) : spec_float :=
  let '(q, e, l) := SFdiv_core_binary prec emax a 0 b 0 in
  binary_round_aux prec emax neg q e l.

(** [a / b] for two [int]s: true division, correctly rounded. *)
Definition int_truediv (a b : Z) : result float :=
  if b =? 0 then Raise ZeroDivisionError
  else
    let neg := xorb (a <? 0) (b <? 0) in
    if a =? 0 then Ok (if neg then neg_zero else zero)
    else
      match sf_quotient neg (Z.abs a) (Z.abs b) with
      | S754_infinity _ => Raise OverflowError
      | sf => Ok (SF2Prim sf)
      end.

(** Division of the positive [m] by the power of two [d], to the nearest
    integer, ties to even. *)
Definition div_half_even (m d : Z) : Z :=
  let q := m / d in
  let r := m mod d in
  match 2 * r ?= d with
  | Lt => q
  | Gt => q + 1
  | Eq => if Z.even q then q else q + 1
  end.

(** [round(x)] for a [float], with no second argument: an [int]. *)
Definition py_round (x : float) : result Z :=
  match Prim2SF x with
  | S754_zero _ => Ok 0
  | S754_nan => Raise ValueError
  | S754_infinity _ => Raise OverflowError
  | S754_finite s m e =>
      let a := if 0 <=? e then Z.pos m * 2 ^ e
               else div_half_even (Z.pos m) (2 ^ (- e)) in
      Ok (if s then - a else a)
  end.

(** [int(x)] for a [float]: truncation towards zero. *)
Definition int_of_float (x : float) : result Z :=
  match Prim2SF x with
  | S754_zero _ => Ok 0
  | S754_nan => Raise ValueError
  | S754_infinity _ => Raise OverflowError
  | S754_finite s m e =>
      let a := if 0 <=? e then Z.pos m * 2 ^ e else Z.pos m / 2 ^ (- e) in
      Ok (if s then - a else a)
  end.

(** The float nearest to [m * 10 ^ e10], for [m >= 0]. *)
Definition dec_to_float (neg : bool) (m e10 : Z) : float :=
  if m =? 0 then (if neg then neg_zero else zero)
  else if 0 <=? e10 then
    SF2Prim (binary_normalize prec emax ((if neg then - m else m) * 10 ^ e10) 0 false)
  else SF2Prim (sf_quotient neg m (10 ^ (- e10))).

(** The digits, point and exponent of a decimal number. *)
Definition read_decimal (neg : bool) (t : string) : result float :=
  let '(mi, ci, r1) :=
    match digitpart t with Some x => x | None => (0, 0, t) end in
  let '(mf, cf, r2) :=
    match r1 with
    | String c r1' =>
        if Ascii.eqb c "." then
          match digitpart r1' with Some x => x | None => (0, 0, r1') end
        else (0, 0, r1)
    | EmptyString => (0, 0, r1)
    end in
  if ci + cf =? 0 then Raise ValueError
  else
    let mant := mi * 10 ^ cf + mf in
    match r2 with
    | EmptyString => Ok (dec_to_float neg mant (- cf))
    | String c r2' =>
        if Ascii.eqb (lower c) "e" then
          let '(eneg, r3) := read_sign r2' in
          match digitpart r3 with
          | Some (ev, _, EmptyString) =>
              Ok (dec_to_float neg mant ((if eneg then - ev else ev) - cf))
          | _ => Raise ValueError
          end
        else Raise ValueError
    end.

(** [float(s)] for a [str]. *)
Definition py_float (s : string) : result float :=
  let '(neg, t) := read_sign (strip_number s) in
  let lt := lower_str t in
  if String.eqb lt "inf" || String.eqb lt "infinity" then
    Ok (if neg then neg_infinity else infinity)
  else if String.eqb lt "nan" then Ok nan
  else read_decimal neg t.

(** Left padding with spaces up to [width] characters. *)
Definition pad_left (width : Z) (s : string) : string :=
  String.concat "" (repeat " " (Z.to_nat (width - len s))) ++ s.

(** [format(x, "5.1f")]: one digit after the point, the exact value
    rounded to the nearest tenth (ties to even), width five. *)
Definition fmt_5_1f (x : float) : string :=
  pad_left 5
    match Prim2SF x with
    | S754_nan => "nan"
    | S754_infinity s => if s then "-inf" else "inf"
    | S754_zero s => if s then "-0.0" else "0.0"
    | S754_finite s m e =>
        let n := if 0 <=? e then Z.pos m * 2 ^ e * 10
                 else div_half_even (Z.pos m * 10) (2 ^ (- e)) in
        (if s then "-" else "") ++ str_of_int (n / 10) ++ "." ++ str_of_int (n mod 10)
    end.

(** [format(n, "3d")] for an [int]. *)
Definition fmt_3d (n : Z) : string := pad_left 3 (str_of_int n).

(** [a / b] for two [float]s. *)
Definition float_div (a b : float) : result float :=
  if PrimFloat.eqb b f0 then Raise ZeroDivisionError else Ok (a / b)%float.

(** ** Lists and dicts *)

(** [l[i]] for a list: a negative index counts from the end. *)
Definition py_index {A : Type} (l : list A) (i : Z) : result A :=
  let n := Z.of_nat (List.length l) in
  let j := if i <? 0 then i + n else i in
  if (0 <=? j) && (j <? n) then
    match nth_error l (Z.to_nat j) with
    | Some a => Ok a
    | None => Raise IndexError
    end
  else Raise IndexError.

Fixpoint set_nth {A : Type} (l : list A) (n : nat) (a : A) : list A :=
  match l, n with
  | [], _ => []
  | _ :: l', O => a :: l'
  | b :: l', S n' => b :: set_nth l' n' a
  end.

(** [l[i] = a] for a list. *)
Definition py_setitem {A : Type} (l : list A) (i : Z) (a : A) : result (list A) :=
  let n := Z.of_nat (List.length l) in
  let j := if i <? 0 then i + n else i in
  if (0 <=? j) && (j <? n) then Ok (set_nth l (Z.to_nat j) a)
  else Raise IndexError.

(** [l[-n:]] for [n >= 0]: the last [n] items, and the whole list for
    [n = 0] (the bound is then [-0 = 0]). *)
Definition last_items {A : Type} (l : list A) (n : Z) : list A :=
  if n =? 0 then l
  else skipn (List.length l - Z.to_nat n) l.

(** A [dict] with [str] keys, as an association list with one entry
    per key, in insertion order. *)
Definition dict : Type := list (string * string).

Fixpoint dict_set (d : dict) (k v : string) : dict :=
  match d with
  | [] => [(k, v)]
  | (k', v') :: d' =>
      if String.eqb k k' then (k, v) :: d' else (k', v') :: dict_set d' k v
  end.

Fixpoint dict_get (d : dict) (k default : string) : string :=
  match d with
  | [] => default
  | (k', v') :: d' => if String.eqb k k' then v' else dict_get d' k default
  end.

(** ** The csv reader on one line

    [next(csv.reader(io.StringIO(line)), [])] with the default dialect:
    comma as delimiter, the double quote as quote character, doubled
    quotes, not strict.
    The states and transitions are those of the reader of CPython 3.11;
    [line] is one physical line. *)

Inductive csv_state : Type :=
| START_RECORD
| START_FIELD
| IN_FIELD
| IN_QUOTED_FIELD
| QUOTE_IN_QUOTED_FIELD
| EAT_CRNL.

Record csv_reader : Type := {
  state : csv_state;
  field : list ascii;      (* the field being read, reversed *)
  field_len : Z;
  fields : list string     (* the fields read, reversed *)
}.

(** [csv.field_size_limit()] *)
Definition field_limit : Z := 131072.

Definition parse_add_char (r : csv_reader) (st : csv_state) (c : ascii)
  : result csv_reader :=
  if field_limit <=? field_len r then Raise CsvError
  else Ok {| state := st; field := c :: field r;
             field_len := field_len r + 1; fields := fields r |}.

Definition parse_save_field (r : csv_reader) (st : csv_state) : csv_reader :=
  {| state := st; field := []; field_len := 0;
     fields := string_of_list_ascii (rev (field r)) :: fields r |}.

Definition set_state (r : csv_reader) (st : csv_state) : csv_reader :=
  {| state := st; field := field r; field_len := field_len r; fields := fields r |}.

Definition is_crlf (c : ascii) : bool := (code c =? 10) || (code c =? 13).
Definition is_delim (c : ascii) : bool := Ascii.eqb c ",".
Definition is_quote (c : ascii) : bool := code c =? 34.

Definition parse_process_char (r : csv_reader) (c : ascii) : result csv_reader :=
  match state r with
  | START_RECORD =>
      if is_crlf c then Ok (set_state r EAT_CRNL)
      else if is_quote c then Ok (set_state r IN_QUOTED_FIELD)
      else if is_delim c then Ok (parse_save_field r START_FIELD)
      else parse_add_char r IN_FIELD c
  | START_FIELD =>
      if is_crlf c then Ok (parse_save_field r EAT_CRNL)
      else if is_quote c then Ok (set_state r IN_QUOTED_FIELD)
      else if is_delim c then Ok (parse_save_field r START_FIELD)
      else parse_add_char r IN_FIELD c
  | IN_FIELD =>
      if is_crlf c then Ok (parse_save_field r EAT_CRNL)
      else if is_delim c then Ok (parse_save_field r START_FIELD)
      else parse_add_char r IN_FIELD c
  | IN_QUOTED_FIELD =>
      if is_quote c then Ok (set_state r QUOTE_IN_QUOTED_FIELD)
      else parse_add_char r IN_QUOTED_FIELD c
  | QUOTE_IN_QUOTED_FIELD =>
      if is_quote c then parse_add_char r IN_QUOTED_FIELD c
      else if is_delim c then Ok (parse_save_field r START_FIELD)
      else if is_crlf c then Ok (parse_save_field r EAT_CRNL)
      else parse_add_char r IN_FIELD c
  | EAT_CRNL =>
      if is_crlf c then Ok r else Raise CsvError
  end.

(** The end of the line, then the end of the input. *)
Definition parse_end (r : csv_reader) : list string :=
  match state r with
  | START_RECORD | EAT_CRNL => rev (fields r)
  | START_FIELD | IN_FIELD | QUOTE_IN_QUOTED_FIELD | IN_QUOTED_FIELD =>
      rev (fields (parse_save_field r START_RECORD))
  end.

Fixpoint parse_chars (r : csv_reader) (s : string) : result csv_reader :=
  match s with
  | EmptyString => Ok r
  | String c s' => r' <- parse_process_char r c ;; parse_chars r' s'
  end.

Definition csv_reset : csv_reader :=
  {| state := START_RECORD; field := []; field_len := 0; fields := [] |}.

Definition csv_row (line : string) : result (list string) :=
  r <- parse_chars csv_reset line ;; Ok (parse_end r).

(** ** The outside world *)

(** A sample: the cpu and the memory percentage, each possibly [None]. *)
Definition sample : Type := option float * option float.

Record World : Type := {
  (** [None]: [import psutil] fails.  Otherwise the values of
      [psutil.cpu_percent(interval=t)] and
      [psutil.virtual_memory().percent]. *)
  psutil : option (float -> result sample);
  (** [platform.system()] *)
  platform_system : string;
  (** [subprocess.run(cmd, ...)]: the text written by the command, or
      [None] when the program is not found (FileNotFoundError). *)
  subprocess_run : list string -> option string;
  (** [os.path.exists("/proc/stat")] *)
  proc_stat_exists : bool;
  (** The lines of /proc/stat at the first and at the second reading;
      [None] when the file does not open. *)
  proc_stat : nat -> option (list string);
  (** The lines of /proc/meminfo; [None] when the file does not open. *)
  proc_meminfo : option (list string);
  (** [time.sleep(t)] *)
  time_sleep : float -> result unit;
  (** [shutil.get_terminal_size((80, 24))]: columns and lines. *)
  terminal_size : Z * Z
}.

(** [interval or 1] *)
Definition interval_or_1 (interval : float) : float :=
  if truthy_float interval then interval else f1.

(** ** The Windows sampler *)

Definition counters : list string :=
  ["\Processor(_Total)\% Processor Time"; "\Memory\% Committed Bytes In Use"].

Definition typeperf_cmd (interval : float) : result (list string) :=
  si <- (if truthy_float interval
         then n <- int_of_float interval ;; Ok (str_of_int (Z.max 1 n))
         else Ok "1") ;;
  Ok (["typeperf"; "-sc"; "1"; "-si"; si] ++ counters).

Definition is_ValueError (e : exn) : bool :=
  match e with ValueError => true | _ => false end.

Definition is_FileNotFoundError (e : exn) : bool :=
  match e with FileNotFoundError => true | _ => false end.

Definition is_Exception (e : exn) : bool := true.

Definition _read_windows_typeperf (w : World) (interval : float) : result sample :=
  cmd <- typeperf_cmd interval ;;
  catch
    (stdout <- match subprocess_run w cmd with
               | Some out => Ok out
               | None => Raise FileNotFoundError
               end ;;
     let lines := filter (fun ln => truthy_str (strip ln)) (splitlines stdout) in
     if 3 <=? Z.of_nat (List.length lines) then
       let data_line := last lines "" in
       row <- csv_row data_line ;;
       if 3 <=? Z.of_nat (List.length row) then
         catch
           (r1 <- py_index row 1 ;;
            cpu <- py_float r1 ;;
            r2 <- py_index row 2 ;;
            mem <- py_float r2 ;;
            Ok (Some cpu, Some mem))
           is_ValueError
           (Ok (None, None))
       else Ok (None, None)
     else Ok (None, None))
    is_FileNotFoundError
    (Ok (None, None)).

(** ** The Linux sampler *)

Fixpoint sum (l : list Z) : Z :=
  match l with
  | [] => 0
  | n :: l' => n + sum l'
  end.

(** The loop of [read_cpu_times] over the lines of the file. *)
Fixpoint scan_cpu_line (lines : list string) : result (option (Z * Z)) :=
  match lines with
  | [] => Ok None
  | line :: rest =>
      if startswith "cpu " line then
        let parts := split_ws line in
        nums <- mapM py_int (tl parts) ;;
        n3 <- py_index nums 3 ;;
        n4 <- (if 4 <? Z.of_nat (List.length nums) then py_index nums 4 else Ok 0) ;;
        let idle := n3 + n4 in
        let total := sum nums in
        Ok (Some (idle, total))
      else scan_cpu_line rest
  end.

Definition open_lines (file : option (list string)) : result (list string) :=
  match file with
  | Some lines => Ok lines
  | None => Raise OSError
  end.

Definition read_cpu_times (file : option (list string)) : result (option (Z * Z)) :=
  lines <- open_lines file ;;
  scan_cpu_line lines.

(** [a, b = v]: [None] does not unpack. *)
Definition unpack_pair {A B : Type} (v : option (A * B)) : result (A * B) :=
  match v with
  | Some p => Ok p
  | None => Raise TypeError
  end.

(** The cpu percentage from two snapshots of the counters. *)
Definition cpu_percent (idle1 total1 idle2 total2 : Z) : result (option float) :=
  let idle_delta := idle2 - idle1 in
  let total_delta := total2 - total1 in
  if total_delta >? 0 then
    q <- int_truediv idle_delta total_delta ;;
    Ok (Some (f100 * (f1 - q))%float)
  else Ok None.

(** The loop that fills the [meminfo] dict. *)
Fixpoint read_meminfo_lines (lines : list string) (meminfo : dict) : result dict :=
  match lines with
  | [] => Ok meminfo
  | line :: rest =>
      match split_colon1 line with
      | [k; v] => read_meminfo_lines rest (dict_set meminfo (strip k) (strip v))
      | _ => Raise ValueError
      end
  end.

Definition kb (meminfo : dict) (name : string) : result float :=
  val <- py_index (split_ws (dict_get meminfo name "0 kB")) 0 ;;
  py_float val.

Definition mem_percent (file : option (list string)) : result (option float) :=
  catch
    (lines <- open_lines file ;;
     meminfo <- read_meminfo_lines lines [] ;;
     total <- kb meminfo "MemTotal" ;;
     avail <- kb meminfo "MemAvailable" ;;
     if PrimFloat.ltb f0 total then
       q <- float_div avail total ;;
       Ok (Some (f100 * (f1 - q))%float)
     else Ok None)
    is_Exception
    (Ok None).

(** After the two unpackings [idle1] and [idle2] are [int]s, so the
    test [idle1 is None or idle2 is None] of the source is false. *)
Definition _read_linux_proc (w : World) (interval : float) : result sample :=
  s1 <- read_cpu_times (proc_stat w 0%nat) ;;
  '(idle1, total1) <- unpack_pair s1 ;;
  _ <- time_sleep w (interval_or_1 interval) ;;
  s2 <- read_cpu_times (proc_stat w 1%nat) ;;
  '(idle2, total2) <- unpack_pair s2 ;;
  cpu <- cpu_percent idle1 total1 idle2 total2 ;;
  mem <- mem_percent (proc_meminfo w) ;;
  Ok (cpu, mem).

(** ** The psutil sampler and the selector *)

Definition _read_with_psutil (w : World) (interval : float) : result sample :=
  match psutil w with
  | None => Ok (None, None)
  | Some read => read (interval_or_1 interval)
  end.

Definition read_metrics (w : World) (interval : float) : result sample :=
  '(cpu, mem) <- _read_with_psutil w interval ;;
  match cpu, mem with
  | Some _, Some _ => Ok (cpu, mem)
  | _, _ =>
      if String.eqb (platform_system w) "Windows" then
        _read_windows_typeperf w interval
      else if proc_stat_exists w then
        _read_linux_proc w interval
      else Ok (None, None)
  end.

(** ** The text line *)

Definition format_line (cpu mem : option float) : string :=
  let parts := [] in
  let parts :=
    parts ++ [match cpu with
              | Some c => ("CPU: " ++ fmt_5_1f c ++ "%")%string
              | None => "CPU: N/A"
              end] in
  let parts :=
    parts ++ [match mem with
              | Some m => ("Memory: " ++ fmt_5_1f m ++ "%")%string
              | None => "Memory: N/A"
              end] in
  String.concat " | " parts.

(** ** Graph mode *)

(** The history kept by the loop of graph mode. *)
Record History : Type := {
  cpu_hist : list float;
  mem_hist : list float;
  count : Z
}.

Definition empty_history : History :=
  {| cpu_hist := []; mem_hist := []; count := 0 |}.

(** [0.0 if v is None else max(0.0, min(100.0, v))] *)
Definition clamp (v : option float) : float :=
  match v with
  | None => f0
  | Some x => py_max f0 (py_min f100 x)
  end.

Definition append_sample (h : History) (s : sample) : History :=
  {| cpu_hist := cpu_hist h ++ [clamp (fst s)];
     mem_hist := mem_hist h ++ [clamp (snd s)];
     count := count h + 1 |}.

Definition canvas_width (columns : Z) : Z := Z.max 30 (columns - 8).
Definition canvas_height (lines : Z) : Z := Z.max 10 (Z.min 24 (lines - 5)).

Definition canvas : Type := list (list ascii).

Definition blank : ascii := " ".
Definition overlap_marker : ascii := "@".
Definition cpu_marker : ascii := "#".
Definition mem_marker : ascii := "*".

(** [[[" "] * n for _ in range(height)]] *)
Definition empty_canvas (height n : Z) : canvas :=
  repeat (repeat blank (Z.to_nat n)) (Z.to_nat height).

Definition row_for (height : Z) (value : float) : result Z :=
  h1 <- float_of_int (height - 1) ;;
  r <- py_round ((value / f100) * h1)%float ;;
  Ok ((height - 1) - r).

(** [cv[r][x] = ch] *)
Definition canvas_set (cv : canvas) (r x : Z) (ch : ascii) : result canvas :=
  row <- py_index cv r ;;
  row' <- py_setitem row x ch ;;
  py_setitem cv r row'.

(** The body of the loop over the columns. *)
Definition draw_column (height : Z) (cpu_view mem_view : list float)
  (cv : canvas) (x : Z) : result canvas :=
  c <- py_index cpu_view x ;;
  rc <- row_for height c ;;
  m <- py_index mem_view x ;;
  rm <- row_for height m ;;
  if rc =? rm then canvas_set cv rc x overlap_marker
  else
    cv1 <- canvas_set cv rc x cpu_marker ;;
    canvas_set cv1 rm x mem_marker.

Fixpoint draw_columns (height : Z) (cpu_view mem_view : list float)
  (cv : canvas) (xs : list Z) : result canvas :=
  match xs with
  | [] => Ok cv
  | x :: xs' =>
      cv' <- draw_column height cpu_view mem_view cv x ;;
      draw_columns height cpu_view mem_view cv' xs'
  end.

(** [range(n)] *)
Definition range (n : Z) : list Z := map Z.of_nat (seq 0 (Z.to_nat n)).

Definition render (height : Z) (cpu_view mem_view : list float) (n : Z)
  : result canvas :=
  draw_columns height cpu_view mem_view (empty_canvas height n) (range n).

(** The rows that carry a label. *)
Definition ticks (height : Z) : result (list Z) :=
  h <- float_of_int height ;;
  t1 <- int_of_float (h * 0.25)%float ;;
  t2 <- int_of_float (h * 0.5)%float ;;
  t3 <- int_of_float (h * 0.75)%float ;;
  Ok [0; t1; t2; t3; height - 1].

Definition tick_label (height : Z) (tk : list Z) (row : Z) : result string :=
  if existsb (Z.eqb row) tk then
    q <- int_truediv row (height - 1) ;;
    val <- py_round (f100 * (f1 - q))%float ;;
    Ok (fmt_3d val)
  else Ok "   ".

Fixpoint frame_rows (height : Z) (tk : list Z) (cv : canvas) (rows : list Z)
  : result (list string) :=
  match rows with
  | [] => Ok []
  | row :: rows' =>
      label <- tick_label height tk row ;;
      cells <- py_index cv row ;;
      let line := (label ++ "|" ++ string_of_list_ascii cells)%string in
      rest <- frame_rows height tk cv rows' ;;
      Ok (line :: rest)
  end.

(** What one iteration draws and shows: the height and the two views
    it drew from, the canvas and the text.  The fixed words of the
    legend, the interval and the caption are left out. *)
Record Frame : Type := {
  frame_height : Z;
  frame_cpu_view : list float;
  frame_mem_view : list float;
  frame_canvas : canvas;
  frame_legend : string;       (* format_line(latest_cpu, latest_mem) *)
  frame_rows_text : list string;
  frame_baseline : string;
  frame_shown : Z              (* n, the number of samples shown *)
}.

(** One iteration of the loop of graph mode, up to the test on
    [args.samples]. *)
Definition graph_iteration (w : World) (interval : float) (h : History)
  : result (History * Frame) :=
  s <- read_metrics w interval ;;
  let h' := append_sample h s in
  let '(columns, lines) := terminal_size w in
  let width := canvas_width columns in
  let height := canvas_height lines in
  let n := Z.min (Z.of_nat (List.length (cpu_hist h'))) width in
  let cpu_view := last_items (cpu_hist h') n in
  let mem_view := last_items (mem_hist h') n in
  cv <- render height cpu_view mem_view n ;;
  latest_cpu <- py_index cpu_view (-1) ;;
  latest_mem <- py_index mem_view (-1) ;;
  tk <- ticks height ;;
  rows <- frame_rows height tk cv (range height) ;;
  Ok (h', {| frame_height := height;
             frame_cpu_view := cpu_view;
             frame_mem_view := mem_view;
             frame_canvas := cv;
             frame_legend := format_line (Some latest_cpu) (Some latest_mem);
             frame_rows_text := rows;
             frame_baseline :=
               ("   +" ++ String.concat "" (repeat "-" (Z.to_nat n)))%string;
             frame_shown := n |}).

(** How a run of the loop ends within [fuel] iterations. *)
Inductive outcome : Type :=
| Done (h : History) (frames : list Frame)    (* the loop reached [break] *)
| Running (h : History) (frames : list Frame) (* still looping *).

(** The [while True] loop of graph mode.  [worlds k] is the world seen
    by iteration [k]; an interrupt from the keyboard is not modelled. *)
Fixpoint graph_loop (fuel : nat) (worlds : nat -> World) (interval : float)
  (samples : Z) (k : nat) (h : History) (frames : list Frame) : result outcome :=
  match fuel with
  | O => Ok (Running h frames)
  | S fuel' =>
      '(h', fr) <- graph_iteration (worlds k) interval h ;;
      if (samples >? 0) && (count h' >=? samples) then
        Ok (Done h' (frames ++ [fr]))
      else graph_loop fuel' worlds interval samples (S k) h' (frames ++ [fr])
  end.

(** [args.interval if args.interval > 0 else 1.0] *)
Definition main_interval (args_interval : float) : float :=
  if PrimFloat.ltb f0 args_interval then args_interval else f1.

(** [main] with [--graph]. *)
Definition main_graph (fuel : nat) (worlds : nat -> World)
  (args_interval : float) (args_samples : Z) : result outcome :=
  graph_loop fuel worlds (main_interval args_interval) args_samples 0 empty_history [].

(** [main] with [--once] and without [--graph]: the line printed. *)
Definition main_once (w : World) (args_interval : float) : result string :=
  '(cpu, mem) <- read_metrics w (main_interval args_interval) ;;
  Ok (format_line cpu mem).

(** ** Words of the specification

    Definitions that follow the wording of the specification, to be
    compared with the functions above. *)

(** One field of the text line: [name: value%] with the value in the
    format [5.1f], or [name: N/A]. *)
Definition spec_field (name : string) (v : option float) : string :=
  match v with
  | Some x => (name ++ ": " ++ fmt_5_1f x ++ "%")%string
  | None => (name ++ ": N/A")%string
  end.

(** [100 * (1 - (idle2-idle1)/(total2-total1))] if [total2 > total1],
    else absent. *)
Definition spec_cpu_percent (idle1 total1 idle2 total2 : Z) : result (option float) :=
  if total1 <? total2 then
    q <- int_truediv (idle2 - idle1) (total2 - total1) ;;
    Ok (Some (f100 * (f1 - q))%float)
  else Ok None.

(** The platform sampler that follows psutil in [read_metrics]. *)
Definition native_sampler (w : World) (interval : float) : result sample :=
  if String.eqb (platform_system w) "Windows" then _read_windows_typeperf w interval
  else if proc_stat_exists w then _read_linux_proc w interval
  else Ok (None, None).

(** A value of the history is a percentage. *)
Definition in_range (x : float) : bool :=
  PrimFloat.leb f0 x && PrimFloat.leb x f100.

Definition history_ok (h : History) : Prop :=
  Forall (fun x => in_range x = true) (cpu_hist h) /\
  Forall (fun x => in_range x = true) (mem_hist h).

Definition outcome_history (o : outcome) : History :=
  match o with
  | Done h _ => h
  | Running h _ => h
  end.

Definition outcome_frames (o : outcome) : list Frame :=
  match o with
  | Done _ fs => fs
  | Running _ fs => fs
  end.

(** ** Worlds used as examples *)

Definition newline : string := String (ascii_of_N 10) EmptyString.
Definition dquote : string := String (ascii_of_N 34) EmptyString.

(** A Linux machine without psutil; /proc/stat reads [stat1] and then
    [stat2]. *)
Definition linux_world (stat1 stat2 meminfo : list string) : World :=
  {| psutil := None;
     platform_system := "Linux";
     subprocess_run := fun _ => None;
     proc_stat_exists := true;
     proc_stat := fun k => match k with O => Some stat1 | _ => Some stat2 end;
     proc_meminfo := Some meminfo;
     time_sleep := fun _ => Ok tt;
     terminal_size := (80, 24) |}.

Definition with_psutil (w : World) (read : float -> result sample) : World :=
  {| psutil := Some read;
     platform_system := platform_system w;
     subprocess_run := subprocess_run w;
     proc_stat_exists := proc_stat_exists w;
     proc_stat := proc_stat w;
     proc_meminfo := proc_meminfo w;
     time_sleep := time_sleep w;
     terminal_size := terminal_size w |}.

(** A Windows machine without psutil, on which typeperf writes [out]. *)
Definition windows_world (out : option string) : World :=
  {| psutil := None;
     platform_system := "Windows";
     subprocess_run := fun _ => out;
     proc_stat_exists := false;
     proc_stat := fun _ => None;
     proc_meminfo := None;
     time_sleep := fun _ => Ok tt;
     terminal_size := (80, 24) |}.

Definition meminfo_60 : list string :=
  [("MemTotal:       100 kB" ++ newline)%string;
   ("MemFree:         10 kB" ++ newline)%string;
   ("MemAvailable:    40 kB" ++ newline)%string].

(** psutil gives [(55.0, None)]; the counters of /proc/stat do not move,
    so that the Linux sampler gives [(None, 60.0)]. *)
Definition world_partial : World :=
  with_psutil
    (linux_world ["cpu  900 0 0 100 0"] ["cpu  900 0 0 100 0"] meminfo_60)
    (fun _ => Ok (Some 55%float, None)).

Definition no_cpu_line (lines : list string) : bool :=
  forallb (fun line => negb (startswith "cpu " line)) lines.

(** /proc/stat in which no line starts with [cpu ]. *)
Definition world_no_cpu_line : World :=
  linux_world ["cpu0 900 0 0 100 0"; "intr 0"] ["cpu0 900 0 0 100 0"; "intr 0"] meminfo_60.

(** The snapshots [(idle=100, total=1000)] then [(idle=110, total=1100)]. *)
Definition world_snapshots : World :=
  linux_world ["cpu  900 0 0 100"] ["cpu  990 0 0 100 10"] meminfo_60.

(** ** Real values of binary floats

    Used in the proofs only: the value [m * 2 ^ e] of a mantissa and an
    exponent, to state what the rounding of [SpecFloat] does. *)

Definition bpow (e : Z) : R := powerRZ 2 e.

Definition F2R (m e : Z) : R := (IZR m * bpow e)%R.

(** A shifted mantissa [mrs] with exponent [e] encloses the real [x]:
    the round and sticky bits are both clear only when [x] is the value
    of the mantissa. *)
Definition encloses (mrs : shr_record) (e : Z) (x : R) : Prop :=
  0 <= shr_m mrs /\
  (F2R (shr_m mrs) e <= x < F2R (shr_m mrs + 1) e)%R /\
  (shr_r mrs || shr_s mrs = false -> x = F2R (shr_m mrs) e) /\
  (shr_r mrs || shr_s mrs = true -> (F2R (shr_m mrs) e < x)%R).

(** The mantissa [m] is in canonical form at exponent [e]. *)
Definition canonical_at (m e : Z) : Prop :=
  0 <= m < 2 ^ 53 /\ -1074 <= e /\ (-1074 < e -> 2 ^ 52 <= m).

(** A non-negative finite float of value at most [b]. *)
Definition sf_between (lo : R) (x : spec_float) (hi : R) : Prop :=
  match x with
  | S754_zero _ => (lo <= 0 <= hi)%R
  | S754_finite false m e => (lo <= F2R (Z.pos m) e <= hi)%R
  | _ => False
  end.

(** ** Checks by evaluation *)

(** The two ends of the scale, for one height. *)
Definition ends_ok (height : Z) : bool :=
  match row_for height 0, row_for height 100 with
  | Ok r0, Ok r100 => (r0 =? height - 1) && (r100 =? 0)
  | _, _ => false
  end.

(** ** Reading a canvas *)

(** The character at row [r] and column [x]. *)
Definition cell (cv : canvas) (r x : Z) : option ascii :=
  match nth_error cv (Z.to_nat r) with
  | Some row => nth_error row (Z.to_nat x)
  | None => None
  end.

(** [height] rows of [n] characters. *)
Definition canvas_shape (height n : Z) (cv : canvas) : Prop :=
  Z.of_nat (List.length cv) = height /\
  Forall (fun row => Z.of_nat (List.length row) = n) cv.

(** What a column shows at row [r] when its cpu value is on row [rc]
    and its memory value on row [rm]. *)
Definition column_cell (rc rm r : Z) : ascii :=
  if rc =? rm then (if r =? rc then overlap_marker else blank)
  else if r =? rc then cpu_marker
  else if r =? rm then mem_marker
  else blank.

(** What the writes of one column leave at row [r], over [old]. *)
Definition column_write (rc rm r : Z) (old : option ascii) : option ascii :=
  if rc =? rm then (if r =? rc then Some overlap_marker else old)
  else if r =? rm then Some mem_marker
  else if r =? rc then Some cpu_marker
  else old.

Definition value_at (view : list float) (x : Z) : float :=
  nth (Z.to_nat x) view f0.

Definition row_of (height : Z) (v : float) : Z :=
  match row_for height v with
  | Ok r => r
  | Raise _ => 0
  end.

Definition all_in_range (view : list float) : Prop :=
  Forall (fun v => in_range v = true) view.

(** ** Invariants of graph mode *)

(** The two histories grow together and [count] is their length. *)
Definition history_inv (h : History) : Prop :=
  history_ok h /\
  List.length (cpu_hist h) = List.length (mem_hist h) /\
  count h = Z.of_nat (List.length (cpu_hist h)).

(** The labels of the rows of a canvas of [height] rows are computed
    without an exception. *)
Definition labels_ok (height : Z) : bool :=
  match ticks height with
  | Ok tk =>
      forallb (fun row => match tick_label height tk row with
                          | Ok _ => true
                          | Raise _ => false
                          end) (range height)
  | Raise _ => false
  end.

(** What column [x] of a frame shows. *)
Definition column_ok (fr : Frame) (x : Z) : Prop :=
  exists c m rc rm,
    py_index (frame_cpu_view fr) x = Ok c /\
    py_index (frame_mem_view fr) x = Ok m /\
    row_for (frame_height fr) c = Ok rc /\
    row_for (frame_height fr) m = Ok rm /\
    0 <= rc < frame_height fr /\ 0 <= rm < frame_height fr /\
    (rc = rm ->
     forall r, 0 <= r < frame_height fr ->
       cell (frame_canvas fr) r x
       = Some (if r =? rc then overlap_marker else blank)) /\
    (rc <> rm ->
     cell (frame_canvas fr) rc x = Some cpu_marker /\
     cell (frame_canvas fr) rm x = Some mem_marker /\
     forall r, 0 <= r < frame_height fr -> r <> rc -> r <> rm ->
       cell (frame_canvas fr) r x = Some blank).

Definition frame_ok (fr : Frame) : Prop :=
  canvas_shape (frame_height fr) (frame_shown fr) (frame_canvas fr) /\
  forall x, 0 <= x < frame_shown fr -> column_ok fr x.

(** ** A run used as an example *)

(** Every iteration reads the snapshots of [world_snapshots]. *)
Definition example_worlds : nat -> World := fun _ => world_snapshots.

(** Graph mode with [--samples 2] on [example_worlds]. *)
Definition example_outcome : outcome :=
  match main_graph 2 example_worlds f1 2 with
  | Ok o => o
  | Raise _ => Running empty_history []
  end.

(** The frame of the second iteration of the example. *)
Definition example_frame : Frame :=
  nth 1 (outcome_frames example_outcome)
      {| frame_height := 0; frame_cpu_view := []; frame_mem_view := [];
         frame_canvas := []; frame_legend := EmptyString; frame_rows_text := [];
         frame_baseline := EmptyString; frame_shown := 0 |}.

(** ** The output of typeperf *)

(** No carriage return and no line feed in [s]. *)
Fixpoint no_newline (s : string) : bool :=
  match s with
  | EmptyString => true
  | String c s' => negb (is_crlf c) && no_newline s'
  end.

(** [[ln for ln in out.splitlines() if ln.strip()]] *)
Definition nonempty_lines (out : string) : list string :=
  filter (fun ln => truthy_str (strip ln)) (splitlines out).

(** What the sampler makes of the columns 1 and 2 of the data row. *)
Definition parse_columns (r1 r2 : string) : sample :=
  match py_float r1, py_float r2 with
  | Ok cpu, Ok mem => (Some cpu, Some mem)
  | _, _ => (None, None)
  end.

Definition typeperf_header : string :=
  "(PDH-CSV 4.0),\\HOST\Processor(_Total)\% Processor Time,\\HOST\Memory\% Committed Bytes In Use".

(** A data row as typeperf writes it, every column between quotes. *)
Definition typeperf_data_row : string :=
  (dquote ++ "09/05/2025 14:35:52.123" ++ dquote ++ ","
   ++ dquote ++ "2.000000" ++ dquote ++ ","
   ++ dquote ++ "40.000000" ++ dquote)%string.

(** One header line and one data line. *)
Definition typeperf_two_lines : string :=
  (typeperf_header ++ newline ++ typeperf_data_row ++ newline)%string.

(** An empty line, the header, the data line and the closing words. *)
Definition typeperf_three_lines : string :=
  (newline ++ typeperf_header ++ newline ++ typeperf_data_row ++ newline
   ++ "Exiting, please wait..." ++ newline
   ++ typeperf_data_row ++ newline)%string.

(** The unit separator (code point 31): a blank for [str.strip], not
    for [float]. *)
Definition unit_separator : string := String (ascii_of_N 31) EmptyString.

(** A data row whose cpu column starts with it, after two header lines. *)
Definition typeperf_separator_row : string :=
  ("t," ++ unit_separator ++ "2.0,40.0")%string.

Definition typeperf_separator_lines : string :=
  (typeperf_header ++ newline ++ typeperf_header ++ newline
   ++ typeperf_separator_row ++ newline)%string.

(** The command line of typeperf for an interval of one second. *)
Definition typeperf_cmd_1 : list string :=
  ["typeperf"; "-sc"; "1"; "-si"; "1"] ++ counters.

(** ** Further worlds and checks *)

(** The world [w] with another /proc/meminfo. *)
Definition with_meminfo (w : World) (file : option (list string)) : World :=
  {| psutil := psutil w;
     platform_system := platform_system w;
     subprocess_run := subprocess_run w;
     proc_stat_exists := proc_stat_exists w;
     proc_stat := proc_stat w;
     proc_meminfo := file;
     time_sleep := time_sleep w;
     terminal_size := terminal_size w |}.

(** Some line of /proc/meminfo has the key [k]. *)
Definition has_key (lines : list string) (k : string) : bool :=
  existsb (fun line => match split_colon1 line with
                       | [k'; _] => String.eqb (strip k') k
                       | _ => false
                       end) lines.

(** A machine on which the sampler of iteration 1 raises. *)
Definition failing_worlds : nat -> World :=
  fun k => match k with
           | 1%nat => world_no_cpu_line
           | _ => world_snapshots
           end.

(** The labels of a canvas of [height] rows: the rows that carry one
    are the quarters of the height, every label is three characters
    wide, the top row is labelled 100 and the bottom row 0. *)
Definition labels_layout_ok (height : Z) : bool :=
  match ticks height with
  | Ok [t0; t1; t2; t3; t4] =>
      (t0 =? 0) && (t1 =? height / 4) && (t2 =? height / 2)
      && (t3 =? 3 * height / 4) && (t4 =? height - 1)
      && forallb (fun row =>
                    match tick_label height [t0; t1; t2; t3; t4] row with
                    | Ok s => len s =? 3
                    | Raise _ => false
                    end) (range height)
      && match tick_label height [t0; t1; t2; t3; t4] 0 with
         | Ok s => String.eqb s "100"
         | Raise _ => false
         end
      && match tick_label height [t0; t1; t2; t3; t4] (height - 1) with
         | Ok s => String.eqb s "  0"
         | Raise _ => false
         end
  | _ => false
  end.

(** A history of three samples. *)
Definition example_history : History :=
  {| cpu_hist := [10%float; 20%float; 30%float];
     mem_hist := [40%float; 50%float; 60%float];
     count := 3 |}.

(** A Linux machine whose terminal has [columns] columns and [lines]
    lines. *)
Definition sized_world (columns lines : Z) : World :=
  {| psutil := None;
     platform_system := "Linux";
     subprocess_run := fun _ => None;
     proc_stat_exists := true;
     proc_stat := proc_stat world_snapshots;
     proc_meminfo := proc_meminfo world_snapshots;
     time_sleep := fun _ => Ok tt;
     terminal_size := (columns, lines) |}.

Definition empty_frame : Frame :=
  {| frame_height := 0; frame_cpu_view := []; frame_mem_view := [];
     frame_canvas := []; frame_legend := EmptyString; frame_rows_text := [];
     frame_baseline := EmptyString; frame_shown := 0 |}.

(** A machine without psutil, typeperf and /proc: nothing can be read. *)
Definition bare_world : World :=
  {| psutil := None;
     platform_system := "Darwin";
     subprocess_run := fun _ => None;
     proc_stat_exists := false;
     proc_stat := fun _ => None;
     proc_meminfo := None;
     time_sleep := fun _ => Ok tt;
     terminal_size := (80, 24) |}.

(** The frame that [graph_iteration] draws, if it draws one. *)
Definition frame_of (r : result (History * Frame)) : Frame :=
  match r with
  | Ok (_, fr) => fr
  | Raise _ => empty_frame
  end.

Definition history_of (r : result (History * Frame)) : History :=
  match r with
  | Ok (h, _) => h
  | Raise _ => empty_history
  end.

(** A history of forty samples, more than the thirty columns of a
    narrow terminal. *)
Definition long_history : History :=
  {| cpu_hist := repeat 50%float 40;
     mem_hist := repeat 25%float 40;
     count := 40 |}.

(** One more iteration after [long_history], in a terminal of twenty
    columns. *)
Definition long_iteration : result (History * Frame) :=
  graph_iteration (sized_world 20 24) 1 long_history.

(** The text of [n] tenths: the integer part, a point and one digit. *)
Definition tenths_text (n : Z) : string :=
  (str_of_int (n / 10) ++ "." ++ str_of_int (n mod 10))%string.

(** Up to 100.0 the text of a number of tenths fills five columns. *)
Definition tenths_width_ok : bool :=
  forallb (fun n => len (pad_left 5 (tenths_text n)) =? 5) (range 1001).

(** ** The live line and the modes of [main] *)

Definition carriage_return : string := String (ascii_of_N 13) EmptyString.

(** What one iteration of the live line writes:
    ["\r" + line + " " * 10]. *)
Definition live_write (cpu mem : option float) : string :=
  (carriage_return ++ format_line cpu mem
   ++ String.concat "" (repeat " " 10))%string.

(** The [while True] loop of the live line, stopped after [fuel]
    iterations; [out] is what was written so far.  An interrupt from
    the keyboard is not modelled. *)
Fixpoint live_loop (fuel : nat) (worlds : nat -> World) (interval : float)
  (k : nat) (out : list string) : result (list string) :=
  match fuel with
  | O => Ok out
  | S fuel' =>
      '(cpu, mem) <- read_metrics (worlds k) interval ;;
      live_loop fuel' worlds interval (S k) (out ++ [live_write cpu mem])
  end.

(** The arguments of the command line. *)
Record Args : Type := {
  args_interval : float;
  args_once : bool;
  args_graph : bool;
  args_samples : Z
}.

(** What a run of [main] did, within [fuel] iterations of its loop. *)
Inductive run : Type :=
| RunOnce (line : string)          (* one line printed, then return *)
| RunGraph (o : outcome)           (* graph mode *)
| RunLive (out : list string)      (* the live line, still looping *).

(** [main], after the arguments are parsed. *)
Definition main (fuel : nat) (worlds : nat -> World) (args : Args) : result run :=
  if args_once args && negb (args_graph args) then
    line <- main_once (worlds 0%nat) (args_interval args) ;;
    Ok (RunOnce line)
  else if args_graph args then
    o <- main_graph fuel worlds (args_interval args) (args_samples args) ;;
    Ok (RunGraph o)
  else
    out <- live_loop fuel worlds (main_interval (args_interval args)) 0 [] ;;
    Ok (RunLive out).

(** A value that a sampler gives for a percentage: absent, or between
    0 and 100. *)
Definition percentage (v : option float) : bool :=
  match v with
  | None => true
  | Some x => in_range x
  end.
(** * Theorems *)

(** ** The selector *)

Lemma psutil_partial : _read_with_psutil world_partial f1 = Ok (Some 55%float, None).
Proof. reflexivity. Qed.

Lemma linux_partial : _read_linux_proc world_partial f1 = Ok (None, Some 60%float).
Proof. vm_compute. reflexivity. Qed.

(** C1, as stated, fails: the first sampler returns [(55.0, None)], the
    second [(None, 60.0)], and the selector returns [(None, 60.0)], not
    [(None, None)]. *)
Lemma read_metrics_partial_not_a_miss :
  _read_with_psutil world_partial f1 = Ok (Some 55%float, None) /\
  native_sampler world_partial f1 = Ok (None, Some 60%float) /\
  read_metrics world_partial f1 = Ok (None, Some 60%float) /\
  read_metrics world_partial f1 <> Ok (None, None).
Proof.
  split; [reflexivity|].
  split; [vm_compute; reflexivity|].
  split; [vm_compute; reflexivity|].
  vm_compute. intro H. discriminate H.
Qed.

(** C1 (amended): the psutil result is returned when both of its values
    are present; when one is absent the result of [read_metrics] is the
    result of the platform sampler, as it is, whether partial or not
    (and [(None, None)] when no platform sampler applies). *)
Theorem read_metrics_selects :
  forall (w : World) (interval : float) (cpu mem : option float),
    _read_with_psutil w interval = Ok (cpu, mem) ->
    (forall c m, cpu = Some c -> mem = Some m ->
                 read_metrics w interval = Ok (Some c, Some m)) /\
    (cpu = None \/ mem = None ->
       read_metrics w interval = native_sampler w interval) /\
    (cpu = None \/ mem = None ->
       String.eqb (platform_system w) "Windows" = false ->
       proc_stat_exists w = false ->
       read_metrics w interval = Ok (None, None)).
Proof.
  intros w interval cpu mem Hps.
  unfold read_metrics, native_sampler. rewrite Hps. cbn [bind].
  repeat split.
  - intros c m -> ->. reflexivity.
  - intros [-> | ->]; [reflexivity | destruct cpu; reflexivity].
  - intros Hpart Hwin Hstat. rewrite Hwin, Hstat.
    destruct Hpart as [-> | ->]; [reflexivity | destruct cpu; reflexivity].
Qed.

Lemma read_metrics_selects_witness :
  read_metrics world_partial f1 = native_sampler world_partial f1.
Proof.
  apply (read_metrics_selects world_partial f1 (Some 55%float) None).
  - reflexivity.
  - right. reflexivity.
Defined.

(** ** The Linux sampler *)

Lemma scan_cpu_line_none :
  forall lines, no_cpu_line lines = true -> scan_cpu_line lines = Ok None.
Proof.
  induction lines as [|line rest IH]; intros H; [reflexivity|].
  cbn [no_cpu_line forallb] in H. apply andb_true_iff in H as [H1 H2].
  cbn [scan_cpu_line]. destruct (startswith "cpu " line); [discriminate H1|].
  apply IH. exact H2.
Qed.

(** C2: when no line of /proc/stat starts with [cpu ], the sampler does
    not return [(None, mem)]: unpacking the [None] of [read_cpu_times]
    raises TypeError, whatever /proc/meminfo holds. *)
Theorem linux_missing_cpu_line_raises :
  forall (w : World) (interval : float) (lines : list string),
    proc_stat w 0%nat = Some lines ->
    no_cpu_line lines = true ->
    _read_linux_proc w interval = Raise TypeError.
Proof.
  intros w interval lines Hfile Hnone.
  unfold _read_linux_proc, read_cpu_times. rewrite Hfile. cbn [open_lines bind].
  rewrite (scan_cpu_line_none lines Hnone). reflexivity.
Qed.

Lemma linux_missing_cpu_line_raises_witness :
  _read_linux_proc world_no_cpu_line f1 = Raise TypeError.
Proof.
  apply (linux_missing_cpu_line_raises world_no_cpu_line f1
           ["cpu0 900 0 0 100 0"; "intr 0"]); reflexivity.
Defined.

(** Malformed numeric text and a short line raise as well. *)
Lemma linux_malformed_counter_raises :
  _read_linux_proc (linux_world ["cpu  900 x 0 100"] ["cpu  900 0 0 100"] meminfo_60) f1
  = Raise ValueError /\
  _read_linux_proc (linux_world ["cpu  900 0 0"] ["cpu  900 0 0 100"] meminfo_60) f1
  = Raise IndexError.
Proof. split; vm_compute; reflexivity. Qed.

(** The memory side does what C2 says: it never raises. *)
Lemma mem_percent_returns :
  forall file, exists mem, mem_percent file = Ok mem.
Proof.
  intros file. unfold mem_percent, catch.
  match goal with |- exists _, match ?r with _ => _ end = _ => destruct r as [m|e] end.
  - exists m. reflexivity.
  - exists None. reflexivity.
Qed.

(** A failure on the memory side leaves the cpu value as it is. *)
Lemma linux_memory_failure_keeps_cpu :
  forall (w : World) (interval : float) (i1 t1 i2 t2 : Z) (cpu : option float),
    read_cpu_times (proc_stat w 0%nat) = Ok (Some (i1, t1)) ->
    time_sleep w (interval_or_1 interval) = Ok tt ->
    read_cpu_times (proc_stat w 1%nat) = Ok (Some (i2, t2)) ->
    cpu_percent i1 t1 i2 t2 = Ok cpu ->
    exists mem, _read_linux_proc w interval = Ok (cpu, mem).
Proof.
  intros w interval i1 t1 i2 t2 cpu H1 Hs H2 Hc.
  destruct (mem_percent_returns (proc_meminfo w)) as [mem Hm].
  exists mem. unfold _read_linux_proc.
  rewrite H1. cbn [bind unpack_pair]. rewrite Hs. cbn [bind].
  rewrite H2. cbn [bind unpack_pair]. rewrite Hc. cbn [bind].
  rewrite Hm. reflexivity.
Qed.

Lemma cpu_percent_words :
  forall idle1 total1 idle2 total2,
    cpu_percent idle1 total1 idle2 total2 = spec_cpu_percent idle1 total1 idle2 total2.
Proof.
  intros. unfold cpu_percent, spec_cpu_percent.
  destruct (Z.gtb_spec (total2 - total1) 0), (Z.ltb_spec total1 total2);
    try reflexivity; lia.
Qed.

(** C4: from two snapshots the sampler computes
    [100 * (1 - (idle2-idle1)/(total2-total1))] when [total2 > total1]
    and no value otherwise; the snapshots (100, 1000) and (110, 1100)
    give 90.0. *)
Theorem linux_cpu_from_snapshots :
  forall (w : World) (interval : float) (idle1 total1 idle2 total2 : Z),
    read_cpu_times (proc_stat w 0%nat) = Ok (Some (idle1, total1)) ->
    time_sleep w (interval_or_1 interval) = Ok tt ->
    read_cpu_times (proc_stat w 1%nat) = Ok (Some (idle2, total2)) ->
    cpu_percent idle1 total1 idle2 total2
      = spec_cpu_percent idle1 total1 idle2 total2 /\
    (total2 > total1 ->
       forall q, int_truediv (idle2 - idle1) (total2 - total1) = Ok q ->
         exists mem,
           _read_linux_proc w interval = Ok (Some (f100 * (f1 - q))%float, mem)) /\
    (total2 <= total1 ->
       exists mem, _read_linux_proc w interval = Ok (None, mem)) /\
    cpu_percent 100 1000 110 1100 = Ok (Some 90%float).
Proof.
  intros w interval idle1 total1 idle2 total2 H1 Hs H2.
  split; [apply cpu_percent_words|].
  split; [|split].
  - intros Hgt q Hq.
    apply (linux_memory_failure_keeps_cpu w interval idle1 total1 idle2 total2);
      try assumption.
    unfold cpu_percent. destruct (Z.gtb_spec (total2 - total1) 0); [|lia].
    rewrite Hq. reflexivity.
  - intros Hle.
    apply (linux_memory_failure_keeps_cpu w interval idle1 total1 idle2 total2);
      try assumption.
    unfold cpu_percent. destruct (Z.gtb_spec (total2 - total1) 0); [lia|].
    reflexivity.
  - vm_compute. reflexivity.
Qed.

Lemma linux_cpu_from_snapshots_witness :
  exists mem, _read_linux_proc world_snapshots f1 = Ok (Some 90%float, mem).
Proof.
  destruct (linux_cpu_from_snapshots world_snapshots f1 100 1000 110 1100)
    as (_ & Hgt & _); try (vm_compute; reflexivity).
  apply (Hgt ltac:(lia) 0.1%float). vm_compute. reflexivity.
Defined.

(** ** The text line *)

(** C5: [format_line] writes each present value in the format [5.1f]
    after its name and [N/A] for an absent one, and joins the two fields
    with [ | ]. *)
Theorem format_line_fields :
  (forall cpu mem : option float,
     format_line cpu mem
     = (spec_field "CPU" cpu ++ " | " ++ spec_field "Memory" mem)%string) /\
  format_line (Some 12.34%float) (Some 56.78%float) = "CPU:  12.3% | Memory:  56.8%" /\
  format_line None (Some 99.95%float) = "CPU: N/A | Memory: 100.0%".
Proof.
  split; [|split; vm_compute; reflexivity].
  intros [c|] [m|]; reflexivity.
Qed.

(** ** The history *)

Lemma ltb_leb : forall a b : float, PrimFloat.ltb a b = true -> PrimFloat.leb a b = true.
Proof.
  intros a b. rewrite ltb_spec, leb_spec. unfold SFltb, SFleb.
  destruct (SFcompare (Prim2SF a) (Prim2SF b)) as [[ | | ]|]; intros H;
    try reflexivity; discriminate H.
Qed.

Lemma clamp_in_range : forall v : option float, in_range (clamp v) = true.
Proof.
  intros [x|]; [|reflexivity].
  unfold clamp, py_min, py_max.
  destruct (PrimFloat.ltb x f100) eqn:Hx.
  - destruct (PrimFloat.ltb f0 x) eqn:H0; [|reflexivity].
    unfold in_range. rewrite (ltb_leb _ _ H0), (ltb_leb _ _ Hx). reflexivity.
  - reflexivity.
Qed.

Lemma append_sample_ok :
  forall h s, history_ok h -> history_ok (append_sample h s).
Proof.
  intros h s [Hc Hm]. split; cbn [append_sample cpu_hist mem_hist];
    apply Forall_app; (split; [assumption|]);
    constructor; [apply clamp_in_range | constructor | apply clamp_in_range | constructor].
Qed.

Lemma graph_iteration_history :
  forall w interval h h' fr,
    graph_iteration w interval h = Ok (h', fr) ->
    exists s, read_metrics w interval = Ok s /\ h' = append_sample h s.
Proof.
  intros w interval h h' fr. unfold graph_iteration.
  destruct (read_metrics w interval) as [s|e]; cbn [bind]; [|discriminate].
  destruct (terminal_size w) as [columns lines].
  destruct (render _ _ _ _); cbn [bind]; [|discriminate].
  destruct (py_index _ _); cbn [bind]; [|discriminate].
  destruct (py_index _ _); cbn [bind]; [|discriminate].
  destruct (ticks _); cbn [bind]; [|discriminate].
  destruct (frame_rows _ _ _ _); cbn [bind]; [|discriminate].
  intros H. injection H as <- _. exists s. split; reflexivity.
Qed.

Lemma graph_loop_history_ok :
  forall fuel worlds interval samples k h frames o,
    history_ok h ->
    graph_loop fuel worlds interval samples k h frames = Ok o ->
    history_ok (outcome_history o).
Proof.
  induction fuel as [|fuel IH]; intros worlds interval samples k h frames o Hok.
  - cbn [graph_loop]. intros H. injection H as <-. exact Hok.
  - cbn [graph_loop].
    destruct (graph_iteration (worlds k) interval h) as [[h' fr]|e] eqn:Hit;
      cbn [bind]; [|discriminate].
    destruct (graph_iteration_history _ _ _ _ _ Hit) as (s & _ & ->).
    destruct ((samples >? 0) && (count (append_sample h s) >=? samples)).
    + intros H. injection H as <-. apply append_sample_ok. exact Hok.
    + apply IH. apply append_sample_ok. exact Hok.
Qed.


(** * The rounding of binary floats *)


(** ** Powers of two *)

Lemma bpow_gt_0 : forall e, (0 < bpow e)%R.
Proof. intros e. apply powerRZ_lt. lra. Qed.

Lemma bpow_add : forall a b, bpow (a + b) = (bpow a * bpow b)%R.
Proof. intros a b. apply powerRZ_add. lra. Qed.

Lemma bpow_IZR : forall k, 0 <= k -> bpow k = IZR (2 ^ k).
Proof.
  intros k Hk. unfold bpow.
  rewrite <- (Z2Nat.id k Hk) at 1. rewrite <- pow_powerRZ.
  rewrite pow_IZR. rewrite Z2Nat.id by exact Hk. reflexivity.
Qed.

Lemma F2R_shift : forall m e k, 0 <= k -> F2R (m * 2 ^ k) e = F2R m (e + k).
Proof.
  intros m e k Hk. unfold F2R.
  rewrite mult_IZR, <- (bpow_IZR k Hk), (Z.add_comm e k), bpow_add. ring.
Qed.

Lemma F2R_le : forall a b e, a <= b -> (F2R a e <= F2R b e)%R.
Proof.
  intros a b e H. unfold F2R. apply Rmult_le_compat_r.
  - left. apply bpow_gt_0.
  - apply IZR_le. exact H.
Qed.

Lemma F2R_lt : forall a b e, a < b -> (F2R a e < F2R b e)%R.
Proof.
  intros a b e H. unfold F2R. apply Rmult_lt_compat_r.
  - apply bpow_gt_0.
  - apply IZR_lt. exact H.
Qed.

Lemma F2R_le_inv : forall a b e, (F2R a e <= F2R b e)%R -> a <= b.
Proof.
  intros a b e H. destruct (Z_lt_le_dec b a) as [Hlt|Hle]; [|exact Hle].
  apply (F2R_lt b a e) in Hlt. lra.
Qed.

Lemma F2R_lt_inv : forall a b e, (F2R a e < F2R b e)%R -> a < b.
Proof.
  intros a b e H. destruct (Z_lt_le_dec a b) as [Hlt|Hle]; [exact Hlt|].
  apply (F2R_le b a e) in Hle. lra.
Qed.

Lemma F2R_0 : forall e, F2R 0 e = 0%R.
Proof. intros e. unfold F2R. ring. Qed.

Lemma F2R_ge_0 : forall m e, 0 <= m -> (0 <= F2R m e)%R.
Proof. intros m e H. rewrite <- (F2R_0 e). apply F2R_le. exact H. Qed.

(** ** Number of digits *)

Lemma digits2_pos_bounds :
  forall p, 2 ^ (Z.pos (digits2_pos p) - 1) <= Z.pos p < 2 ^ Z.pos (digits2_pos p).
Proof.
  induction p as [p IH|p IH|]; cbn [digits2_pos].
  - rewrite Pos2Z.inj_succ.
    replace (Z.succ (Z.pos (digits2_pos p)) - 1) with (Z.succ (Z.pos (digits2_pos p) - 1)) by lia.
    rewrite !Z.pow_succ_r by lia. lia.
  - rewrite Pos2Z.inj_succ.
    replace (Z.succ (Z.pos (digits2_pos p)) - 1) with (Z.succ (Z.pos (digits2_pos p) - 1)) by lia.
    rewrite !Z.pow_succ_r by lia. lia.
  - cbn. lia.
Qed.

Lemma Zdigits2_nonneg : forall m, 0 <= Zdigits2 m.
Proof. intros [|p|p]; cbn; lia. Qed.

Lemma Zdigits2_bounds :
  forall m, 0 < m -> 2 ^ (Zdigits2 m - 1) <= m < 2 ^ Zdigits2 m.
Proof.
  intros [|p|p] H; try lia. cbn [Zdigits2]. apply digits2_pos_bounds.
Qed.

Lemma Zdigits2_lower : forall m k, 0 <= k -> 2 ^ k <= m -> k + 1 <= Zdigits2 m.
Proof.
  intros m k Hk H.
  assert (Hm : 0 < m) by (pose proof (Z.pow_pos_nonneg 2 k); lia).
  pose proof (Zdigits2_bounds m Hm) as [_ Hu].
  pose proof (Zdigits2_nonneg m).
  assert (2 ^ k < 2 ^ Zdigits2 m) by lia.
  apply Z.pow_lt_mono_r_iff in H1; lia.
Qed.

Lemma Zdigits2_upper : forall m k, 0 <= k -> 0 <= m < 2 ^ k -> Zdigits2 m <= k.
Proof.
  intros m k Hk [H0 H].
  destruct (Z.eq_dec m 0) as [->|Hne]; [cbn; lia|].
  pose proof (Zdigits2_bounds m ltac:(lia)) as [Hl _].
  destruct (Z_lt_le_dec k (Zdigits2 m)) as [Hlt|Hle]; [|exact Hle].
  assert (2 ^ k <= 2 ^ (Zdigits2 m - 1)) by (apply Z.pow_le_mono_r; lia).
  lia.
Qed.

(** ** Shifting a mantissa to the right *)

Lemma iter_pos_nat :
  forall (A : Type) (f : A -> A) (p : positive) (x : A),
    SpecFloat.iter_pos f p x = Nat.iter (Pos.to_nat p) f x.
Proof.
  intros A f. induction p as [p IH|p IH|]; intros x; cbn [SpecFloat.iter_pos].
  - rewrite !IH, Pos2Nat.inj_xI.
    replace (S (2 * Pos.to_nat p)) with (Pos.to_nat p + S (Pos.to_nat p))%nat by lia.
    rewrite Nat.iter_add, Nat.iter_succ_r. reflexivity.
  - rewrite !IH, Pos2Nat.inj_xO.
    replace (2 * Pos.to_nat p)%nat with (Pos.to_nat p + Pos.to_nat p)%nat by lia.
    rewrite Nat.iter_add. reflexivity.
  - reflexivity.
Qed.

Lemma shr_1_mantissa :
  forall mrs, 0 <= shr_m mrs ->
    shr_m mrs = 2 * shr_m (shr_1 mrs) + (if shr_r (shr_1 mrs) then 1 else 0) /\
    0 <= shr_m (shr_1 mrs) /\
    shr_s (shr_1 mrs) = shr_r mrs || shr_s mrs.
Proof.
  intros [m r s]. cbn [shr_m]. intros Hm.
  destruct m as [|[p|p|]|p]; cbn; try lia; repeat split; lia.
Qed.

Lemma encloses_shr_1 :
  forall mrs e x, encloses mrs e x -> encloses (shr_1 mrs) (e + 1) x.
Proof.
  intros mrs e x (Hm & [Hl Hu] & Hex & Hst).
  destruct (shr_1_mantissa mrs Hm) as (Heq & Hm' & Hs).
  set (m' := shr_m (shr_1 mrs)) in *.
  assert (E1 : forall a, F2R a (e + 1) = F2R (a * 2 ^ 1) e)
    by (intros a; rewrite F2R_shift by lia; reflexivity).
  change (2 ^ 1) with 2 in E1.
  unfold encloses. fold m'. rewrite !E1, Hs.
  split; [exact Hm'|]. split; [split|split].
  - apply Rle_trans with (2 := Hl). apply F2R_le. destruct (shr_r (shr_1 mrs)); lia.
  - apply Rlt_le_trans with (1 := Hu). apply F2R_le. destruct (shr_r (shr_1 mrs)); lia.
  - intros H. apply orb_false_iff in H as [Hr Hrs].
    rewrite Hr in Heq. rewrite (Hex Hrs). f_equal. lia.
  - intros H. destruct (shr_r (shr_1 mrs)) eqn:Hr.
    + apply Rlt_le_trans with (2 := Hl). apply F2R_lt. lia.
    + cbn in H. apply Rle_lt_trans with (2 := Hst H). apply F2R_le. lia.
Qed.

Lemma shr_1_div2 :
  forall mrs, 0 <= shr_m mrs -> shr_m (shr_1 mrs) = shr_m mrs / 2.
Proof.
  intros mrs Hm. destruct (shr_1_mantissa mrs Hm) as (Heq & Hm' & _).
  apply (Z.div_unique _ _ _ (if shr_r (shr_1 mrs) then 1 else 0)).
  - destruct (shr_r (shr_1 mrs)); lia.
  - exact Heq.
Qed.

Lemma encloses_iter :
  forall n mrs e x, encloses mrs e x ->
    encloses (Nat.iter n shr_1 mrs) (e + Z.of_nat n) x /\
    shr_m (Nat.iter n shr_1 mrs) = shr_m mrs / 2 ^ Z.of_nat n.
Proof.
  induction n as [|n IH]; intros mrs e x H.
  - cbn [Nat.iter]. rewrite Z.add_0_r. split; [exact H|].
    cbn. rewrite Z.div_1_r. reflexivity.
  - destruct (IH mrs e x H) as [H1 H2]. rewrite Nat.iter_succ.
    split.
    + replace (e + Z.of_nat (S n)) with (e + Z.of_nat n + 1) by lia.
      apply encloses_shr_1. exact H1.
    + rewrite shr_1_div2 by (destruct H1 as [Hm _]; exact Hm).
      rewrite H2, Nat2Z.inj_succ, Z.pow_succ_r by lia.
      rewrite Z.div_div by (pose proof (Z.pow_pos_nonneg 2 (Z.of_nat n)); lia).
      f_equal. ring.
Qed.

Lemma shr_spec :
  forall mrs e n x, encloses mrs e x -> 0 <= n ->
    snd (shr mrs e n) = e + n /\
    encloses (fst (shr mrs e n)) (e + n) x /\
    shr_m (fst (shr mrs e n)) = shr_m mrs / 2 ^ n.
Proof.
  intros mrs e n x H Hn. destruct n as [|p|p]; [| |lia].
  - cbn [shr fst snd]. rewrite Z.add_0_r, Z.div_1_r.
    split; [reflexivity|]. split; [exact H|reflexivity].
  - cbn [shr fst snd]. rewrite iter_pos_nat.
    destruct (encloses_iter (Pos.to_nat p) mrs e x H) as [H1 H2].
    rewrite positive_nat_Z in H1, H2.
    split; [reflexivity|]. split; assumption.
Qed.

(** ** One rounding step *)

Lemma fexp_eq : forall e, fexp prec emax e = Z.max (e - 53) (-1074).
Proof. reflexivity. Qed.

Lemma shr_m_of_loc : forall m l, shr_m (shr_record_of_loc m l) = m.
Proof. intros m [|[ | | ]]; reflexivity. Qed.

Lemma encloses_of_loc_exact :
  forall m e, 0 <= m -> encloses (shr_record_of_loc m loc_Exact) e (F2R m e).
Proof.
  intros m e Hm. unfold encloses. cbn [shr_record_of_loc shr_m shr_r shr_s orb].
  split; [exact Hm|]. split; [split; [lra | apply F2R_lt; lia]|].
  split; [reflexivity | discriminate].
Qed.

Lemma shr_fexp_spec :
  forall mx ex lx x,
    encloses (shr_record_of_loc mx lx) ex x ->
    ex <= fexp prec emax (Zdigits2 mx + ex) ->
    snd (shr_fexp prec emax mx ex lx) = fexp prec emax (Zdigits2 mx + ex) /\
    encloses (fst (shr_fexp prec emax mx ex lx)) (fexp prec emax (Zdigits2 mx + ex)) x /\
    canonical_at (shr_m (fst (shr_fexp prec emax mx ex lx)))
                 (fexp prec emax (Zdigits2 mx + ex)).
Proof.
  intros mx ex lx x Henc Hpre.
  set (e1 := fexp prec emax (Zdigits2 mx + ex)) in *.
  unfold shr_fexp. fold e1.
  destruct (shr_spec _ ex (e1 - ex) x Henc ltac:(lia)) as (Hs & He & Hm).
  replace (ex + (e1 - ex)) with e1 in Hs, He by lia.
  rewrite shr_m_of_loc in Hm.
  split; [exact Hs|]. split; [exact He|].
  assert (Hmx : 0 <= mx) by (destruct Henc as [H _]; rewrite shr_m_of_loc in H; exact H).
  pose proof (Zdigits2_nonneg mx) as Hd.
  assert (He1 : e1 = Z.max (Zdigits2 mx + ex - 53) (-1074)) by reflexivity.
  assert (Hpow : 0 < 2 ^ (e1 - ex)) by (apply Z.pow_pos_nonneg; lia).
  rewrite Hm. unfold canonical_at. split; [split|split].
  - apply Z.div_pos; lia.
  - destruct (Z.eq_dec mx 0) as [->|Hne].
    + rewrite Z.div_0_l by lia. lia.
    + pose proof (Zdigits2_bounds mx ltac:(lia)) as [_ Hu].
      apply Z.div_lt_upper_bound; [exact Hpow|].
      rewrite <- Z.pow_add_r by lia.
      apply Z.lt_le_trans with (1 := Hu). apply Z.pow_le_mono_r; lia.
  - lia.
  - intros Hgt.
    assert (He1' : e1 = Zdigits2 mx + ex - 53) by lia.
    destruct (Z.eq_dec mx 0) as [->|Hne]; [cbn in He1'; lia|].
    pose proof (Zdigits2_bounds mx ltac:(lia)) as [Hl _].
    apply Z.div_le_lower_bound; [exact Hpow|].
    rewrite <- Z.pow_add_r by lia.
    replace (e1 - ex + 52) with (Zdigits2 mx - 1) by lia. exact Hl.
Qed.

(** ** Canonical mantissas *)

Lemma bounded_canonical :
  forall m e,
    SpecFloat.bounded prec emax m e = true <-> canonical_at (Z.pos m) e /\ e <= 971.
Proof.
  intros m e. unfold SpecFloat.bounded, canonical_mantissa.
  rewrite andb_true_iff, Z.eqb_eq, Z.leb_le, fexp_eq.
  change (emax - prec) with 971.
  pose proof (digits2_pos_bounds m) as [Hl Hu].
  unfold canonical_at. split.
  - intros [Hc He]. split; [|exact He].
    assert (Hd : Z.pos (digits2_pos m) <= 53) by lia.
    split; [split; [lia|]|split; [lia|]].
    + apply Z.lt_le_trans with (1 := Hu). apply Z.pow_le_mono_r; lia.
    + intros Hgt. assert (Hd' : Z.pos (digits2_pos m) = 53) by lia.
      rewrite Hd' in Hl. exact Hl.
  - intros [([_ Hm] & He & Hn) Hb]. split; [|exact Hb].
    assert (Hd : Z.pos (digits2_pos m) <= 53)
      by (apply (Zdigits2_upper (Z.pos m) 53); lia).
    destruct (Z.eq_dec e (-1074)) as [->|Hne]; [lia|].
    assert (Hd' : 53 <= Z.pos (digits2_pos m))
      by (apply (Zdigits2_lower (Z.pos m) 52); [lia | apply Hn; lia]).
    lia.
Qed.

Lemma F2R_rescale :
  forall m e e', e' <= e -> F2R m e = F2R (m * 2 ^ (e - e')) e'.
Proof.
  intros m e e' H. rewrite F2R_shift by lia. f_equal. lia.
Qed.

Lemma grid_up :
  forall m1 e1 mb eb,
    canonical_at m1 e1 -> canonical_at mb eb ->
    (F2R m1 e1 < F2R mb eb)%R -> (F2R (m1 + 1) e1 <= F2R mb eb)%R.
Proof.
  intros m1 e1 mb eb ([H1l H1u] & H1e & H1n) ([Hbl Hbu] & Hbe & Hbn) Hlt.
  destruct (Z_le_gt_dec e1 eb) as [Hle|Hgt].
  - rewrite (F2R_rescale mb eb e1 Hle) in *.
    apply F2R_lt_inv in Hlt. apply F2R_le. lia.
  - exfalso. rewrite (F2R_rescale m1 e1 eb ltac:(lia)) in Hlt.
    apply F2R_lt_inv in Hlt.
    assert (2 ^ 1 <= 2 ^ (e1 - eb)) by (apply Z.pow_le_mono_r; lia).
    specialize (H1n ltac:(lia)). change (2 ^ 1) with 2 in H.
    assert (2 ^ 53 <= m1 * 2 ^ (e1 - eb)) by (change (2 ^ 53) with (2 ^ 52 * 2); nia).
    lia.
Qed.

Lemma grid_down :
  forall m1 e1 mb eb,
    canonical_at m1 e1 -> canonical_at mb eb ->
    (F2R mb eb < F2R (m1 + 1) e1)%R -> (F2R mb eb <= F2R m1 e1)%R.
Proof.
  intros m1 e1 mb eb ([H1l H1u] & H1e & H1n) ([Hbl Hbu] & Hbe & Hbn) Hlt.
  destruct (Z_le_gt_dec e1 eb) as [Hle|Hgt].
  - rewrite (F2R_rescale mb eb e1 Hle) in *.
    apply F2R_lt_inv in Hlt. apply F2R_le. lia.
  - rewrite (F2R_rescale m1 e1 eb ltac:(lia)).
    assert (2 ^ 1 <= 2 ^ (e1 - eb)) by (apply Z.pow_le_mono_r; lia).
    specialize (H1n ltac:(lia)). change (2 ^ 1) with 2 in H.
    assert (2 ^ 53 <= m1 * 2 ^ (e1 - eb)) by (change (2 ^ 53) with (2 ^ 52 * 2); nia).
    apply F2R_le. lia.
Qed.

(** ** Rounding to nearest *)

Lemma round_nearest_even_cases :
  forall mrs,
    let m2 := round_nearest_even (shr_m mrs) (loc_of_shr_record mrs) in
    m2 = shr_m mrs \/ (m2 = shr_m mrs + 1 /\ shr_r mrs || shr_s mrs = true).
Proof.
  intros [m [|] [|]]; cbn; try (left; reflexivity); try (right; split; reflexivity).
  destruct (Z.even m); [left | right; split]; reflexivity.
Qed.

(** The result of [binary_round_aux]: a canonical mantissa and exponent
    which no canonical float separates from the exact value [x]. *)
Lemma binary_round_aux_spec :
  forall s mx ex lx x,
    encloses (shr_record_of_loc mx lx) ex x ->
    ex <= fexp prec emax (Zdigits2 mx + ex) ->
    exists m e,
      canonical_at m e /\
      binary_round_aux prec emax s mx ex lx
      = match m with
        | Z0 => S754_zero s
        | Z.pos p => if e <=? 971 then S754_finite s p e else S754_infinity s
        | Z.neg _ => S754_nan
        end /\
      (forall mb eb, canonical_at mb eb ->
         (x <= F2R mb eb)%R -> (F2R m e <= F2R mb eb)%R) /\
      (forall mb eb, canonical_at mb eb ->
         (F2R mb eb <= x)%R -> (F2R mb eb <= F2R m e)%R).
Proof.
  intros s mx ex lx x Henc Hpre.
  destruct (shr_fexp_spec mx ex lx x Henc Hpre) as (Hs1 & He1 & Hc1).
  unfold binary_round_aux.
  destruct (shr_fexp prec emax mx ex lx) as [mrs1 e1'] eqn:E1.
  cbn [fst snd] in Hs1, He1, Hc1. subst e1'.
  set (e1 := fexp prec emax (Zdigits2 mx + ex)) in *.
  set (m1 := shr_m mrs1) in *.
  set (m2 := round_nearest_even m1 (loc_of_shr_record mrs1)).
  assert (Hm2 : m2 = m1 \/ (m2 = m1 + 1 /\ shr_r mrs1 || shr_s mrs1 = true))
    by apply round_nearest_even_cases.
  destruct Hc1 as ([H1l H1u] & H1e & H1n).
  assert (Hm2pos : 0 <= m2) by lia.
  assert (Hpre2 : e1 <= fexp prec emax (Zdigits2 m2 + e1)).
  { rewrite fexp_eq. destruct (Z.eq_dec e1 (-1074)) as [->|Hne]; [lia|].
    assert (53 <= Zdigits2 m2) by (apply (Zdigits2_lower m2 52); lia). lia. }
  destruct (shr_fexp_spec m2 e1 loc_Exact (F2R m2 e1)
              (encloses_of_loc_exact m2 e1 Hm2pos) Hpre2) as (Hs3 & He3 & Hc3).
  destruct (shr_fexp prec emax m2 e1 loc_Exact) as [mrs3 e3'] eqn:E3.
  cbn [fst snd] in Hs3, He3, Hc3. subst e3'.
  set (e3 := fexp prec emax (Zdigits2 m2 + e1)) in *.
  set (m3 := shr_m mrs3) in *.
  exists m3, e3. split; [exact Hc3|]. split.
  - change (emax - prec) with 971. destruct m3 as [|p|p]; reflexivity.
  - destruct He1 as (_ & [Hxl Hxu] & _ & Hst).
    destruct He3 as (_ & [Hyl Hyu] & _ & _).
    fold m1 in Hxl, Hxu, Hst. fold m3 in Hyl, Hyu.
    assert (Hc1 : canonical_at m1 e1) by (unfold canonical_at; lia).
    split; intros mb eb Hcb Hb.
    + apply Rle_trans with (1 := Hyl).
      destruct Hm2 as [-> | [-> Hup]]; [lra|].
      apply grid_up; try assumption. specialize (Hst Hup). lra.
    + apply grid_down; try assumption.
      apply Rle_lt_trans with (2 := Hyu).
      apply Rle_trans with (F2R m1 e1).
      * apply grid_down; try assumption. lra.
      * apply F2R_le. lia.
Qed.

(** ** Rounded results between two canonical floats *)

Lemma canonical_zero : canonical_at 0 (-1074).
Proof. unfold canonical_at. lia. Qed.

Lemma canonical_one : canonical_at (2 ^ 52) (-52) /\ F2R (2 ^ 52) (-52) = 1%R.
Proof.
  split; [unfold canonical_at; lia|].
  change (2 ^ 52) with (1 * 2 ^ (0 - -52)).
  rewrite <- (F2R_rescale 1 0 (-52)) by lia. unfold F2R, bpow. cbn. ring.
Qed.

Lemma F2R_IZR : forall z, F2R z 0 = IZR z.
Proof. intros z. unfold F2R, bpow. cbn. ring. Qed.

Lemma F2R_mul : forall a e1 b e2, (F2R a e1 * F2R b e2)%R = F2R (a * b) (e1 + e2).
Proof. intros. unfold F2R. rewrite mult_IZR, bpow_add. ring. Qed.

Lemma F2R_pos : forall p e, (0 < F2R (Z.pos p) e)%R.
Proof. intros p e. rewrite <- (F2R_0 e). apply F2R_lt. lia. Qed.

Lemma binary_round_aux_between :
  forall mx ex lx x ml el mb eb,
    encloses (shr_record_of_loc mx lx) ex x ->
    ex <= fexp prec emax (Zdigits2 mx + ex) ->
    canonical_at ml el -> canonical_at mb eb -> eb <= 971 ->
    (F2R ml el <= x <= F2R mb eb)%R ->
    sf_between (F2R ml el) (binary_round_aux prec emax false mx ex lx) (F2R mb eb) /\
    valid_binary (binary_round_aux prec emax false mx ex lx) = true.
Proof.
  intros mx ex lx x ml el mb eb Henc Hpre Hcl Hcb Heb [Hlo Hhi].
  destruct (binary_round_aux_spec false mx ex lx x Henc Hpre)
    as (m & e & Hc & -> & Hup & Hdown).
  specialize (Hup mb eb Hcb Hhi). specialize (Hdown ml el Hcl Hlo).
  destruct m as [|p|p].
  - rewrite F2R_0 in Hup, Hdown. cbn. split; [lra | reflexivity].
  - assert (He : e <= 971).
    { destruct (Z_le_gt_dec e 971) as [H|H]; [exact H|exfalso].
      destruct Hc as (_ & _ & Hn). specialize (Hn ltac:(lia)).
      destruct Hcb as ([_ Hbu] & _).
      rewrite (F2R_rescale (Z.pos p) e eb ltac:(lia)) in Hup.
      apply F2R_le_inv in Hup.
      assert (2 ^ 1 <= 2 ^ (e - eb)) by (apply Z.pow_le_mono_r; lia).
      change (2 ^ 1) with 2 in H0.
      assert (2 ^ 53 <= Z.pos p * 2 ^ (e - eb))
        by (change (2 ^ 53) with (2 ^ 52 * 2); nia).
      lia. }
    destruct (Z.leb_spec e 971) as [_|H]; [|lia].
    cbn [sf_between valid_binary]. split; [lra|].
    apply bounded_canonical. split; assumption.
  - destruct Hc as ([H _] & _). lia.
Qed.

(** ** Multiplication *)

Lemma canonical_digits :
  forall p e, canonical_at (Z.pos p) e ->
    1 <= Zdigits2 (Z.pos p) /\ (-1074 < e -> 53 <= Zdigits2 (Z.pos p)).
Proof.
  intros p e (_ & _ & Hn). split.
  - apply (Zdigits2_lower (Z.pos p) 0); cbn; lia.
  - intros H. apply (Zdigits2_lower (Z.pos p) 52); [lia | apply Hn; exact H].
Qed.

Lemma valid_finite_canonical :
  forall s m e, valid_binary (S754_finite s m e) = true ->
    canonical_at (Z.pos m) e /\ e <= 971.
Proof. intros s m e H. apply bounded_canonical. exact H. Qed.

Lemma SFmul_between :
  forall a b c,
    valid_binary a = true -> valid_binary b = true ->
    sf_between 0 a 1 -> sf_between c b c ->
    sf_between 0 (SF64mul a b) c /\ valid_binary (SF64mul a b) = true.
Proof.
  intros a b c Va Vb Ha Hb. unfold SF64mul.
  destruct a as [sa|sa| |sa ma ea]; try contradiction;
    destruct b as [sb|sb| |sb mb eb]; try contradiction.
  - cbn in *. split; [lra | reflexivity].
  - destruct sb; [contradiction|]. cbn in *. pose proof (F2R_pos mb eb).
    split; [lra | reflexivity].
  - destruct sa; [contradiction|]. cbn in *. split; [lra | reflexivity].
  - destruct sa; [contradiction|]. destruct sb; [contradiction|].
    cbn [sf_between] in Ha, Hb. cbn [SFmul xorb].
    destruct (valid_finite_canonical _ _ _ Va) as [Ca Ea].
    destruct (valid_finite_canonical _ _ _ Vb) as [Cb Eb].
    assert (Hc : c = F2R (Z.pos mb) eb) by lra.
    rewrite Hc, <- F2R_0 with (e := -1074).
    apply (binary_round_aux_between _ _ _ (F2R (Z.pos (ma * mb)) (ea + eb)));
      try assumption; try apply canonical_zero.
    + apply encloses_of_loc_exact. lia.
    + rewrite fexp_eq.
      destruct (canonical_digits _ _ Ca) as [Da1 Da2].
      destruct (canonical_digits _ _ Cb) as [Db1 Db2].
      destruct Ca as (_ & Ea0 & _). destruct Cb as (_ & Eb0 & _).
      pose proof (Zdigits2_bounds (Z.pos ma) ltac:(lia)) as [La _].
      pose proof (Zdigits2_bounds (Z.pos mb) ltac:(lia)) as [Lb _].
      assert (HD : Zdigits2 (Z.pos ma) - 1 + (Zdigits2 (Z.pos mb) - 1) + 1
                   <= Zdigits2 (Z.pos (ma * mb))).
      { apply Zdigits2_lower; [lia|]. rewrite Z.pow_add_r by lia.
        rewrite Pos2Z.inj_mul. apply Z.mul_le_mono_nonneg; try assumption;
          apply Z.pow_nonneg; lia. }
      lia.
    + rewrite F2R_0, Pos2Z.inj_mul, <- F2R_mul.
      pose proof (F2R_pos ma ea). pose proof (F2R_pos mb eb). split; nra.
Qed.

(** ** Division *)

Lemma new_location_cases :
  forall n k,
    (k = 0 -> new_location n k = loc_Exact) /\
    (k <> 0 -> exists c, new_location n k = loc_Inexact c).
Proof.
  intros n k. unfold new_location, new_location_even, new_location_odd.
  destruct (Z.even n), (Z.eqb_spec k 0); split; intros H;
    try contradiction; try reflexivity; eexists; reflexivity.
Qed.

Lemma encloses_of_loc :
  forall m l e x,
    0 <= m ->
    (F2R m e <= x < F2R (m + 1) e)%R ->
    (l = loc_Exact -> x = F2R m e) ->
    ((exists c, l = loc_Inexact c) -> (F2R m e < x)%R) ->
    encloses (shr_record_of_loc m l) e x.
Proof.
  intros m l e x Hm Hx Hex Hin. unfold encloses. rewrite shr_m_of_loc.
  split; [exact Hm|]. split; [exact Hx|].
  destruct l as [|[ | | ]]; cbn; split; intros H; try discriminate H;
    try (apply Hex; reflexivity); apply Hin; eexists; reflexivity.
Qed.

Lemma SFdiv_core_binary_spec :
  forall ma ea mb eb q e l,
    SFdiv_core_binary prec emax (Z.pos ma) ea (Z.pos mb) eb = (q, e, l) ->
    encloses (shr_record_of_loc q l) e (F2R (Z.pos ma) ea / F2R (Z.pos mb) eb)%R /\
    e <= fexp prec emax (Zdigits2 q + e).
Proof.
  intros ma ea mb eb q e l. unfold SFdiv_core_binary.
  set (d1 := Zdigits2 (Z.pos ma)). set (d2 := Zdigits2 (Z.pos mb)).
  set (e0 := Z.min (fexp prec emax (d1 + ea - (d2 + eb))) (ea - eb)).
  set (s := ea - eb - e0).
  assert (Hs : 0 <= s) by (unfold s, e0; lia).
  set (m' := match s with Z.pos _ => Z.shiftl (Z.pos ma) s | 0 => Z.pos ma | Z.neg _ => 0 end).
  assert (Hm' : m' = Z.pos ma * 2 ^ s).
  { unfold m'. destruct s as [|p|p]; [cbn; lia | apply Z.shiftl_mul_pow2; lia | lia]. }
  clearbody m'.
  pose proof (Z_div_mod m' (Z.pos mb) ltac:(lia)) as Hdiv.
  destruct (Z.div_eucl m' (Z.pos mb)) as [q0 r0].
  destruct Hdiv as [Hqr Hr].
  intros H. injection H as <- <- <-.
  assert (Hpow : 0 < 2 ^ s) by (apply Z.pow_pos_nonneg; lia).
  assert (Hq0 : 0 <= q0) by nia.
  pose proof (F2R_pos mb eb) as HD.
  assert (HN : F2R (Z.pos ma) ea = F2R m' (e0 + eb)).
  { rewrite Hm'. rewrite F2R_shift by lia. f_equal. unfold s. lia. }
  set (x := (F2R (Z.pos ma) ea / F2R (Z.pos mb) eb)%R).
  assert (Hx : (x * F2R (Z.pos mb) eb = F2R m' (e0 + eb))%R).
  { unfold x. rewrite <- HN. field. lra. }
  assert (Hlow : (F2R q0 e0 * F2R (Z.pos mb) eb <= F2R m' (e0 + eb))%R)
    by (rewrite F2R_mul; apply F2R_le; nia).
  assert (Hupp : (F2R m' (e0 + eb) < F2R (q0 + 1) e0 * F2R (Z.pos mb) eb)%R)
    by (rewrite F2R_mul; apply F2R_lt; nia).
  split.
  - destruct (new_location_cases (Z.pos mb) r0) as [Hex Hin].
    apply encloses_of_loc.
    + exact Hq0.
    + split; nra.
    + intros Hl. destruct (Z.eq_dec r0 0) as [Hr0|Hr0].
      * assert (Heq : (F2R q0 e0 * F2R (Z.pos mb) eb = F2R m' (e0 + eb))%R)
          by (rewrite F2R_mul; f_equal; lia).
        nra.
      * destruct (Hin Hr0) as [c Hc]. congruence.
    + intros [c Hc]. destruct (Z.eq_dec r0 0) as [Hr0|Hr0].
      * rewrite (Hex Hr0) in Hc. discriminate Hc.
      * assert (Hlt : (F2R q0 e0 * F2R (Z.pos mb) eb < F2R m' (e0 + eb))%R)
          by (rewrite F2R_mul; apply F2R_lt; nia).
        nra.
  - rewrite fexp_eq. destruct (Z_le_gt_dec e0 (-1074)) as [Hle|Hgt]; [lia|].
    assert (He0 : e0 <= d1 + ea - (d2 + eb) - 53)
      by (unfold e0 in Hgt |- *; rewrite fexp_eq in Hgt |- *; lia).
    pose proof (Zdigits2_bounds (Z.pos ma) ltac:(lia)) as [La _].
    pose proof (Zdigits2_bounds (Z.pos mb) ltac:(lia)) as [_ Ub].
    fold d1 in La. fold d2 in Ub.
    assert (Hd1 : 1 <= d1) by (apply (Zdigits2_lower (Z.pos ma) 0); cbn; lia).
    assert (Hd2 : 1 <= d2) by (apply (Zdigits2_lower (Z.pos mb) 0); cbn; lia).
    assert (Hk : 0 <= d1 - 1 + s - d2) by (unfold s; lia).
    assert (Hq : 2 ^ (d1 - 1 + s - d2) <= q0).
    { assert (Hle2 : 2 ^ (d1 - 1 + s - d2) * Z.pos mb <= m').
      { rewrite Hm'.
        apply Z.le_trans with (2 ^ (d1 - 1 + s - d2) * 2 ^ d2); [nia|].
        rewrite <- Z.pow_add_r by lia.
        replace (d1 - 1 + s - d2 + d2) with (d1 - 1 + s) by lia.
        rewrite Z.pow_add_r by lia. nia. }
      assert (0 <= 2 ^ (d1 - 1 + s - d2)) by (apply Z.pow_nonneg; lia).
      nia. }
    pose proof (Zdigits2_lower q0 _ Hk Hq). unfold s in *. lia.
Qed.

Lemma SFdiv_le_one :
  forall a mb eb,
    valid_binary a = true ->
    sf_between 0 a (F2R (Z.pos mb) eb) ->
    sf_between 0 (SF64div a (S754_finite false mb eb)) 1 /\
    valid_binary (SF64div a (S754_finite false mb eb)) = true.
Proof.
  intros a mb eb Va Ha. unfold SF64div.
  destruct a as [sa|sa| |sa ma ea]; try contradiction.
  - cbn. split; [lra | reflexivity].
  - destruct sa; [contradiction|]. cbn [sf_between] in Ha. cbn [SFdiv xorb].
    destruct (SFdiv_core_binary prec emax (Z.pos ma) ea (Z.pos mb) eb)
      as [[q e] l] eqn:Hcore.
    destruct (SFdiv_core_binary_spec _ _ _ _ _ _ _ Hcore) as [Henc Hpre].
    destruct canonical_one as [C1 E1].
    rewrite <- E1, <- F2R_0 with (e := -1074).
    apply (binary_round_aux_between _ _ _ _ _ _ _ _ Henc Hpre canonical_zero C1);
      [lia|].
    rewrite F2R_0, E1.
    pose proof (F2R_pos ma ea). pose proof (F2R_pos mb eb).
    set (x := (F2R (Z.pos ma) ea / F2R (Z.pos mb) eb)%R).
    assert (Hx : (x * F2R (Z.pos mb) eb = F2R (Z.pos ma) ea)%R)
      by (unfold x; field; lra).
    split; nra.
Qed.

(** ** Conversion of an integer *)

Lemma Zdigits2_unique :
  forall m k, 0 < k -> 2 ^ (k - 1) <= m < 2 ^ k -> Zdigits2 m = k.
Proof.
  intros m k Hk [Hl Hu].
  assert (0 < 2 ^ (k - 1)) by (apply Z.pow_pos_nonneg; lia).
  pose proof (Zdigits2_lower m (k - 1) ltac:(lia) Hl).
  pose proof (Zdigits2_upper m k ltac:(lia) ltac:(lia)). lia.
Qed.

Lemma Zdigits2_shift :
  forall p d, 0 <= d -> Zdigits2 (Z.pos p * 2 ^ d) = Zdigits2 (Z.pos p) + d.
Proof.
  intros p d Hd.
  pose proof (Zdigits2_bounds (Z.pos p) ltac:(lia)) as [Hl Hu].
  assert (1 <= Zdigits2 (Z.pos p)) by (apply (Zdigits2_lower (Z.pos p) 0); cbn; lia).
  assert (0 < 2 ^ d) by (apply Z.pow_pos_nonneg; lia).
  apply Zdigits2_unique; [lia|].
  replace (Zdigits2 (Z.pos p) + d - 1) with (Zdigits2 (Z.pos p) - 1 + d) by lia.
  rewrite !Z.pow_add_r by lia. split; nia.
Qed.

Lemma shl_align_spec :
  forall mx ex ex',
    let '(mz, ez) := shl_align mx ex ex' in
    (ex <= ex' /\ mz = mx /\ ez = ex) \/
    (ex' < ex /\ Z.pos mz = Z.pos mx * 2 ^ (ex - ex') /\ ez = ex').
Proof.
  intros mx ex ex'. unfold shl_align.
  destruct (ex' - ex) as [|d|d] eqn:Hd.
  - left. repeat split; lia.
  - left. repeat split; lia.
  - right. split; [lia|]. split; [|reflexivity].
    change (Pos.iter xO mx d) with (shift_pos d mx).
    rewrite shift_pos_correct. change (Z.pow_pos 2 d) with (2 ^ Z.pos d).
    replace (ex - ex') with (Z.pos d) by lia. ring.
Qed.

Lemma binary_round_between :
  forall mx ex ml el mb eb,
    canonical_at ml el -> canonical_at mb eb -> eb <= 971 ->
    (F2R ml el <= F2R (Z.pos mx) ex <= F2R mb eb)%R ->
    sf_between (F2R ml el) (binary_round prec emax false mx ex) (F2R mb eb) /\
    valid_binary (binary_round prec emax false mx ex) = true.
Proof.
  intros mx ex ml el mb eb Cl Cb Eb Hx. unfold binary_round.
  pose proof (shl_align_spec mx ex (fexp prec emax (Z.pos (digits2_pos mx) + ex))) as Hal.
  destruct (shl_align mx ex (fexp prec emax (Z.pos (digits2_pos mx) + ex))) as [mz ez].
  assert (Hval : F2R (Z.pos mz) ez = F2R (Z.pos mx) ex).
  { destruct Hal as [(_ & -> & ->) | (Hlt & -> & ->)]; [reflexivity|].
    symmetry. apply F2R_rescale. lia. }
  assert (Hpre : ez <= fexp prec emax (Zdigits2 (Z.pos mz) + ez)).
  { change (Z.pos (digits2_pos mx)) with (Zdigits2 (Z.pos mx)) in Hal.
    destruct Hal as [(Hle & -> & ->) | (Hlt & Hm & ->)]; [exact Hle|].
    rewrite Hm, Zdigits2_shift by lia.
    replace (Zdigits2 (Z.pos mx) + (ex - fexp prec emax (Zdigits2 (Z.pos mx) + ex))
             + fexp prec emax (Zdigits2 (Z.pos mx) + ex))
      with (Zdigits2 (Z.pos mx) + ex) by lia.
    lia. }
  rewrite <- Hval in Hx.
  apply (binary_round_aux_between _ _ _ (F2R (Z.pos mz) ez)); try assumption.
  apply encloses_of_loc_exact. lia.
Qed.

Lemma canonical_repr :
  forall z, 0 < z <= 2 ^ 53 ->
    exists mb eb, canonical_at mb eb /\ eb <= 971 /\ F2R mb eb = IZR z.
Proof.
  intros z [Hz Hu]. destruct (Z.eq_dec z (2 ^ 53)) as [->|Hne].
  - exists (2 ^ 52), 1. split; [unfold canonical_at; lia|]. split; [lia|].
    rewrite <- F2R_IZR. change (2 ^ 53) with (2 ^ 52 * 2 ^ 1).
    rewrite F2R_shift by lia. reflexivity.
  - pose proof (Zdigits2_bounds z Hz) as [Dl Du].
    assert (D1 : 1 <= Zdigits2 z) by (apply (Zdigits2_lower z 0); cbn; lia).
    assert (D2 : Zdigits2 z <= 53) by (apply Zdigits2_upper; lia).
    exists (z * 2 ^ (53 - Zdigits2 z)), (Zdigits2 z - 53).
    assert (0 < 2 ^ (53 - Zdigits2 z)) by (apply Z.pow_pos_nonneg; lia).
    split; [|split; [lia|]].
    + unfold canonical_at.
      assert (E53 : 2 ^ 53 = 2 ^ Zdigits2 z * 2 ^ (53 - Zdigits2 z))
        by (rewrite <- Z.pow_add_r by lia; f_equal; lia).
      assert (E52 : 2 ^ 52 = 2 ^ (Zdigits2 z - 1) * 2 ^ (53 - Zdigits2 z))
        by (rewrite <- Z.pow_add_r by lia; f_equal; lia).
      rewrite E53, E52. split; [split; nia|]. split; [lia|]. intros _. nia.
    + rewrite F2R_shift by lia. rewrite <- F2R_IZR. f_equal. lia.
Qed.

Lemma float_of_int_exact :
  forall z, 0 <= z <= 2 ^ 53 ->
    exists f, float_of_int z = Ok f /\ sf_between (IZR z) (Prim2SF f) (IZR z).
Proof.
  intros z [Hz Hu]. unfold float_of_int.
  destruct z as [|p|p]; [| |lia].
  - cbn [binary_normalize]. eexists. split; [reflexivity|].
    rewrite Prim2SF_SF2Prim by reflexivity. cbn. lra.
  - cbn [binary_normalize].
    destruct (canonical_repr (Z.pos p) ltac:(lia)) as (mb & eb & Cb & Eb & Hv).
    destruct (binary_round_between p 0 mb eb mb eb Cb Cb Eb) as [Hb Hval].
    { rewrite Hv, F2R_IZR. lra. }
    rewrite Hv in Hb.
    destruct (binary_round prec emax false p 0) as [s|s| |s m e] eqn:Hr;
      try contradiction.
    + eexists. split; [reflexivity|]. rewrite Prim2SF_SF2Prim by exact Hval. exact Hb.
    + eexists. split; [reflexivity|]. rewrite Prim2SF_SF2Prim by exact Hval. exact Hb.
Qed.

(** ** Comparison with one hundred *)

Lemma Prim2SF_f0 : Prim2SF f0 = S754_zero false.
Proof. reflexivity. Qed.

Lemma Prim2SF_f100 : Prim2SF f100 = S754_finite false 7036874417766400 (-46).
Proof. reflexivity. Qed.

Lemma F2R_f100 : F2R 7036874417766400 (-46) = 100%R.
Proof.
  change 7036874417766400 with (100 * 2 ^ (0 - -46)).
  rewrite <- F2R_rescale by lia. apply F2R_IZR.
Qed.

Lemma in_range_between :
  forall v, in_range v = true -> sf_between 0 (Prim2SF v) 100.
Proof.
  intros v H. unfold in_range in H. apply andb_true_iff in H as [H0 H100].
  rewrite leb_spec, Prim2SF_f0 in H0. rewrite leb_spec, Prim2SF_f100 in H100.
  pose proof (Prim2SF_valid v) as Hv.
  destruct (Prim2SF v) as [s|s| |s m e].
  - cbn. lra.
  - destruct s; discriminate.
  - discriminate.
  - destruct s; [discriminate|].
    destruct (valid_finite_canonical _ _ _ Hv) as [([_ Hm] & He & Hn) _].
    cbn [sf_between]. split; [left; apply F2R_pos|].
    rewrite <- F2R_f100.
    unfold SFleb, SFcompare in H100.
    destruct (Z.compare_spec e (-46)) as [->|Hlt|Hgt].
    + apply F2R_le.
      destruct (Pos.compare_cont Eq m 7036874417766400) eqn:Hc; try discriminate.
      * apply Pos.compare_eq in Hc. subst m. lia.
      * assert (Hlt : (m < 7036874417766400)%positive) by exact Hc.
        apply Z.lt_le_incl. apply Pos2Z.pos_lt_pos. exact Hlt.
    + rewrite (F2R_rescale 7036874417766400 (-46) e ltac:(lia)).
      apply F2R_le.
      assert (2 ^ 1 <= 2 ^ (-46 - e)) by (apply Z.pow_le_mono_r; lia).
      change (2 ^ 1) with 2 in H. nia.
    + discriminate.
Qed.

(** ** Rounding to an integer *)

Lemma div_half_even_le :
  forall m d c, 0 <= m -> 0 < d -> m <= c * d -> 0 <= div_half_even m d <= c.
Proof.
  intros m d c Hm Hd Hle. unfold div_half_even.
  pose proof (Z.div_mod m d ltac:(lia)) as Hdm.
  pose proof (Z.mod_pos_bound m d Hd) as Hr.
  assert (Hq0 : 0 <= m / d) by (apply Z.div_pos; lia).
  assert (Hqc : m / d <= c) by nia.
  destruct (Z.compare_spec (2 * (m mod d)) d) as [He|Hl|Hg].
  - destruct (Z.even (m / d)); [lia|]. split; [lia|].
    destruct (Z.eq_dec (m / d) c) as [Heq|Hne]; [|lia].
    rewrite Heq in Hdm. nia.
  - lia.
  - split; [lia|].
    destruct (Z.eq_dec (m / d) c) as [Heq|Hne]; [|lia].
    rewrite Heq in Hdm. nia.
Qed.

Lemma py_round_between :
  forall x c, sf_between 0 (Prim2SF x) (IZR c) ->
    exists a, py_round x = Ok a /\ 0 <= a <= c.
Proof.
  intros x c H. unfold py_round.
  destruct (Prim2SF x) as [s|s| |s m e]; try contradiction.
  - cbn in H. exists 0. split; [reflexivity|]. split; [lia|]. apply le_IZR. lra.
  - destruct s; [contradiction|]. cbn [sf_between] in H. destruct H as [_ H].
    eexists. split; [reflexivity|].
    destruct (Z.leb_spec 0 e) as [He|He].
    + assert (0 < 2 ^ e) by (apply Z.pow_pos_nonneg; lia).
      split; [nia|]. apply le_IZR.
      assert (E : IZR (Z.pos m * 2 ^ e) = F2R (Z.pos m) e).
      { rewrite <- F2R_IZR, F2R_shift by lia. f_equal. }
      rewrite E. exact H.
    + assert (0 < 2 ^ (- e)) by (apply Z.pow_pos_nonneg; lia).
      apply div_half_even_le; try lia.
      apply (F2R_le_inv _ _ e). rewrite <- (F2R_IZR c) in H.
      rewrite (F2R_rescale c 0 e ltac:(lia)) in H. rewrite Z.sub_0_l in H. exact H.
Qed.

(** A quotient with no remainder is itself. *)
Lemma div_half_even_exact :
  forall c d, 0 < d -> div_half_even (c * d) d = c.
Proof.
  intros c d Hd. unfold div_half_even.
  rewrite Z.div_mul, Z.mod_mul by lia.
  destruct (Z.compare_spec (2 * 0) d); lia.
Qed.

(** [round] of a float whose value is the integer [c] is [c]. *)
Lemma py_round_exact :
  forall x c, sf_between (IZR c) (Prim2SF x) (IZR c) -> py_round x = Ok c.
Proof.
  intros x c H. unfold py_round.
  destruct (Prim2SF x) as [s|s| |s m e]; try contradiction.
  - cbn in H. f_equal. apply eq_IZR. lra.
  - destruct s; [contradiction|]. cbn [sf_between] in H.
    assert (Hv : F2R (Z.pos m) e = IZR c) by lra. clear H. f_equal.
    destruct (Z.leb_spec 0 e) as [He|He].
    + apply eq_IZR. rewrite <- Hv, <- F2R_IZR, F2R_shift by lia. f_equal.
    + rewrite <- (F2R_IZR c), (F2R_rescale c 0 e ltac:(lia)), Z.sub_0_l in Hv.
      assert (Hm : Z.pos m = c * 2 ^ (- e)).
      { apply Z.le_antisymm; apply (F2R_le_inv _ _ e); rewrite Hv; lra. }
      rewrite Hm. apply div_half_even_exact. apply Z.pow_pos_nonneg; lia.
Qed.

(** The product of one and a float is that float. *)
Lemma SFmul_one_exact :
  forall b c,
    valid_binary b = true -> sf_between c b c ->
    sf_between c (SF64mul (Prim2SF 1) b) c.
Proof.
  intros b c Vb Hb. change (Prim2SF 1) with (S754_finite false 4503599627370496 (-52)).
  unfold SF64mul.
  destruct b as [sb|sb| |sb mb eb]; try contradiction.
  - cbn in *. exact Hb.
  - destruct sb; [contradiction|]. cbn [sf_between] in Hb. cbn [SFmul xorb].
    destruct (valid_finite_canonical _ _ _ Vb) as [Cb Eb].
    assert (Hc : c = F2R (Z.pos mb) eb) by lra.
    rewrite Hc.
    apply (binary_round_aux_between _ _ _ (F2R (Z.pos (4503599627370496 * mb)) (-52 + eb)));
      try assumption.
    + apply encloses_of_loc_exact. lia.
    + rewrite fexp_eq.
      destruct (canonical_digits _ _ Cb) as [Db1 Db2].
      destruct Cb as (_ & Eb0 & _).
      pose proof (Zdigits2_bounds (Z.pos mb) ltac:(lia)) as [Lb _].
      assert (HD : 52 + (Zdigits2 (Z.pos mb) - 1) + 1
                   <= Zdigits2 (Z.pos (4503599627370496 * mb))).
      { apply Zdigits2_lower; [lia|]. rewrite Z.pow_add_r by lia.
        rewrite Pos2Z.inj_mul. apply Z.mul_le_mono_nonneg; try assumption;
          try (apply Z.pow_nonneg; lia).
        change (Z.pos 4503599627370496) with (2 ^ 52). lia. }
      lia.
    + rewrite Pos2Z.inj_mul, <- F2R_mul.
      change (Z.pos 4503599627370496) with (2 ^ 52).
      destruct canonical_one as [_ ->]. lra.
Qed.

(** ** The row of a value *)

Lemma row_for_in_range :
  forall height v,
    1 <= height <= 2 ^ 53 + 1 -> in_range v = true ->
    exists r, row_for height v = Ok r /\ 0 <= r <= height - 1.
Proof.
  intros height v Hh Hv. unfold row_for.
  destruct (float_of_int_exact (height - 1) ltac:(lia)) as (h1 & -> & Hh1).
  cbn [bind].
  pose proof (in_range_between v Hv) as Hb.
  assert (Hd : sf_between 0 (Prim2SF (v / f100)%float) 1 /\
               valid_binary (Prim2SF (v / f100)%float) = true).
  { rewrite div_spec, Prim2SF_f100. rewrite <- F2R_f100 in Hb.
    apply SFdiv_le_one; [apply Prim2SF_valid | exact Hb]. }
  destruct Hd as [Hd _].
  assert (Hp : sf_between 0 (Prim2SF (v / f100 * h1)%float) (IZR (height - 1))).
  { rewrite mul_spec. apply SFmul_between; try apply Prim2SF_valid; assumption. }
  destruct (py_round_between _ _ Hp) as (a & -> & Ha).
  cbn [bind]. eexists. split; [reflexivity|]. lia.
Qed.

(** ** The row of a value on the canvas *)

Lemma canvas_height_range : forall lines, 10 <= canvas_height lines <= 24.
Proof. intros lines. unfold canvas_height. lia. Qed.

Lemma small_height_cases :
  forall h, 10 <= h <= 24 ->
    In h [10; 11; 12; 13; 14; 15; 16; 17; 18; 19; 20; 21; 22; 23; 24].
Proof.
  intros h Hh.
  assert (Hc : h = 10 \/ h = 11 \/ h = 12 \/ h = 13 \/ h = 14 \/ h = 15 \/ h = 16
               \/ h = 17 \/ h = 18 \/ h = 19 \/ h = 20 \/ h = 21 \/ h = 22
               \/ h = 23 \/ h = 24) by lia.
  cbn [In]. intuition auto.
Qed.

Lemma row_for_ends_checked :
  forallb ends_ok [10; 11; 12; 13; 14; 15; 16; 17; 18; 19; 20; 21; 22; 23; 24]
  = true.
Proof. vm_compute. reflexivity. Qed.

Lemma ends_ok_sound :
  forall h, ends_ok h = true ->
    row_for h 0 = Ok (h - 1) /\ row_for h 100 = Ok 0.
Proof.
  intros h H. unfold ends_ok in H.
  destruct (row_for h 0) as [r0|e]; [|discriminate].
  destruct (row_for h 100) as [r100|e]; [|discriminate].
  apply andb_true_iff in H as [H0 H100].
  apply Z.eqb_eq in H0, H100. subst. split; reflexivity.
Qed.

(** In graph mode: whatever the size of the terminal, the height of the
    canvas is at least 10 and the value 0 is drawn on its bottom row, the
    value 100 on its top row. *)
Lemma row_for_ends :
  forall lines : Z,
    let height := canvas_height lines in
    10 <= height /\
    row_for height 0 = Ok (height - 1) /\
    row_for height 100 = Ok 0.
Proof.
  intros lines height.
  pose proof (canvas_height_range lines) as Hh. fold height in Hh.
  split; [lia|].
  apply ends_ok_sound.
  pose proof row_for_ends_checked as Hall.
  rewrite forallb_forall in Hall. apply Hall.
  apply small_height_cases. exact Hh.
Qed.

(** C7, as stated, fails for a height that the conversion to [float]
    rounds up: with height [2^53 + 2] the value 100 is drawn on row 1,
    below the top row. *)
Lemma row_for_top_row_missed :
  10 <= 2 ^ 53 + 2 /\
  row_for (2 ^ 53 + 2) 100 = Ok 1 /\
  row_for (2 ^ 53 + 2) 100 <> Ok 0.
Proof. repeat split; vm_compute; discriminate. Qed.

(** C7, amended: for every height from 10 to [2^53 + 1], which covers
    every height of the canvas, the value 0 is drawn on the bottom row
    [height - 1] and the value 100 on the top row 0. *)
Theorem row_for_ends_bounded :
  forall height : Z,
    10 <= height <= 2 ^ 53 + 1 ->
    row_for height 0 = Ok (height - 1) /\
    row_for height 100 = Ok 0.
Proof.
  intros height Hh. unfold row_for.
  destruct (float_of_int_exact (height - 1) ltac:(lia)) as (h1 & -> & Hh1).
  cbn [bind]. split.
  - change (0 / f100)%float with 0%float.
    assert (H0 : py_round (0 * h1)%float = Ok 0).
    { unfold py_round. rewrite mul_spec.
      change (Prim2SF 0) with (S754_zero false).
      destruct (Prim2SF h1) as [s|s| |s m e]; try contradiction.
      - reflexivity.
      - destruct s; [contradiction | reflexivity]. }
    rewrite H0. cbn [bind]. f_equal. lia.
  - change (100 / f100)%float with 1%float.
    rewrite (py_round_exact _ (height - 1)).
    + cbn [bind]. f_equal. lia.
    + rewrite mul_spec. apply SFmul_one_exact; [apply Prim2SF_valid | exact Hh1].
Qed.

Lemma row_for_ends_bounded_witness :
  10 <= canvas_height 24 <= 2 ^ 53 + 1 /\
  row_for (canvas_height 24) 0 = Ok (canvas_height 24 - 1) /\
  row_for (canvas_height 24) 100 = Ok 0.
Proof.
  assert (H : 10 <= canvas_height 24 <= 2 ^ 53 + 1) by (vm_compute; split; discriminate).
  split; [exact H | exact (row_for_ends_bounded (canvas_height 24) H)].
Defined.

(** C10, as stated, fails for a height that the conversion to [float]
    rounds up: with height [2^53 + 4] the value 100 gets the row -1. *)
Lemma row_for_huge_height :
  PrimFloat.leb 0 100 = true /\ PrimFloat.leb 100 100 = true /\
  1 <= 2 ^ 53 + 4 /\
  row_for (2 ^ 53 + 4) 100 = Ok (-1).
Proof. repeat split; vm_compute; reflexivity || discriminate. Qed.

(** ** Lists written by index *)

Lemma set_nth_length :
  forall (A : Type) (l : list A) n a, List.length (set_nth l n a) = List.length l.
Proof.
  intros A. induction l as [|b l IH]; intros [|n] a; cbn; try reflexivity.
  rewrite IH. reflexivity.
Qed.

Lemma nth_error_set_nth_same :
  forall (A : Type) (l : list A) n a,
    (n < List.length l)%nat -> nth_error (set_nth l n a) n = Some a.
Proof.
  intros A. induction l as [|b l IH]; intros [|n] a H; cbn in *; try lia.
  - reflexivity.
  - apply IH. lia.
Qed.

Lemma nth_error_set_nth_other :
  forall (A : Type) (l : list A) n m a,
    n <> m -> nth_error (set_nth l n a) m = nth_error l m.
Proof.
  intros A. induction l as [|b l IH]; intros [|n] [|m] a H; cbn; try reflexivity.
  - contradiction.
  - apply IH. congruence.
Qed.

Lemma py_index_ok :
  forall (A : Type) (l : list A) i,
    0 <= i < Z.of_nat (List.length l) ->
    exists a, nth_error l (Z.to_nat i) = Some a /\ py_index l i = Ok a.
Proof.
  intros A l i Hi. unfold py_index.
  destruct (Z.ltb_spec i 0) as [H|_]; [lia|].
  destruct (Z.leb_spec 0 i) as [_|H]; [|lia].
  destruct (Z.ltb_spec i (Z.of_nat (List.length l))) as [_|H]; [|lia].
  cbn [andb].
  destruct (nth_error l (Z.to_nat i)) as [a|] eqn:E.
  - exists a. split; reflexivity.
  - apply nth_error_None in E. lia.
Qed.

Lemma py_setitem_ok :
  forall (A : Type) (l : list A) i a,
    0 <= i < Z.of_nat (List.length l) ->
    py_setitem l i a = Ok (set_nth l (Z.to_nat i) a).
Proof.
  intros A l i a Hi. unfold py_setitem.
  destruct (Z.ltb_spec i 0) as [H|_]; [lia|].
  destruct (Z.leb_spec 0 i) as [_|H]; [|lia].
  destruct (Z.ltb_spec i (Z.of_nat (List.length l))) as [_|H]; [|lia].
  reflexivity.
Qed.

Lemma Forall_set_nth :
  forall (A : Type) (P : A -> Prop) (l : list A) n a,
    Forall P l -> P a -> Forall P (set_nth l n a).
Proof.
  intros A P. induction l as [|b l IH]; intros [|n] a Hl Ha; cbn; try assumption.
  - inversion Hl; subst. constructor; assumption.
  - inversion Hl; subst. constructor; [assumption | apply IH; assumption].
Qed.

(** ** Writing on the canvas *)

Lemma canvas_set_spec :
  forall height n cv r x ch,
    canvas_shape height n cv -> 0 <= r < height -> 0 <= x < n ->
    exists cv',
      canvas_set cv r x ch = Ok cv' /\
      canvas_shape height n cv' /\
      forall r' x', 0 <= r' -> 0 <= x' ->
        cell cv' r' x' = if (r' =? r) && (x' =? x) then Some ch else cell cv r' x'.
Proof.
  intros height n cv r x ch [Hh Hrows] Hr Hx. unfold canvas_set.
  destruct (py_index_ok _ cv r ltac:(lia)) as (row & Hrow & ->). cbn [bind].
  assert (Hlen : Z.of_nat (List.length row) = n).
  { rewrite Forall_forall in Hrows. apply Hrows.
    apply nth_error_In with (1 := Hrow). }
  rewrite py_setitem_ok by lia. cbn [bind].
  rewrite py_setitem_ok by lia.
  eexists. split; [reflexivity|]. split.
  - split; [rewrite set_nth_length; exact Hh|].
    apply Forall_set_nth; [exact Hrows|]. rewrite set_nth_length. exact Hlen.
  - intros r' x' Hr' Hx'. unfold cell.
    destruct (Z.eqb_spec r' r) as [->|Hne].
    + rewrite nth_error_set_nth_same by lia. rewrite Hrow. cbn [andb].
      destruct (Z.eqb_spec x' x) as [->|Hnx].
      * apply nth_error_set_nth_same. lia.
      * apply nth_error_set_nth_other. lia.
    + cbn [andb]. rewrite nth_error_set_nth_other by lia. reflexivity.
Qed.

Lemma value_at_in_range :
  forall view x,
    all_in_range view -> 0 <= x < Z.of_nat (List.length view) ->
    in_range (value_at view x) = true /\ py_index view x = Ok (value_at view x).
Proof.
  intros view x Hall Hx.
  destruct (py_index_ok _ view x Hx) as (v & Hv & ->).
  unfold value_at. rewrite (nth_error_nth _ _ _ Hv).
  split; [|reflexivity].
  unfold all_in_range in Hall. rewrite Forall_forall in Hall.
  apply Hall. apply nth_error_In with (1 := Hv).
Qed.

Lemma row_of_in_range :
  forall height v,
    1 <= height <= 2 ^ 53 + 1 -> in_range v = true ->
    row_for height v = Ok (row_of height v) /\ 0 <= row_of height v <= height - 1.
Proof.
  intros height v Hh Hv. unfold row_of.
  destruct (row_for_in_range height v Hh Hv) as (r & -> & Hr).
  split; [reflexivity | exact Hr].
Qed.

Lemma draw_column_spec :
  forall height n cpu_view mem_view cv x,
    1 <= height <= 2 ^ 53 + 1 ->
    canvas_shape height n cv ->
    all_in_range cpu_view -> all_in_range mem_view ->
    Z.of_nat (List.length cpu_view) = n -> Z.of_nat (List.length mem_view) = n ->
    0 <= x < n ->
    exists cv',
      draw_column height cpu_view mem_view cv x = Ok cv' /\
      canvas_shape height n cv' /\
      forall r' x', 0 <= r' -> 0 <= x' ->
        cell cv' r' x'
        = if x' =? x then
            column_write (row_of height (value_at cpu_view x))
                         (row_of height (value_at mem_view x)) r' (cell cv r' x')
          else cell cv r' x'.
Proof.
  intros height n cpu_view mem_view cv x Hh Hsh Hc Hm Hlc Hlm Hx.
  unfold draw_column.
  destruct (value_at_in_range cpu_view x Hc ltac:(lia)) as [Hvc ->].
  destruct (value_at_in_range mem_view x Hm ltac:(lia)) as [Hvm ->].
  cbn [bind].
  destruct (row_of_in_range height _ Hh Hvc) as [-> Hrc].
  destruct (row_of_in_range height _ Hh Hvm) as [-> Hrm].
  cbn [bind].
  set (rc := row_of height (value_at cpu_view x)) in *.
  set (rm := row_of height (value_at mem_view x)) in *.
  unfold column_write.
  destruct (Z.eqb_spec rc rm) as [Heq|Hne].
  - destruct (canvas_set_spec height n cv rc x overlap_marker Hsh ltac:(lia) Hx)
      as (cv' & -> & Hsh' & Hcell).
    exists cv'. split; [reflexivity|]. split; [exact Hsh'|].
    intros r' x' Hr' Hx'. rewrite (Hcell r' x' Hr' Hx').
    destruct (Z.eqb_spec r' rc), (Z.eqb_spec x' x); reflexivity.
  - destruct (canvas_set_spec height n cv rc x cpu_marker Hsh ltac:(lia) Hx)
      as (cv1 & -> & Hsh1 & Hcell1).
    cbn [bind].
    destruct (canvas_set_spec height n cv1 rm x mem_marker Hsh1 ltac:(lia) Hx)
      as (cv2 & -> & Hsh2 & Hcell2).
    exists cv2. split; [reflexivity|]. split; [exact Hsh2|].
    intros r' x' Hr' Hx'.
    rewrite (Hcell2 r' x' Hr' Hx'), (Hcell1 r' x' Hr' Hx').
    destruct (Z.eqb_spec r' rm), (Z.eqb_spec r' rc), (Z.eqb_spec x' x);
      try reflexivity; lia.
Qed.

Lemma existsb_eqb_In :
  forall (x : Z) xs, existsb (Z.eqb x) xs = true <-> In x xs.
Proof.
  intros x xs. rewrite existsb_exists. split.
  - intros (y & Hy & E). apply Z.eqb_eq in E. subst. exact Hy.
  - intros H. exists x. split; [exact H | apply Z.eqb_refl].
Qed.

Lemma draw_columns_spec :
  forall height n cpu_view mem_view,
    1 <= height <= 2 ^ 53 + 1 ->
    all_in_range cpu_view -> all_in_range mem_view ->
    Z.of_nat (List.length cpu_view) = n -> Z.of_nat (List.length mem_view) = n ->
    forall xs cv,
      NoDup xs -> (forall x, In x xs -> 0 <= x < n) ->
      canvas_shape height n cv ->
      exists cv',
        draw_columns height cpu_view mem_view cv xs = Ok cv' /\
        canvas_shape height n cv' /\
        forall r' x', 0 <= r' -> 0 <= x' ->
          cell cv' r' x'
          = if existsb (Z.eqb x') xs then
              column_write (row_of height (value_at cpu_view x'))
                           (row_of height (value_at mem_view x')) r' (cell cv r' x')
            else cell cv r' x'.
Proof.
  intros height n cpu_view mem_view Hh Hc Hm Hlc Hlm.
  induction xs as [|x xs IH]; intros cv Hnd Hin Hsh.
  - exists cv. cbn. split; [reflexivity|]. split; [exact Hsh|]. reflexivity.
  - cbn [draw_columns].
    destruct (draw_column_spec height n cpu_view mem_view cv x Hh Hsh Hc Hm Hlc Hlm
                (Hin x (or_introl eq_refl))) as (cv1 & -> & Hsh1 & Hcell1).
    cbn [bind].
    inversion Hnd as [|? ? Hnotin Hnd']; subst.
    destruct (IH cv1 Hnd' (fun y Hy => Hin y (or_intror Hy)) Hsh1)
      as (cv2 & -> & Hsh2 & Hcell2).
    exists cv2. split; [reflexivity|]. split; [exact Hsh2|].
    intros r' x' Hr' Hx'.
    rewrite (Hcell2 r' x' Hr' Hx'), (Hcell1 r' x' Hr' Hx').
    cbn [existsb].
    destruct (Z.eqb_spec x' x) as [->|Hne]; cbn [orb].
    + destruct (existsb (Z.eqb x) xs) eqn:E; [|reflexivity].
      apply existsb_eqb_In in E. contradiction.
    + reflexivity.
Qed.

Lemma In_range : forall n x, In x (range n) <-> 0 <= x < n.
Proof.
  intros n x. unfold range. rewrite in_map_iff. split.
  - intros (k & <- & Hk). apply in_seq in Hk. lia.
  - intros Hx. exists (Z.to_nat x). split; [lia|]. apply in_seq. lia.
Qed.

Lemma NoDup_range : forall n, NoDup (range n).
Proof.
  intros n. unfold range. generalize (seq_NoDup (Z.to_nat n) 0).
  generalize (seq 0 (Z.to_nat n)). induction l as [|a l IH]; intros Hnd; cbn.
  - constructor.
  - inversion Hnd; subst. constructor; [|apply IH; assumption].
    rewrite in_map_iff. intros (b & E & Hb). apply Nat2Z.inj in E. subst.
    contradiction.
Qed.

Lemma nth_error_repeat_lt :
  forall (A : Type) (a : A) k i, (i < k)%nat -> nth_error (repeat a k) i = Some a.
Proof.
  intros A a. induction k as [|k IH]; intros [|i] H; cbn; try lia.
  - reflexivity.
  - apply IH. lia.
Qed.

Lemma empty_canvas_shape :
  forall height n, 0 <= height -> 0 <= n -> canvas_shape height n (empty_canvas height n).
Proof.
  intros height n Hh Hn. unfold canvas_shape, empty_canvas. split.
  - rewrite repeat_length. lia.
  - apply Forall_forall. intros row Hrow. apply repeat_spec in Hrow. subst.
    rewrite repeat_length. lia.
Qed.

Lemma empty_canvas_cell :
  forall height n r x,
    0 <= r < height -> 0 <= x < n -> cell (empty_canvas height n) r x = Some blank.
Proof.
  intros height n r x Hr Hx. unfold cell, empty_canvas.
  rewrite nth_error_repeat_lt by lia. apply nth_error_repeat_lt. lia.
Qed.

(** The canvas drawn from two views of percentages. *)
Lemma render_spec :
  forall height n cpu_view mem_view,
    1 <= height <= 2 ^ 53 + 1 ->
    all_in_range cpu_view -> all_in_range mem_view ->
    Z.of_nat (List.length cpu_view) = n -> Z.of_nat (List.length mem_view) = n ->
    exists cv,
      render height cpu_view mem_view n = Ok cv /\
      canvas_shape height n cv /\
      forall r x, 0 <= r < height -> 0 <= x < n ->
        cell cv r x
        = Some (column_cell (row_of height (value_at cpu_view x))
                            (row_of height (value_at mem_view x)) r).
Proof.
  intros height n cpu_view mem_view Hh Hc Hm Hlc Hlm. unfold render.
  assert (Hn : 0 <= n) by lia.
  destruct (draw_columns_spec height n cpu_view mem_view Hh Hc Hm Hlc Hlm
              (range n) (empty_canvas height n) (NoDup_range n)
              (fun x Hx => proj1 (In_range n x) Hx)
              (empty_canvas_shape height n ltac:(lia) Hn))
    as (cv & -> & Hsh & Hcell).
  exists cv. split; [reflexivity|]. split; [exact Hsh|].
  intros r x Hr Hx. rewrite (Hcell r x) by lia.
  assert (E : existsb (Z.eqb x) (range n) = true)
    by (apply existsb_eqb_In, In_range; exact Hx).
  rewrite E, empty_canvas_cell by assumption.
  unfold column_write, column_cell.
  destruct (Z.eqb_spec (row_of height (value_at cpu_view x))
                       (row_of height (value_at mem_view x))) as [_|Hne].
  - destruct (r =? _); reflexivity.
  - destruct (Z.eqb_spec r (row_of height (value_at mem_view x))) as [->|Hnm].
    + destruct (Z.eqb_spec (row_of height (value_at mem_view x))
                           (row_of height (value_at cpu_view x))) as [E'|_].
      * symmetry in E'. contradiction.
      * reflexivity.
    + destruct (r =? _); reflexivity.
Qed.

(** ** One iteration of graph mode *)

Lemma last_items_length :
  forall (A : Type) (l : list A) n,
    1 <= n <= Z.of_nat (List.length l) ->
    Z.of_nat (List.length (last_items l n)) = n.
Proof.
  intros A l n Hn. unfold last_items.
  destruct (Z.eqb_spec n 0) as [E|_]; [lia|].
  rewrite length_skipn. lia.
Qed.

Lemma Forall_skipn :
  forall (A : Type) (P : A -> Prop) k (l : list A), Forall P l -> Forall P (skipn k l).
Proof.
  intros A P. induction k as [|k IH]; intros [|a l] H; cbn; try assumption.
  apply IH. inversion H; assumption.
Qed.

Lemma last_items_Forall :
  forall (A : Type) (P : A -> Prop) (l : list A) n,
    Forall P l -> Forall P (last_items l n).
Proof.
  intros A P l n H. unfold last_items.
  destruct (n =? 0); [exact H | apply Forall_skipn; exact H].
Qed.

Lemma py_index_last :
  forall (A : Type) (l : list A),
    1 <= Z.of_nat (List.length l) -> exists a, py_index l (-1) = Ok a.
Proof.
  intros A l Hl. unfold py_index.
  change (-1 <? 0) with true. cbv iota.
  destruct (Z.leb_spec 0 (-1 + Z.of_nat (List.length l))) as [_|H]; [|lia].
  destruct (Z.ltb_spec (-1 + Z.of_nat (List.length l)) (Z.of_nat (List.length l)))
    as [_|H]; [|lia].
  cbn [andb].
  destruct (nth_error l _) as [a|] eqn:E.
  - exists a. reflexivity.
  - apply nth_error_None in E. lia.
Qed.

Lemma labels_checked :
  forallb labels_ok [10; 11; 12; 13; 14; 15; 16; 17; 18; 19; 20; 21; 22; 23; 24] = true.
Proof. vm_compute. reflexivity. Qed.

Lemma labels_ok_canvas_height :
  forall lines, labels_ok (canvas_height lines) = true.
Proof.
  intros lines. pose proof labels_checked as H.
  rewrite forallb_forall in H. apply H.
  apply small_height_cases. apply canvas_height_range.
Qed.

Lemma frame_rows_ok :
  forall height n tk cv rows,
    canvas_shape height n cv ->
    (forall row, In row rows ->
       0 <= row < height /\ exists s, tick_label height tk row = Ok s) ->
    exists lines, frame_rows height tk cv rows = Ok lines.
Proof.
  intros height n tk cv rows [Hh _]. induction rows as [|row rows IH]; intros Hrows.
  - exists []. reflexivity.
  - cbn [frame_rows].
    destruct (Hrows row (or_introl eq_refl)) as (Hr & s & ->). cbn [bind].
    destruct (py_index_ok _ cv row ltac:(lia)) as (cells & _ & ->). cbn [bind].
    destruct (IH (fun r Hr' => Hrows r (or_intror Hr'))) as (rest & ->).
    cbn [bind]. eexists. reflexivity.
Qed.

Lemma labels_ok_rows :
  forall height,
    labels_ok height = true ->
    exists tk, ticks height = Ok tk /\
      forall row, In row (range height) ->
        0 <= row < height /\ exists s, tick_label height tk row = Ok s.
Proof.
  intros height H. unfold labels_ok in H.
  destruct (ticks height) as [tk|e]; [|discriminate].
  exists tk. split; [reflexivity|].
  intros row Hrow. split; [apply In_range; exact Hrow|].
  rewrite forallb_forall in H. specialize (H row Hrow).
  destruct (tick_label height tk row) as [s|e]; [|discriminate].
  exists s. reflexivity.
Qed.

Lemma append_sample_inv :
  forall h s, history_inv h -> history_inv (append_sample h s).
Proof.
  intros h s (Hok & Hlen & Hcount). split; [apply append_sample_ok; exact Hok|].
  cbn [append_sample cpu_hist mem_hist count]. rewrite !length_app. cbn [List.length].
  split; lia.
Qed.

Lemma column_cell_cases :
  forall rc rm,
    (rc = rm ->
     forall r, column_cell rc rm r = if r =? rc then overlap_marker else blank) /\
    (rc <> rm ->
     column_cell rc rm rc = cpu_marker /\ column_cell rc rm rm = mem_marker /\
     forall r, r <> rc -> r <> rm -> column_cell rc rm r = blank).
Proof.
  intros rc rm. unfold column_cell. split.
  - intros ->. rewrite Z.eqb_refl. reflexivity.
  - intros Hne. destruct (Z.eqb_spec rc rm) as [E|_]; [contradiction|].
    rewrite !Z.eqb_refl.
    destruct (Z.eqb_spec rm rc) as [E|_]; [symmetry in E; contradiction|].
    split; [reflexivity|]. split; [reflexivity|].
    intros r H1 H2.
    destruct (Z.eqb_spec r rc) as [E|_]; [contradiction|].
    destruct (Z.eqb_spec r rm) as [E|_]; [contradiction|]. reflexivity.
Qed.

(** After a sample was read, the rest of an iteration raises nothing. *)
Lemma graph_iteration_ok :
  forall w interval h s,
    history_inv h -> read_metrics w interval = Ok s ->
    exists fr,
      graph_iteration w interval h = Ok (append_sample h s, fr) /\ frame_ok fr.
Proof.
  intros w interval h s Hinv Hread. unfold graph_iteration. rewrite Hread. cbn [bind].
  pose proof (append_sample_inv h s Hinv) as (Hok' & Hlen' & _).
  destruct Hok' as [Hc Hm].
  set (h' := append_sample h s) in *.
  destruct (terminal_size w) as [columns lines].
  set (height := canvas_height lines).
  set (n := Z.min (Z.of_nat (List.length (cpu_hist h'))) (canvas_width columns)).
  assert (Hpos : 1 <= Z.of_nat (List.length (cpu_hist h'))).
  { unfold h'. cbn [append_sample cpu_hist]. rewrite length_app. cbn [List.length]. lia. }
  assert (Hn : 1 <= n <= Z.of_nat (List.length (cpu_hist h')))
    by (unfold n, canvas_width; lia).
  assert (Hh : 10 <= height <= 24) by apply canvas_height_range.
  assert (Hlc : Z.of_nat (List.length (last_items (cpu_hist h') n)) = n)
    by (apply last_items_length; exact Hn).
  assert (Hlm : Z.of_nat (List.length (last_items (mem_hist h') n)) = n)
    by (apply last_items_length; lia).
  assert (Hvc : all_in_range (last_items (cpu_hist h') n))
    by (apply last_items_Forall; exact Hc).
  assert (Hvm : all_in_range (last_items (mem_hist h') n))
    by (apply last_items_Forall; exact Hm).
  destruct (render_spec height n _ _ ltac:(lia) Hvc Hvm Hlc Hlm)
    as (cv & -> & Hsh & Hcell).
  cbn [bind].
  destruct (py_index_last _ (last_items (cpu_hist h') n) ltac:(lia)) as (lc & ->).
  destruct (py_index_last _ (last_items (mem_hist h') n) ltac:(lia)) as (lm & ->).
  cbn [bind].
  destruct (labels_ok_rows height (labels_ok_canvas_height lines)) as (tk & -> & Hrows).
  cbn [bind].
  destruct (frame_rows_ok height n tk cv (range height) Hsh Hrows) as (rows & ->).
  cbn [bind].
  eexists. split; [reflexivity|].
  split; cbn [frame_height frame_shown frame_canvas]; [exact Hsh|].
  intros x Hx. unfold column_ok.
  cbn [frame_height frame_cpu_view frame_mem_view frame_canvas].
  destruct (value_at_in_range _ x Hvc ltac:(lia)) as [Hrc Hic].
  destruct (value_at_in_range _ x Hvm ltac:(lia)) as [Hrm Him].
  destruct (row_of_in_range height _ ltac:(lia) Hrc) as [Erc Brc].
  destruct (row_of_in_range height _ ltac:(lia) Hrm) as [Erm Brm].
  do 4 eexists.
  split; [exact Hic|]. split; [exact Him|].
  split; [exact Erc|]. split; [exact Erm|].
  split; [lia|]. split; [lia|].
  destruct (column_cell_cases
              (row_of height (value_at (last_items (cpu_hist h') n) x))
              (row_of height (value_at (last_items (mem_hist h') n) x)))
    as [Heq Hne].
  split.
  - intros E r Hr. rewrite (Hcell r x Hr Hx). f_equal. apply Heq. exact E.
  - intros E. destruct (Hne E) as (H1 & H2 & H3).
    split; [rewrite (Hcell _ x) by lia; f_equal; exact H1|].
    split; [rewrite (Hcell _ x) by lia; f_equal; exact H2|].
    intros r Hr N1 N2. rewrite (Hcell r x Hr Hx). f_equal. apply H3; assumption.
Qed.

Lemma graph_iteration_inv :
  forall w interval h h' fr,
    history_inv h -> graph_iteration w interval h = Ok (h', fr) ->
    history_inv h' /\ frame_ok fr /\ count h' = count h + 1.
Proof.
  intros w interval h h' fr Hinv Hit.
  destruct (graph_iteration_history _ _ _ _ _ Hit) as (s & Hread & ->).
  destruct (graph_iteration_ok w interval h s Hinv Hread) as (fr' & Hit' & Hfr).
  rewrite Hit in Hit'. injection Hit' as <-.
  split; [apply append_sample_inv; exact Hinv|]. split; [exact Hfr|]. reflexivity.
Qed.

(** ** The loop of graph mode *)

Lemma graph_loop_frames_ok :
  forall fuel worlds interval samples k h frames o,
    history_inv h -> Forall frame_ok frames ->
    graph_loop fuel worlds interval samples k h frames = Ok o ->
    history_inv (outcome_history o) /\ Forall frame_ok (outcome_frames o).
Proof.
  induction fuel as [|fuel IH]; intros worlds interval samples k h frames o Hinv Hfr.
  - cbn [graph_loop]. intros H. injection H as <-. split; assumption.
  - cbn [graph_loop].
    destruct (graph_iteration (worlds k) interval h) as [[h' fr]|e] eqn:Hit;
      cbn [bind]; [|discriminate].
    destruct (graph_iteration_inv _ _ _ _ _ Hinv Hit) as (Hinv' & Hfr' & _).
    assert (Hall : Forall frame_ok (frames ++ [fr]))
      by (apply Forall_app; split; [exact Hfr | constructor; [exact Hfr' | constructor]]).
    destruct ((samples >? 0) && (count h' >=? samples)).
    + intros H. injection H as <-. split; assumption.
    + apply IH; assumption.
Qed.

Lemma graph_loop_counts :
  forall fuel worlds interval samples k h frames,
    history_inv h -> count h < samples ->
    (forall j, (k <= j < k + Z.to_nat (samples - count h))%nat ->
               exists s, read_metrics (worlds j) interval = Ok s) ->
    (samples - count h <= Z.of_nat fuel ->
     exists h' fs,
       graph_loop fuel worlds interval samples k h frames = Ok (Done h' fs) /\
       count h' = samples /\
       Z.of_nat (List.length fs) = Z.of_nat (List.length frames) + (samples - count h)) /\
    (Z.of_nat fuel < samples - count h ->
     exists h' fs,
       graph_loop fuel worlds interval samples k h frames = Ok (Running h' fs) /\
       count h' = count h + Z.of_nat fuel /\
       Z.of_nat (List.length fs) = Z.of_nat (List.length frames) + Z.of_nat fuel).
Proof.
  induction fuel as [|fuel IH]; intros worlds interval samples k h frames Hinv Hlt Hreads.
  - split; [lia|]. intros _. exists h, frames. cbn [graph_loop].
    split; [reflexivity|]. lia.
  - cbn [graph_loop].
    destruct (Hreads k ltac:(lia)) as (s & Hread).
    destruct (graph_iteration_ok _ _ h s Hinv Hread) as (fr & -> & _).
    cbn [bind].
    pose proof (append_sample_inv h s Hinv) as Hinv'.
    assert (H0 : 0 <= count h) by (destruct Hinv as (_ & _ & ->); lia).
    assert (Hc : count (append_sample h s) = count h + 1) by reflexivity.
    assert (Hl : Z.of_nat (List.length (frames ++ [fr]))
                 = Z.of_nat (List.length frames) + 1)
      by (rewrite length_app; cbn [List.length]; lia).
    destruct (Z.gtb_spec samples 0) as [_|H]; [|lia]. cbn [andb].
    destruct (Z.geb_spec (count (append_sample h s)) samples) as [Hge|Hlt'].
    + split; [|lia]. intros _. do 2 eexists. split; [reflexivity|]. lia.
    + destruct (IH worlds interval samples (S k) (append_sample h s) (frames ++ [fr])
                  Hinv' ltac:(lia)) as [Hdone Hrun].
      { intros j Hj. apply Hreads. lia. }
      split.
      * intros Hf. destruct (Hdone ltac:(lia)) as (h' & fs & -> & H1 & H2).
        exists h', fs. split; [reflexivity|]. lia.
      * intros Hf. destruct (Hrun ltac:(lia)) as (h' & fs & -> & H1 & H2).
        exists h', fs. split; [reflexivity|]. lia.
Qed.

Lemma empty_history_inv : history_inv empty_history.
Proof. split; [split; constructor|]. split; reflexivity. Qed.

Lemma example_outcome_run :
  main_graph 2 example_worlds f1 2 = Ok example_outcome.
Proof. vm_compute. reflexivity. Qed.

(** C8: in every frame drawn by graph mode and for every column [x] of
    its canvas, with [rc] the row of [cpu_view[x]] and [rm] the row of
    [mem_view[x]]: if [rc = rm] the column holds the overlap marker on
    that row and blanks on every other row, so no cpu or mem marker;
    otherwise it holds the cpu marker on row [rc], the mem marker on
    row [rm] and blanks elsewhere, the second write leaving the first
    in place. *)
Theorem column_markers :
  forall (fuel : nat) (worlds : nat -> World) (args_interval : float)
         (args_samples : Z) (o : outcome) (fr : Frame) (x : Z),
    main_graph fuel worlds args_interval args_samples = Ok o ->
    In fr (outcome_frames o) ->
    0 <= x < frame_shown fr ->
    exists c m rc rm,
      py_index (frame_cpu_view fr) x = Ok c /\
      py_index (frame_mem_view fr) x = Ok m /\
      row_for (frame_height fr) c = Ok rc /\
      row_for (frame_height fr) m = Ok rm /\
      0 <= rc < frame_height fr /\ 0 <= rm < frame_height fr /\
      (rc = rm ->
       forall r, 0 <= r < frame_height fr ->
         cell (frame_canvas fr) r x
         = Some (if r =? rc then overlap_marker else blank)) /\
      (rc <> rm ->
       cell (frame_canvas fr) rc x = Some cpu_marker /\
       cell (frame_canvas fr) rm x = Some mem_marker /\
       forall r, 0 <= r < frame_height fr -> r <> rc -> r <> rm ->
         cell (frame_canvas fr) r x = Some blank).
Proof.
  intros fuel worlds ai n o fr x Hrun Hin Hx. unfold main_graph in Hrun.
  destruct (graph_loop_frames_ok _ _ _ _ _ _ _ _ empty_history_inv
              (Forall_nil frame_ok) Hrun) as [_ Hall].
  rewrite Forall_forall in Hall. destruct (Hall fr Hin) as [_ Hcols].
  exact (Hcols x Hx).
Qed.

Lemma column_markers_witness :
  row_for 19 90 = Ok 2 /\ row_for 19 60 = Ok 7 /\
  cell (frame_canvas example_frame) 2 1 = Some cpu_marker /\
  cell (frame_canvas example_frame) 7 1 = Some mem_marker /\
  cell (frame_canvas example_frame) 3 1 = Some blank.
Proof.
  destruct (column_markers 2 example_worlds f1 2 example_outcome example_frame 1)
    as (c & m & rc & rm & Hc & Hm & Hrc & Hrm & _ & _ & _ & Hne).
  - vm_compute. reflexivity.
  - vm_compute. right. left. reflexivity.
  - vm_compute. split; [discriminate | reflexivity].
  - vm_compute in Hc. injection Hc as <-.
    vm_compute in Hm. injection Hm as <-.
    vm_compute in Hrc. injection Hrc as <-.
    vm_compute in Hrm. injection Hrm as <-.
    destruct (Hne ltac:(discriminate)) as (H1 & H2 & H3).
    split; [vm_compute; reflexivity|]. split; [vm_compute; reflexivity|].
    split; [exact H1|]. split; [exact H2|].
    apply H3; [vm_compute; split; [discriminate | reflexivity] | discriminate | discriminate].
Defined.

(** C9: with a limit [N > 0] and samplers that return, the loop of graph
    mode breaks at the end of iteration [N], after exactly [N] samples
    and [N] frames: [N] iterations of fuel or more give [Done] with
    [count = N], and fewer iterations leave the loop running. *)
Theorem graph_mode_stops_after_N_samples :
  forall (worlds : nat -> World) (args_interval : float) (N : Z),
    0 < N ->
    (forall k, (k < Z.to_nat N)%nat ->
       exists s, read_metrics (worlds k) (main_interval args_interval) = Ok s) ->
    forall fuel : nat,
      (N <= Z.of_nat fuel ->
       exists h fs,
         main_graph fuel worlds args_interval N = Ok (Done h fs) /\
         count h = N /\
         Z.of_nat (List.length (cpu_hist h)) = N /\
         Z.of_nat (List.length (mem_hist h)) = N /\
         Z.of_nat (List.length fs) = N) /\
      (Z.of_nat fuel < N ->
       exists h fs,
         main_graph fuel worlds args_interval N = Ok (Running h fs) /\
         count h = Z.of_nat fuel).
Proof.
  intros worlds ai N HN Hreads fuel. unfold main_graph.
  destruct (graph_loop_counts fuel worlds (main_interval ai) N 0 empty_history []
              empty_history_inv) as [Hdone Hrun].
  - cbn [empty_history count]. lia.
  - intros j Hj. apply Hreads. cbn [empty_history count] in Hj. lia.
  - cbn [empty_history count List.length] in Hdone, Hrun. split.
    + intros Hf. destruct (Hdone ltac:(lia)) as (h & fs & Hloop & Hc & Hl).
      exists h, fs. split; [exact Hloop|]. split; [exact Hc|].
      destruct (graph_loop_frames_ok _ _ _ _ _ _ _ _ empty_history_inv
                  (Forall_nil frame_ok) Hloop) as [(_ & Hlen & Hcount) _].
      cbn [outcome_history] in Hlen, Hcount. lia.
    + intros Hf. destruct (Hrun ltac:(lia)) as (h & fs & Hloop & Hc & _).
      exists h, fs. split; [exact Hloop | lia].
Qed.

Lemma graph_mode_stops_after_N_samples_witness :
  (exists h fs, main_graph 5 example_worlds f1 2 = Ok (Done h fs) /\ count h = 2) /\
  (exists h fs, main_graph 1 example_worlds f1 2 = Ok (Running h fs) /\ count h = 1).
Proof.
  assert (Hreads : forall k, (k < Z.to_nat 2)%nat ->
            exists s, read_metrics (example_worlds k) (main_interval f1) = Ok s).
  { intros k _. eexists. vm_compute. reflexivity. }
  split.
  - destruct (graph_mode_stops_after_N_samples example_worlds f1 2 ltac:(lia) Hreads 5%nat)
      as [Hdone _].
    destruct (Hdone ltac:(lia)) as (h & fs & H & Hc & _).
    exists h, fs. split; assumption.
  - destruct (graph_mode_stops_after_N_samples example_worlds f1 2 ltac:(lia) Hreads 1%nat)
      as [_ Hrun].
    destruct (Hrun ltac:(lia)) as (h & fs & H & Hc).
    exists h, fs. split; assumption.
Defined.

(** C10, amended: for every value [v] with [0 <= v <= 100] and every
    height from 1 to [2^53 + 1], [row_for] returns a row of
    [[0, height-1]]; and a canvas of that height drawn from two views of
    such values is drawn without IndexError: every write
    [canvas[row][x]] is within bounds.  Graph mode has heights from 10
    to 24 and views of clamped values. *)
Theorem row_for_within_canvas :
  forall (height : Z) (v : float),
    1 <= height <= 2 ^ 53 + 1 ->
    PrimFloat.leb 0 v = true -> PrimFloat.leb v 100 = true ->
    (exists r, row_for height v = Ok r /\ 0 <= r <= height - 1) /\
    (forall (cpu_view mem_view : list float) (n : Z),
       Forall (fun c => PrimFloat.leb 0 c = true /\ PrimFloat.leb c 100 = true) cpu_view ->
       Forall (fun m => PrimFloat.leb 0 m = true /\ PrimFloat.leb m 100 = true) mem_view ->
       Z.of_nat (List.length cpu_view) = n ->
       Z.of_nat (List.length mem_view) = n ->
       exists cv, render height cpu_view mem_view n = Ok cv /\
                  canvas_shape height n cv).
Proof.
  intros height v Hh H0 H100. split.
  - apply row_for_in_range; [exact Hh|].
    unfold in_range. apply andb_true_iff. split; assumption.
  - intros cpu_view mem_view n Hc Hm Hlc Hlm.
    assert (Hall : forall l,
              Forall (fun c => PrimFloat.leb 0 c = true /\ PrimFloat.leb c 100 = true) l ->
              all_in_range l).
    { intros l Hl. unfold all_in_range. eapply Forall_impl; [|exact Hl].
      cbv beta. intros a [Ha1 Ha2]. unfold in_range. apply andb_true_iff.
      split; assumption. }
    destruct (render_spec height n cpu_view mem_view Hh (Hall _ Hc) (Hall _ Hm) Hlc Hlm)
      as (cv & Hr & Hsh & _).
    exists cv. split; assumption.
Qed.

Lemma row_for_within_canvas_witness :
  (exists r, row_for 19 90 = Ok r /\ 0 <= r <= 19 - 1) /\
  (exists cv, render 19 [90%float; 90%float] [60%float; 60%float] 2 = Ok cv /\
              canvas_shape 19 2 cv).
Proof.
  destruct (row_for_within_canvas 19 90 ltac:(lia) eq_refl eq_refl) as [Hrow Hrender].
  split; [exact Hrow|].
  apply Hrender.
  - repeat constructor.
  - repeat constructor.
  - reflexivity.
  - reflexivity.
Defined.

(** ** The Windows sampler *)

Lemma is_crlf_islinebreak : forall c, is_crlf c = true -> islinebreak c = true.
Proof.
  intros c. unfold is_crlf, islinebreak. cbv zeta.
  destruct (Z.eqb_spec (code c) 10) as [->|_]; [reflexivity|].
  destruct (Z.eqb_spec (code c) 13) as [->|_]; [reflexivity|]. discriminate.
Qed.

Lemma no_newline_of_list :
  forall l, Forall (fun c => is_crlf c = false) l ->
            no_newline (string_of_list_ascii l) = true.
Proof.
  induction l as [|c l IH]; intros H; [reflexivity|].
  inversion H as [|? ? Hc Hl]; subst. cbn [string_of_list_ascii no_newline].
  rewrite Hc. apply IH. exact Hl.
Qed.

Lemma splitlines_aux_no_newline :
  forall s cur after_cr ln,
    Forall (fun c => is_crlf c = false) cur ->
    In ln (splitlines_aux s cur after_cr) -> no_newline ln = true.
Proof.
  induction s as [|c s IH]; intros cur after_cr ln Hcur.
  - cbn [splitlines_aux]. destruct cur as [|a cur']; [intros []|].
    intros [<-|[]]. apply no_newline_of_list. apply Forall_rev. exact Hcur.
  - cbn [splitlines_aux].
    destruct (after_cr && (code c =? 10)); [apply IH; exact Hcur|].
    destruct (islinebreak c) eqn:Hlb.
    + intros [<-|Hin].
      * apply no_newline_of_list. apply Forall_rev. exact Hcur.
      * apply IH with (2 := Hin). constructor.
    + apply IH. constructor; [|exact Hcur].
      destruct (is_crlf c) eqn:E; [|reflexivity].
      apply is_crlf_islinebreak in E. congruence.
Qed.

Lemma nonempty_lines_no_newline :
  forall out ln, In ln (nonempty_lines out) -> no_newline ln = true.
Proof.
  intros out ln Hin. unfold nonempty_lines in Hin. apply filter_In in Hin as [Hin _].
  apply splitlines_aux_no_newline with (2 := Hin). constructor.
Qed.

Lemma last_In :
  forall (A : Type) (l : list A) d, l <> [] -> In (last l d) l.
Proof.
  intros A. induction l as [|a l IH]; intros d Hne; [contradiction|].
  destruct l as [|b l']; [left; reflexivity|].
  right. apply IH. discriminate.
Qed.

(** A line without a line end and within the limit of a field is read
    without an error. *)
Lemma parse_chars_ok :
  forall s r,
    no_newline s = true -> state r <> EAT_CRNL ->
    0 <= field_len r -> field_len r + len s <= field_limit ->
    exists r', parse_chars r s = Ok r'.
Proof.
  induction s as [|c s IH]; intros r Hs Hst H0 Hlen; [exists r; reflexivity|].
  cbn [no_newline] in Hs. apply andb_true_iff in Hs as [Hc Hs].
  apply negb_true_iff in Hc.
  assert (Hl : len (String c s) = len s + 1)
    by (unfold len; cbn [String.length]; lia).
  assert (Hl0 : 0 <= len s) by (unfold len; lia).
  assert (Hadd : forall st, st <> EAT_CRNL ->
            exists r', parse_add_char r st c = Ok r' /\ state r' <> EAT_CRNL /\
                       0 <= field_len r' /\ field_len r' + len s <= field_limit).
  { intros st Hne. unfold parse_add_char.
    destruct (Z.leb_spec field_limit (field_len r)) as [H|_]; [lia|].
    eexists. split; [reflexivity|]. cbn [state field_len]. split; [exact Hne|]. lia. }
  assert (Hsave : exists r', Ok (parse_save_field r START_FIELD) = Ok r' /\
                    state r' <> EAT_CRNL /\
                    0 <= field_len r' /\ field_len r' + len s <= field_limit).
  { eexists. split; [reflexivity|]. cbn [parse_save_field state field_len].
    split; [discriminate|]. lia. }
  assert (Hset : forall st, st <> EAT_CRNL ->
            exists r', Ok (set_state r st) = Ok r' /\ state r' <> EAT_CRNL /\
                       0 <= field_len r' /\ field_len r' + len s <= field_limit).
  { intros st Hne. eexists. split; [reflexivity|]. cbn [set_state state field_len].
    split; [exact Hne|]. lia. }
  assert (Hstep : exists r', parse_process_char r c = Ok r' /\ state r' <> EAT_CRNL /\
                    0 <= field_len r' /\ field_len r' + len s <= field_limit).
  { unfold parse_process_char. rewrite Hc.
    destruct (state r); try contradiction;
      destruct (is_quote c); destruct (is_delim c);
      first [ exact Hsave | apply Hadd; discriminate | apply Hset; discriminate ]. }
  destruct Hstep as (r' & Hstep & Hst' & H0' & Hlen').
  cbn [parse_chars]. rewrite Hstep. cbn [bind].
  apply IH; assumption.
Qed.

Lemma csv_row_ok :
  forall line,
    no_newline line = true -> len line <= field_limit ->
    exists row, csv_row line = Ok row.
Proof.
  intros line Hn Hl. unfold csv_row.
  destruct (parse_chars_ok line csv_reset Hn) as (r & ->).
  - discriminate.
  - cbn. lia.
  - cbn [csv_reset field_len]. lia.
  - cbn [bind]. eexists. reflexivity.
Qed.

(** [float] raises nothing but ValueError. *)
Lemma py_float_raises :
  forall s e, py_float s = Raise e -> e = ValueError.
Proof.
  intros s e. unfold py_float.
  destruct (read_sign (strip_number s)) as [neg t].
  destruct (_ || _); [discriminate|].
  destruct (String.eqb _ _); [discriminate|].
  unfold read_decimal.
  destruct (match digitpart t with Some x => x | None => (0, 0, t) end)
    as [[mi ci] r1].
  assert (Htail : forall mf cf r2,
            (if ci + cf =? 0 then Raise ValueError
             else
               let mant := mi * 10 ^ cf + mf in
               match r2 with
               | EmptyString => Ok (dec_to_float neg mant (- cf))
               | String c r2' =>
                   if Ascii.eqb (lower c) "e" then
                     let '(eneg, r3) := read_sign r2' in
                     match digitpart r3 with
                     | Some (ev, _, EmptyString) =>
                         Ok (dec_to_float neg mant ((if eneg then - ev else ev) - cf))
                     | _ => Raise ValueError
                     end
                   else Raise ValueError
               end) = Raise e -> e = ValueError).
  { intros mf cf r2.
    destruct (ci + cf =? 0); [intros H; injection H as <-; reflexivity|].
    destruct r2 as [|c r2']; [discriminate|].
    cbv zeta.
    destruct (Ascii.eqb (lower c) "e"); [|intros H; injection H as <-; reflexivity].
    destruct (read_sign r2') as [eneg r3].
    destruct (digitpart r3) as [[[ev k] [|c' rest]]|];
      first [ discriminate | intros H; injection H as <-; reflexivity ]. }
  destruct r1 as [|c1 r1']; [exact (Htail 0 0 EmptyString)|].
  destruct (Ascii.eqb c1 "."); [|exact (Htail 0 0 (String c1 r1'))].
  destruct (digitpart r1') as [[[a b] c]|];
    [exact (Htail a b c) | exact (Htail 0 0 r1')].
Qed.

(** [float] and [int] skip the blanks of C around a number, not every
    character of [str.isspace]: a column that starts with the unit
    separator is not the text of a float, and the sampler returns
    [(None, None)] for its row. *)
Lemma typeperf_separator_in_column :
  strip (unit_separator ++ "2.0") = "2.0" /\
  py_float (unit_separator ++ "2.0") = Raise ValueError /\
  py_float ("2.0" ++ unit_separator) = Raise ValueError /\
  py_int (unit_separator ++ "2") = Raise ValueError /\
  py_float " 2.0 " = Ok 2%float /\
  py_int " 2 " = Ok 2 /\
  csv_row typeperf_separator_row
  = Ok ["t"; unit_separator ++ "2.0"; "40.0"]%string /\
  _read_windows_typeperf (windows_world (Some typeperf_separator_lines)) f1
  = Ok (None, None).
Proof. repeat split; vm_compute; reflexivity. Qed.

(** The limit on the length of a field is an error of its own, which the
    sampler does not catch. *)
Lemma csv_field_limit_raises :
  forall r c,
    state r = IN_FIELD -> field_len r = field_limit ->
    is_crlf c = false -> is_delim c = false ->
    parse_process_char r c = Raise CsvError /\
    is_ValueError CsvError = false /\ is_FileNotFoundError CsvError = false.
Proof.
  intros r c Hst Hlen Hc Hd. unfold parse_process_char, parse_add_char.
  rewrite Hst, Hc, Hd, Hlen. split; [reflexivity|]. split; reflexivity.
Qed.

(** The command line is built before the [try]: an interval that is
    infinite or not a number raises to the caller. *)
Lemma typeperf_interval_raises :
  forall w,
    _read_windows_typeperf w infinity = Raise OverflowError /\
    _read_windows_typeperf w nan = Raise ValueError.
Proof. intros w. split; reflexivity. Qed.

(** C3, as stated, fails on one header line plus a data line: the
    sampler wants three lines that are not empty, and returns
    [(None, None)] although the last line is a data row that parses to
    2.0 and 40.0. *)
Lemma typeperf_header_and_data_line :
  nonempty_lines typeperf_two_lines = [typeperf_header; typeperf_data_row] /\
  csv_row typeperf_data_row
  = Ok ["09/05/2025 14:35:52.123"; "2.000000"; "40.000000"]%string /\
  py_float "2.000000" = Ok 2%float /\
  py_float "40.000000" = Ok 40%float /\
  _read_windows_typeperf (windows_world (Some typeperf_two_lines)) f1
  = Ok (None, None).
Proof. repeat split; vm_compute; reflexivity. Qed.

(** C3, amended: once the command line is built, the sampler raises
    nothing and returns [(None, None)] when typeperf is not found, when
    fewer than three lines of its output are not empty, when the data
    row (the last such line, within the limit of a csv field) has fewer
    than 3 columns, and when column 1 or column 2 is not the text of a
    float; otherwise it returns the two values of the data row. *)
Theorem windows_sampler_returns :
  forall (w : World) (interval : float) (cmd : list string),
    typeperf_cmd interval = Ok cmd ->
    (subprocess_run w cmd = None ->
     _read_windows_typeperf w interval = Ok (None, None)) /\
    (forall out : string,
       subprocess_run w cmd = Some out ->
       (Z.of_nat (List.length (nonempty_lines out)) < 3 ->
        _read_windows_typeperf w interval = Ok (None, None)) /\
       (3 <= Z.of_nat (List.length (nonempty_lines out)) ->
        len (last (nonempty_lines out) "") <= field_limit ->
        exists row,
          In (last (nonempty_lines out) "") (nonempty_lines out) /\
          csv_row (last (nonempty_lines out) "") = Ok row /\
          (Z.of_nat (List.length row) < 3 ->
           _read_windows_typeperf w interval = Ok (None, None)) /\
          (3 <= Z.of_nat (List.length row) ->
           exists r1 r2,
             nth_error row 1 = Some r1 /\ nth_error row 2 = Some r2 /\
             _read_windows_typeperf w interval
             = match py_float r1, py_float r2 with
               | Ok cpu, Ok mem => Ok (Some cpu, Some mem)
               | _, _ => Ok (None, None)
               end))).
Proof.
  intros w interval cmd Hcmd. unfold _read_windows_typeperf. rewrite Hcmd.
  cbn [bind]. split.
  - intros ->. reflexivity.
  - intros out ->. cbn [bind].
    change (filter (fun ln => truthy_str (strip ln)) (splitlines out))
      with (nonempty_lines out).
    set (lines := nonempty_lines out).
    split.
    + intros Hlt. destruct (Z.leb_spec 3 (Z.of_nat (List.length lines))) as [H|_]; [lia|].
      reflexivity.
    + intros Hge Hlen.
      destruct (Z.leb_spec 3 (Z.of_nat (List.length lines))) as [_|H]; [|lia].
      assert (Hin : In (last lines "") lines).
      { apply last_In. intros E. rewrite E in Hge. cbn in Hge. lia. }
      destruct (csv_row_ok (last lines "")
                  (nonempty_lines_no_newline out _ Hin) Hlen) as (row & Hrow).
      exists row. split; [exact Hin|]. split; [exact Hrow|].
      rewrite Hrow. cbn [bind]. split.
      * intros Hlt. destruct (Z.leb_spec 3 (Z.of_nat (List.length row))) as [H|_]; [lia|].
        reflexivity.
      * intros Hrge.
        destruct (Z.leb_spec 3 (Z.of_nat (List.length row))) as [_|H]; [|lia].
        destruct (py_index_ok _ row 1 ltac:(lia)) as (r1 & Hn1 & ->).
        destruct (py_index_ok _ row 2 ltac:(lia)) as (r2 & Hn2 & ->).
        exists r1, r2. split; [exact Hn1|]. split; [exact Hn2|].
        cbn [bind].
        destruct (py_float r1) as [cpu|e1] eqn:E1; cbn [bind].
        -- destruct (py_float r2) as [mem|e2] eqn:E2; cbn [bind catch]; [reflexivity|].
           apply py_float_raises in E2. subst e2. reflexivity.
        -- apply py_float_raises in E1. subst e1. reflexivity.
Qed.

Lemma windows_sampler_returns_witness :
  _read_windows_typeperf (windows_world None) f1 = Ok (None, None) /\
  _read_windows_typeperf (windows_world (Some typeperf_three_lines)) f1
  = Ok (Some 2%float, Some 40%float).
Proof.
  split.
  - destruct (windows_sampler_returns (windows_world None) f1 typeperf_cmd_1 eq_refl)
      as [Hnone _].
    apply Hnone. reflexivity.
  - destruct (windows_sampler_returns (windows_world (Some typeperf_three_lines)) f1
                typeperf_cmd_1 eq_refl) as [_ Hsome].
    destruct (Hsome typeperf_three_lines eq_refl) as [_ Hlines].
    destruct Hlines as (row & _ & Hrow & _ & Hcols).
    + vm_compute. discriminate.
    + vm_compute. discriminate.
    + vm_compute in Hrow. injection Hrow as <-.
      destruct Hcols as (r1 & r2 & H1 & H2 & Hres).
      * vm_compute. discriminate.
      * cbn in H1, H2. injection H1 as <-. injection H2 as <-.
        rewrite Hres. vm_compute. reflexivity.
Defined.

(** * Further properties of the code *)

(** ** Intervals *)

Lemma interval_or_1_zero :
  forall x, PrimFloat.eqb x 0 = true -> interval_or_1 x = f1.
Proof.
  intros x H. unfold interval_or_1, truthy_float. unfold f0. rewrite H. reflexivity.
Qed.

(** An interval of zero (0.0 or -0.0) is sampled as an interval of one
    second by every sampler, so [read_metrics] returns what it returns
    for 1.0. *)
Theorem read_metrics_zero_interval :
  forall (w : World) (x : float),
    PrimFloat.eqb x 0 = true ->
    _read_with_psutil w x = _read_with_psutil w 1 /\
    _read_windows_typeperf w x = _read_windows_typeperf w 1 /\
    _read_linux_proc w x = _read_linux_proc w 1 /\
    read_metrics w x = read_metrics w 1.
Proof.
  intros w x Hx.
  assert (Hi : interval_or_1 x = interval_or_1 1)
    by (rewrite (interval_or_1_zero x Hx); reflexivity).
  assert (Hcmd : typeperf_cmd x = typeperf_cmd 1).
  { unfold typeperf_cmd at 1, truthy_float. unfold f0. rewrite Hx. reflexivity. }
  assert (Hp : _read_with_psutil w x = _read_with_psutil w 1)
    by (unfold _read_with_psutil; rewrite Hi; reflexivity).
  assert (Hw : _read_windows_typeperf w x = _read_windows_typeperf w 1)
    by (unfold _read_windows_typeperf; rewrite Hcmd; reflexivity).
  assert (Hl : _read_linux_proc w x = _read_linux_proc w 1)
    by (unfold _read_linux_proc; rewrite Hi; reflexivity).
  repeat split; try assumption.
  unfold read_metrics. rewrite Hp, Hw, Hl. reflexivity.
Qed.

Lemma read_metrics_zero_interval_witness :
  read_metrics world_snapshots (-0)%float = read_metrics world_snapshots 1.
Proof.
  apply (read_metrics_zero_interval world_snapshots (-0)%float). reflexivity.
Defined.

(** ** The Linux sampler *)

(** Whatever /proc/meminfo holds, and also when it cannot be opened,
    the Linux sampler returns the same cpu value and raises the same
    exception: the memory file decides the memory value only. *)
Theorem linux_meminfo_decides_memory_only :
  forall (w : World) (interval : float) (file : option (list string)),
    (forall cpu mem,
       _read_linux_proc w interval = Ok (cpu, mem) ->
       exists mem', _read_linux_proc (with_meminfo w file) interval = Ok (cpu, mem')) /\
    (forall e,
       _read_linux_proc w interval = Raise e ->
       _read_linux_proc (with_meminfo w file) interval = Raise e).
Proof.
  intros w interval file. unfold _read_linux_proc.
  cbn [with_meminfo proc_stat time_sleep proc_meminfo].
  destruct (read_cpu_times (proc_stat w 0%nat)) as [s1|e1]; cbn [bind];
    [|split; [discriminate | intros e H; exact H]].
  destruct (unpack_pair s1) as [[idle1 total1]|e1]; cbn [bind];
    [|split; [discriminate | intros e H; exact H]].
  destruct (time_sleep w (interval_or_1 interval)) as [[]|e1]; cbn [bind];
    [|split; [discriminate | intros e H; exact H]].
  destruct (read_cpu_times (proc_stat w 1%nat)) as [s2|e1]; cbn [bind];
    [|split; [discriminate | intros e H; exact H]].
  destruct (unpack_pair s2) as [[idle2 total2]|e1]; cbn [bind];
    [|split; [discriminate | intros e H; exact H]].
  destruct (cpu_percent idle1 total1 idle2 total2) as [c|e1]; cbn [bind];
    [|split; [discriminate | intros e H; exact H]].
  destruct (mem_percent_returns (proc_meminfo w)) as [m ->].
  destruct (mem_percent_returns file) as [m' ->].
  cbn [bind]. split.
  - intros cpu mem H. injection H as <- _. exists m'. reflexivity.
  - discriminate.
Qed.

Lemma linux_meminfo_decides_memory_only_witness :
  exists mem',
    _read_linux_proc (with_meminfo world_snapshots (Some ["no colon here"])) 1
    = Ok (Some 90%float, mem').
Proof.
  destruct (linux_meminfo_decides_memory_only world_snapshots 1 (Some ["no colon here"]))
    as [Hok _].
  apply (Hok (Some 90%float) (Some 60%float)). vm_compute. reflexivity.
Defined.

(** The counters are read from the first line that starts with
    [cpu ]: the lines before it that do not are skipped (the lines
    [cpu0], [cpu1], ... among them) and the lines after it are not
    looked at, malformed or not. *)
Theorem read_cpu_times_first_cpu_line :
  forall (before : list string) (line : string) (after : list string),
    no_cpu_line before = true ->
    startswith "cpu " line = true ->
    read_cpu_times (Some (before ++ line :: after)) = read_cpu_times (Some [line]).
Proof.
  intros before line after Hb Hl. unfold read_cpu_times. cbn [open_lines bind].
  induction before as [|b before IH].
  - cbn [app scan_cpu_line]. rewrite Hl. reflexivity.
  - cbn [no_cpu_line forallb] in Hb. apply andb_true_iff in Hb as [Hb1 Hb2].
    apply negb_true_iff in Hb1.
    cbn [app scan_cpu_line]. rewrite Hb1. apply IH. exact Hb2.
Qed.

Lemma read_cpu_times_first_cpu_line_witness :
  read_cpu_times (Some (["intr 0"; "cpu0 1 2 3 4"] ++ "cpu  900 0 0 100" :: ["cpu1 x"]))
  = read_cpu_times (Some ["cpu  900 0 0 100"]).
Proof.
  apply (read_cpu_times_first_cpu_line ["intr 0"; "cpu0 1 2 3 4"] "cpu  900 0 0 100"
           ["cpu1 x"]); reflexivity.
Defined.

(** *** Keys of /proc/meminfo *)

Lemma dict_get_set_other :
  forall d k k' v default,
    String.eqb k' k = false ->
    dict_get (dict_set d k' v) k default = dict_get d k default.
Proof.
  intros d k k' v default Hne.
  assert (Hne' : String.eqb k k' = false) by (rewrite String.eqb_sym; exact Hne).
  induction d as [|[k0 v0] d IH]; cbn [dict_set dict_get].
  - rewrite Hne'. reflexivity.
  - destruct (String.eqb_spec k' k0) as [->|Hk]; cbn [dict_get].
    + rewrite Hne'. reflexivity.
    + destruct (String.eqb k k0); [reflexivity | exact IH].
Qed.

Lemma read_meminfo_lines_no_key :
  forall lines k default d d',
    has_key lines k = false ->
    read_meminfo_lines lines d = Ok d' ->
    dict_get d' k default = dict_get d k default.
Proof.
  induction lines as [|line lines IH]; intros k default d d' Hk Hread.
  - cbn in Hread. injection Hread as <-. reflexivity.
  - cbn [has_key existsb] in Hk. apply orb_false_iff in Hk as [Hline Hrest].
    cbn [read_meminfo_lines] in Hread.
    destruct (split_colon1 line) as [|k0 [|v0 [|x rest]]]; try discriminate.
    rewrite (IH k default _ d' Hrest Hread).
    apply dict_get_set_other. exact Hline.
Qed.

Lemma zero_div_positive :
  forall t, PrimFloat.ltb 0 t = true ->
            PrimFloat.eqb t 0 = false /\ (0 / t)%float = 0%float.
Proof.
  intros t Ht. rewrite ltb_spec in Ht. rewrite eqb_spec.
  assert (Hd : Prim2SF (0 / t)%float = S754_zero false).
  { rewrite div_spec. change (Prim2SF 0) with (S754_zero false).
    change (Prim2SF 0) with (S754_zero false) in Ht.
    destruct (Prim2SF t) as [s|s| |s m e]; try discriminate;
      destruct s; try discriminate; reflexivity. }
  split.
  - change (Prim2SF 0) with (S754_zero false).
    change (Prim2SF 0) with (S754_zero false) in Ht.
    destruct (Prim2SF t) as [s|s| |s m e]; try discriminate;
      destruct s; try discriminate; reflexivity.
  - rewrite <- (SF2Prim_Prim2SF (0 / t)%float), Hd. reflexivity.
Qed.

(** Without a line [MemTotal] the memory value is absent, whatever the
    other lines are; without a line [MemAvailable] the available memory
    counts as 0 and the memory value is 100.0. *)
Theorem meminfo_missing_keys :
  forall lines : list string,
    (has_key lines "MemTotal" = false -> mem_percent (Some lines) = Ok None) /\
    (forall (d : dict) (total : float),
       has_key lines "MemAvailable" = false ->
       read_meminfo_lines lines [] = Ok d ->
       kb d "MemTotal" = Ok total ->
       PrimFloat.ltb 0 total = true ->
       mem_percent (Some lines) = Ok (Some 100%float)).
Proof.
  intros lines. split.
  - intros Hk. unfold mem_percent. cbn [open_lines bind].
    destruct (read_meminfo_lines lines []) as [d|e] eqn:Hread; cbn [bind];
      [|reflexivity].
    assert (Ht : kb d "MemTotal" = Ok 0%float).
    { unfold kb. rewrite (read_meminfo_lines_no_key lines _ _ [] d Hk Hread).
      vm_compute. reflexivity. }
    rewrite Ht. cbn [bind].
    destruct (kb d "MemAvailable") as [avail|e]; reflexivity.
  - intros d total Hk Hread Ht Hpos. unfold mem_percent. cbn [open_lines bind].
    rewrite Hread. cbn [bind]. rewrite Ht. cbn [bind].
    assert (Ha : kb d "MemAvailable" = Ok 0%float).
    { unfold kb. rewrite (read_meminfo_lines_no_key lines _ _ [] d Hk Hread).
      vm_compute. reflexivity. }
    rewrite Ha. cbn [bind]. unfold f0. rewrite Hpos.
    destruct (zero_div_positive total Hpos) as [Hne Hq].
    unfold float_div, f0. rewrite Hne, Hq. cbn [bind catch]. reflexivity.
Qed.

Lemma meminfo_missing_keys_witness :
  mem_percent (Some ["MemFree: 10 kB"; "MemAvailable: 40 kB"]) = Ok None /\
  mem_percent (Some ["MemTotal: 100 kB"; "MemFree: 10 kB"]) = Ok (Some 100%float).
Proof.
  split.
  - apply (meminfo_missing_keys ["MemFree: 10 kB"; "MemAvailable: 40 kB"]). reflexivity.
  - apply (proj2 (meminfo_missing_keys ["MemTotal: 100 kB"; "MemFree: 10 kB"])
             [("MemTotal", "100 kB"); ("MemFree", "10 kB")] 100%float);
      vm_compute; reflexivity.
Defined.

(** ** The loop of graph mode *)

Lemma graph_loop_unlimited :
  forall fuel worlds interval samples k h frames,
    samples <= 0 -> history_inv h ->
    (forall j, (k <= j)%nat -> exists s, read_metrics (worlds j) interval = Ok s) ->
    exists h' fs,
      graph_loop fuel worlds interval samples k h frames = Ok (Running h' fs) /\
      history_inv h' /\
      count h' = count h + Z.of_nat fuel /\
      List.length fs = (List.length frames + fuel)%nat.
Proof.
  induction fuel as [|fuel IH]; intros worlds interval samples k h frames Hs Hinv Hreads.
  - exists h, frames. cbn [graph_loop]. split; [reflexivity|].
    split; [exact Hinv|]. split; lia.
  - cbn [graph_loop].
    destruct (Hreads k (Nat.le_refl k)) as (s & Hread).
    destruct (graph_iteration_ok _ _ h s Hinv Hread) as (fr & -> & _).
    cbn [bind].
    destruct (Z.gtb_spec samples 0) as [H|_]; [lia|]. cbn [andb].
    destruct (IH worlds interval samples (S k) (append_sample h s) (frames ++ [fr]) Hs
                (append_sample_inv h s Hinv)) as (h' & fs & -> & Hinv' & Hc & Hl).
    { intros j Hj. apply Hreads. lia. }
    exists h', fs. split; [reflexivity|]. split; [exact Hinv'|].
    cbn [append_sample count] in Hc. rewrite length_app in Hl. cbn [List.length] in Hl.
    split; lia.
Qed.

(** Without a limit ([--samples] zero or negative) and with samplers
    that return, graph mode never leaves its loop: after any number of
    iterations it is still running, and both histories hold one value
    per iteration, none being dropped. *)
Theorem graph_mode_without_limit_runs_on :
  forall (worlds : nat -> World) (args_interval : float) (args_samples : Z),
    args_samples <= 0 ->
    (forall k, exists s, read_metrics (worlds k) (main_interval args_interval) = Ok s) ->
    forall fuel : nat,
      exists h fs,
        main_graph fuel worlds args_interval args_samples = Ok (Running h fs) /\
        count h = Z.of_nat fuel /\
        List.length (cpu_hist h) = fuel /\
        List.length (mem_hist h) = fuel /\
        List.length fs = fuel.
Proof.
  intros worlds ai N HN Hreads fuel. unfold main_graph.
  destruct (graph_loop_unlimited fuel worlds (main_interval ai) N 0 empty_history []
              HN empty_history_inv (fun j _ => Hreads j))
    as (h & fs & Hloop & (_ & Hlen & Hcount) & Hc & Hl).
  exists h, fs. split; [exact Hloop|].
  cbn [empty_history count List.length] in Hc, Hl.
  repeat split; lia.
Qed.

Lemma graph_mode_without_limit_runs_on_witness :
  exists h fs,
    main_graph 3 example_worlds f1 (-1) = Ok (Running h fs) /\
    count h = 3 /\ List.length fs = 3%nat.
Proof.
  destruct (graph_mode_without_limit_runs_on example_worlds f1 (-1)) with (fuel := 3%nat)
    as (h & fs & Hrun & Hc & _ & _ & Hl).
  - lia.
  - intros k. eexists. vm_compute. reflexivity.
  - exists h, fs. split; [exact Hrun|]. split; [exact Hc | exact Hl].
Defined.

Lemma graph_loop_raises :
  forall d fuel worlds interval samples k h frames e,
    history_inv h ->
    (forall j, (k <= j < k + d)%nat -> exists s, read_metrics (worlds j) interval = Ok s) ->
    read_metrics (worlds (k + d)%nat) interval = Raise e ->
    samples <= 0 \/ count h + Z.of_nat d < samples ->
    (d < fuel)%nat ->
    graph_loop fuel worlds interval samples k h frames = Raise e.
Proof.
  induction d as [|d IH]; intros fuel worlds interval samples k h frames e
                                 Hinv Hreads Hraise Hlim Hfuel;
    (destruct fuel as [|fuel]; [lia|]); cbn [graph_loop].
  - rewrite Nat.add_0_r in Hraise. unfold graph_iteration. rewrite Hraise. reflexivity.
  - destruct (Hreads k ltac:(lia)) as (s & Hread).
    destruct (graph_iteration_ok _ _ h s Hinv Hread) as (fr & -> & _).
    cbn [bind].
    assert (Hc : count (append_sample h s) = count h + 1) by reflexivity.
    assert (Hbreak : (samples >? 0) && (count (append_sample h s) >=? samples) = false).
    { destruct (Z.gtb_spec samples 0) as [Hpos|_]; [|reflexivity]. cbn [andb].
      destruct (Z.geb_spec (count (append_sample h s)) samples) as [Hge|_]; [lia|].
      reflexivity. }
    rewrite Hbreak.
    apply (IH fuel worlds interval samples (S k) _ _ e (append_sample_inv h s Hinv)).
    + intros j Hj. apply Hreads. lia.
    + replace (S k + d)%nat with (k + S d)%nat by lia. exact Hraise.
    + rewrite Hc. lia.
    + lia.
Qed.

(** An exception of the sampler is not handled in graph mode: when
    [read_metrics] raises at iteration [k], before the limit is
    reached, the loop ends with that exception. *)
Theorem graph_mode_sampler_exception :
  forall (worlds : nat -> World) (args_interval : float) (args_samples : Z)
         (k : nat) (e : exn),
    (forall j, (j < k)%nat ->
       exists s, read_metrics (worlds j) (main_interval args_interval) = Ok s) ->
    read_metrics (worlds k) (main_interval args_interval) = Raise e ->
    args_samples <= 0 \/ Z.of_nat k < args_samples ->
    forall fuel : nat, (k < fuel)%nat ->
      main_graph fuel worlds args_interval args_samples = Raise e.
Proof.
  intros worlds ai N k e Hreads Hraise Hlim fuel Hfuel. unfold main_graph.
  apply (graph_loop_raises k fuel worlds (main_interval ai) N 0 empty_history [] e
           empty_history_inv).
  - intros j Hj. apply Hreads. lia.
  - exact Hraise.
  - cbn [empty_history count]. lia.
  - exact Hfuel.
Qed.

Lemma graph_mode_sampler_exception_witness :
  main_graph 5 failing_worlds f1 0 = Raise TypeError.
Proof.
  apply (graph_mode_sampler_exception failing_worlds f1 0 1 TypeError).
  - intros j Hj. assert (j = 0%nat) as -> by lia. eexists. vm_compute. reflexivity.
  - vm_compute. reflexivity.
  - left. lia.
  - lia.
Defined.

(** ** The clamp of graph mode *)

Lemma SFcompare_finite_eq :
  forall X m' e',
    SFcompare X (S754_finite false m' e') = Some Eq -> X = S754_finite false m' e'.
Proof.
  intros X m' e'.
  destruct X as [s|s| |s m e]; cbn [SFcompare]; try discriminate.
  - destruct s; discriminate.
  - destruct s; [discriminate|].
    destruct (Z.compare_spec e e') as [->|H|H]; try discriminate.
    intros H. injection H as H.
    assert (Hm : (m ?= m')%positive = Eq) by exact H.
    apply Pos.compare_eq in Hm. subst m. reflexivity.
Qed.

Lemma SFcompare_antisym_Lt :
  forall X Y, SFcompare X Y = Some Lt -> SFcompare Y X = Some Gt.
Proof.
  intros X Y.
  destruct X as [sx|sx| |sx mx ex], Y as [sy|sy| |sy my ey]; cbn [SFcompare];
    try discriminate;
    try (destruct sx; discriminate);
    try (destruct sy; discriminate);
    try (destruct sx, sy; (discriminate || reflexivity)).
  destruct sx, sy; try discriminate; try reflexivity;
    rewrite (Z.compare_antisym ex ey);
    change (Pos.compare_cont Eq my mx) with (Pos.compare my mx);
    rewrite (Pos.compare_antisym mx my);
    change (Pos.compare mx my) with (Pos.compare_cont Eq mx my);
    destruct (ex ?= ey); cbn [CompOpp]; try discriminate; try reflexivity;
    destruct (Pos.compare_cont Eq mx my); cbn [CompOpp]; try discriminate;
    reflexivity.
Qed.

Lemma ltb_antisym :
  forall x y, PrimFloat.ltb x y = true -> PrimFloat.ltb y x = false.
Proof.
  intros x y. rewrite !ltb_spec. unfold SFltb.
  destruct (SFcompare (Prim2SF x) (Prim2SF y)) as [[| |]|] eqn:E; try discriminate.
  intros _. rewrite (SFcompare_antisym_Lt _ _ E). reflexivity.
Qed.

Lemma SFcompare_refl :
  forall X, X <> S754_nan -> SFcompare X X = Some Eq.
Proof.
  intros [s|s| |s m e] H; cbn [SFcompare].
  - reflexivity.
  - destruct s; reflexivity.
  - contradiction.
  - rewrite Z.compare_refl.
    assert (Hm : Pos.compare_cont Eq m m = Eq) by apply Pos.compare_refl.
    destruct s; rewrite Hm; reflexivity.
Qed.

Lemma leb_not_ltb_100 :
  forall x, PrimFloat.leb x 100 = true -> PrimFloat.ltb x 100 = false -> x = 100%float.
Proof.
  intros x Hle Hlt. rewrite leb_spec in Hle. rewrite ltb_spec in Hlt.
  unfold SFleb in Hle. unfold SFltb in Hlt.
  destruct (SFcompare (Prim2SF x) (Prim2SF 100)) as [[| |]|] eqn:E; try discriminate.
  change (Prim2SF 100) with (Prim2SF f100) in E. rewrite Prim2SF_f100 in E.
  apply SFcompare_finite_eq in E.
  rewrite <- (SF2Prim_Prim2SF x), E, <- Prim2SF_f100. apply SF2Prim_Prim2SF.
Qed.

Lemma leb_0_cases :
  forall x, PrimFloat.leb x 0 = true ->
            PrimFloat.ltb x 100 = true /\ PrimFloat.ltb 0 x = false.
Proof.
  intros x H. rewrite leb_spec in H. rewrite !ltb_spec.
  change (Prim2SF 100) with (Prim2SF f100). rewrite Prim2SF_f100.
  change (Prim2SF 0) with (S754_zero false) in *.
  destruct (Prim2SF x) as [s|s| |s m e]; try discriminate.
  - split; reflexivity.
  - destruct s; [|discriminate]. split; reflexivity.
  - destruct s; [|discriminate]. split; reflexivity.
Qed.

Lemma eqb_self_false :
  forall x, PrimFloat.eqb x x = false -> Prim2SF x = S754_nan.
Proof.
  intros x H. rewrite eqb_spec in H. unfold SFeqb in H.
  destruct (Prim2SF x) as [s|s| |s m e] eqn:E; [| |reflexivity|];
    rewrite SFcompare_refl in H by discriminate; discriminate.
Qed.

(** ** What the histories of graph mode hold *)

(** One run of the loop from iteration [k]: entry [j] of either history
    is what [clamp] makes of the sample read by iteration [j]. *)
Lemma graph_loop_history_samples :
  forall fuel worlds interval samples k h frames o,
    List.length (cpu_hist h) = k -> List.length (mem_hist h) = k ->
    (forall j, (j < k)%nat ->
       exists cpu mem,
         read_metrics (worlds j) interval = Ok (cpu, mem) /\
         nth_error (cpu_hist h) j = Some (clamp cpu) /\
         nth_error (mem_hist h) j = Some (clamp mem)) ->
    graph_loop fuel worlds interval samples k h frames = Ok o ->
    List.length (mem_hist (outcome_history o))
    = List.length (cpu_hist (outcome_history o)) /\
    forall j, (j < List.length (cpu_hist (outcome_history o)))%nat ->
      exists cpu mem,
        read_metrics (worlds j) interval = Ok (cpu, mem) /\
        nth_error (cpu_hist (outcome_history o)) j = Some (clamp cpu) /\
        nth_error (mem_hist (outcome_history o)) j = Some (clamp mem).
Proof.
  induction fuel as [|fuel IH];
    intros worlds interval samples k h frames o Hc Hm Hk.
  - cbn [graph_loop]. intros H. injection H as <-. cbn [outcome_history].
    split; [congruence|]. rewrite Hc. exact Hk.
  - cbn [graph_loop].
    destruct (graph_iteration (worlds k) interval h) as [[h' fr]|e] eqn:Hit;
      cbn [bind]; [|discriminate].
    destruct (graph_iteration_history _ _ _ _ _ Hit) as ([cpu mem] & Hread & ->).
    assert (Hc' : List.length (cpu_hist (append_sample h (cpu, mem))) = S k).
    { cbn [append_sample cpu_hist]. rewrite length_app. cbn [List.length]. lia. }
    assert (Hm' : List.length (mem_hist (append_sample h (cpu, mem))) = S k).
    { cbn [append_sample mem_hist]. rewrite length_app. cbn [List.length]. lia. }
    assert (Hk' : forall j, (j < S k)%nat ->
              exists c m,
                read_metrics (worlds j) interval = Ok (c, m) /\
                nth_error (cpu_hist (append_sample h (cpu, mem))) j = Some (clamp c) /\
                nth_error (mem_hist (append_sample h (cpu, mem))) j = Some (clamp m)).
    { intros j Hj. cbn [append_sample cpu_hist mem_hist fst snd].
      destruct (Nat.eq_dec j k) as [->|Hne].
      - exists cpu, mem. split; [exact Hread|].
        split.
        + rewrite nth_error_app2 by lia. rewrite Hc, Nat.sub_diag. reflexivity.
        + rewrite nth_error_app2 by lia. rewrite Hm, Nat.sub_diag. reflexivity.
      - destruct (Hk j ltac:(lia)) as (c & m & Hr & Hcj & Hmj).
        exists c, m. split; [exact Hr|].
        split; rewrite nth_error_app1 by lia; assumption. }
    destruct ((samples >? 0) && (count (append_sample h (cpu, mem)) >=? samples)).
    + intros H. injection H as <-. cbn [outcome_history].
      split; [congruence|]. rewrite Hc'. exact Hk'.
    + apply IH; assumption.
Qed.

(** C6: after any number of iterations of the display loop, entry [k]
    of [cpu_hist] and of [mem_hist] is what [clamp] makes of the cpu and
    of the mem value read by iteration [k], and lies in [0, 100].
    [clamp] turns an absent value into 0.0 and a present one into the
    nearest value of [0, 100]: itself when [0 < x <= 100], 0.0 when
    [x <= 0], 100.0 when [x > 100]. *)
Theorem history_holds_clamped_samples :
  forall (fuel : nat) (worlds : nat -> World) (args_interval : float)
         (args_samples : Z) (o : outcome),
    main_graph fuel worlds args_interval args_samples = Ok o ->
    (forall k : nat,
       (k < List.length (cpu_hist (outcome_history o)))%nat ->
       exists cpu mem,
         read_metrics (worlds k) (main_interval args_interval) = Ok (cpu, mem) /\
         nth_error (cpu_hist (outcome_history o)) k = Some (clamp cpu) /\
         nth_error (mem_hist (outcome_history o)) k = Some (clamp mem)) /\
    List.length (mem_hist (outcome_history o))
    = List.length (cpu_hist (outcome_history o)) /\
    Forall (fun x => PrimFloat.leb 0 x = true /\ PrimFloat.leb x 100 = true)
           (cpu_hist (outcome_history o)) /\
    Forall (fun x => PrimFloat.leb 0 x = true /\ PrimFloat.leb x 100 = true)
           (mem_hist (outcome_history o)) /\
    clamp None = 0%float /\
    (forall x : float,
       PrimFloat.ltb 0 x = true -> PrimFloat.leb x 100 = true ->
       clamp (Some x) = x) /\
    (forall x : float, PrimFloat.leb x 0 = true -> clamp (Some x) = 0%float) /\
    (forall x : float, PrimFloat.ltb 100 x = true -> clamp (Some x) = 100%float).
Proof.
  intros fuel worlds ai n o H. unfold main_graph in H.
  assert (Hs : List.length (mem_hist (outcome_history o))
               = List.length (cpu_hist (outcome_history o)) /\
               forall j, (j < List.length (cpu_hist (outcome_history o)))%nat ->
                 exists cpu mem,
                   read_metrics (worlds j) (main_interval ai) = Ok (cpu, mem) /\
                   nth_error (cpu_hist (outcome_history o)) j = Some (clamp cpu) /\
                   nth_error (mem_hist (outcome_history o)) j = Some (clamp mem)).
  { apply (graph_loop_history_samples fuel worlds (main_interval ai) n 0%nat
             empty_history [] o); [reflexivity | reflexivity | | exact H].
    intros j Hj. inversion Hj. }
  destruct Hs as [Hlen Hk].
  assert (Hok : history_ok (outcome_history o)).
  { eapply graph_loop_history_ok; [|exact H]. split; constructor. }
  destruct Hok as [Hc Hm].
  split; [exact Hk|]. split; [exact Hlen|].
  split; [|split].
  1, 2: eapply Forall_impl; [|eassumption];
    intros x Hx; unfold in_range in Hx; apply andb_true_iff in Hx; exact Hx.
  split; [reflexivity|].
  unfold clamp, py_max, py_min, f0, f100. split; [|split].
  - intros x H0 H100. destruct (PrimFloat.ltb x 100) eqn:Hlt.
    + rewrite H0. reflexivity.
    + rewrite (leb_not_ltb_100 x H100 Hlt). reflexivity.
  - intros x Hx. destruct (leb_0_cases x Hx) as [-> ->]. reflexivity.
  - intros x Hx. rewrite (ltb_antisym _ _ Hx). reflexivity.
Qed.

Lemma history_holds_clamped_samples_witness :
  (exists cpu mem,
     read_metrics (example_worlds 1) (main_interval f1) = Ok (cpu, mem) /\
     nth_error (cpu_hist (outcome_history example_outcome)) 1 = Some (clamp cpu) /\
     nth_error (mem_hist (outcome_history example_outcome)) 1 = Some (clamp mem)) /\
  clamp (Some 42.5%float) = 42.5%float.
Proof.
  destruct (history_holds_clamped_samples 2 example_worlds f1 2 example_outcome)
    as (Hk & _ & _ & _ & _ & Hin & _).
  - vm_compute. reflexivity.
  - split.
    + apply Hk. vm_compute. reflexivity.
    + apply Hin; reflexivity.
Defined.

(** What graph mode stores for a value [x] read by the sampler: [x]
    itself when [0 < x <= 100], 0.0 when [x <= 0] (a negative zero
    included), 100.0 when [x > 100], and 100.0 also when [x] is not a
    number, since [min(100.0, x)] keeps its first argument then. *)
Theorem clamp_cases :
  forall x : float,
    (PrimFloat.ltb 0 x = true -> PrimFloat.leb x 100 = true -> clamp (Some x) = x) /\
    (PrimFloat.leb x 0 = true -> clamp (Some x) = 0%float) /\
    (PrimFloat.ltb 100 x = true -> clamp (Some x) = 100%float) /\
    (PrimFloat.eqb x x = false -> clamp (Some x) = 100%float).
Proof.
  intros x. unfold clamp, py_max, py_min, f0, f100.
  split; [|split; [|split]].
  - intros H0 H100. destruct (PrimFloat.ltb x 100) eqn:Hlt.
    + rewrite H0. reflexivity.
    + rewrite (leb_not_ltb_100 x H100 Hlt). reflexivity.
  - intros H. destruct (leb_0_cases x H) as [-> ->]. reflexivity.
  - intros H. rewrite (ltb_antisym _ _ H). reflexivity.
  - intros H. apply eqb_self_false in H.
    assert (Hlt : PrimFloat.ltb x 100 = false) by (rewrite ltb_spec, H; reflexivity).
    rewrite Hlt. reflexivity.
Qed.

Lemma clamp_cases_witness :
  clamp (Some 42.5%float) = 42.5%float /\
  clamp (Some (-3)%float) = 0%float /\
  clamp (Some 250%float) = 100%float /\
  clamp (Some nan) = 100%float.
Proof.
  split; [|split; [|split]].
  - destruct (clamp_cases 42.5%float) as (H & _). apply H; reflexivity.
  - destruct (clamp_cases (-3)%float) as (_ & H & _). apply H. reflexivity.
  - destruct (clamp_cases 250%float) as (_ & _ & H & _). apply H. reflexivity.
  - destruct (clamp_cases nan) as (_ & _ & _ & H). apply H. reflexivity.
Defined.

(** ** The frames of graph mode *)

Lemma last_items_suffix :
  forall (A : Type) (l : list A) n, exists older, l = older ++ last_items l n.
Proof.
  intros A l n. unfold last_items. destruct (n =? 0).
  - exists []. reflexivity.
  - exists (firstn (List.length l - Z.to_nat n) l). symmetry. apply firstn_skipn.
Qed.

Lemma py_index_minus_1 :
  forall (A : Type) (l : list A) a,
    py_index l (-1) = Ok a -> exists l', l = l' ++ [a].
Proof.
  intros A l a. unfold py_index. change (-1 <? 0) with true. cbv iota.
  destruct (_ && _); [|discriminate].
  destruct (nth_error l (Z.to_nat (-1 + Z.of_nat (List.length l)))) as [b|] eqn:E;
    [|discriminate].
  intros H. injection H as ->.
  destruct (nth_error_split l _ E) as (l1 & l2 & Hl & Hlen).
  assert (Hl2 : l2 = []).
  { apply (f_equal (@List.length A)) in Hl. rewrite length_app in Hl.
    cbn [List.length] in Hl. destruct l2; [reflexivity|]. cbn [List.length] in Hl. lia. }
  subst l2. exists l1. exact Hl.
Qed.

Lemma latest_of_view :
  forall (A : Type) (l : list A) (c a : A) n,
    py_index (last_items (l ++ [c]) n) (-1) = Ok a -> a = c.
Proof.
  intros A l c a n H.
  destruct (py_index_minus_1 _ _ _ H) as (l' & Hl').
  destruct (last_items_suffix _ (l ++ [c]) n) as (older & Hs).
  rewrite Hl', app_assoc in Hs. apply app_inj_tail in Hs as [_ Hs]. symmetry. exact Hs.
Qed.

(** The legend of a frame shows the sample read in that iteration after
    the clamp, so a metric that the sampler could not read is shown as
    0.0 there, while the line of [--once] shows it as N/A. *)
Theorem graph_legend_shows_clamped_sample :
  forall (w : World) (args_interval : float) (h h' : History) (fr : Frame)
         (cpu mem : option float),
    read_metrics w (main_interval args_interval) = Ok (cpu, mem) ->
    graph_iteration w (main_interval args_interval) h = Ok (h', fr) ->
    frame_legend fr = format_line (Some (clamp cpu)) (Some (clamp mem)) /\
    main_once w args_interval = Ok (format_line cpu mem) /\
    (cpu = None -> mem = None ->
     frame_legend fr = "CPU:   0.0% | Memory:   0.0%" /\
     main_once w args_interval = Ok "CPU: N/A | Memory: N/A").
Proof.
  intros w ai h h' fr cpu mem Hread Hit.
  assert (Honce : main_once w ai = Ok (format_line cpu mem))
    by (unfold main_once; rewrite Hread; reflexivity).
  assert (Hleg : frame_legend fr = format_line (Some (clamp cpu)) (Some (clamp mem))).
  { unfold graph_iteration in Hit. rewrite Hread in Hit. cbn [bind] in Hit.
    destruct (terminal_size w) as [columns lines].
    destruct (render _ _ _ _); cbn [bind] in Hit; [|discriminate].
    destruct (py_index _ _) as [lc|] eqn:Hc; cbn [bind] in Hit; [|discriminate].
    destruct (py_index _ _) as [lm|] eqn:Hm in Hit; cbn [bind] in Hit; [|discriminate].
    destruct (ticks _); cbn [bind] in Hit; [|discriminate].
    destruct (frame_rows _ _ _ _); cbn [bind] in Hit; [|discriminate].
    injection Hit as _ <-. cbn [frame_legend].
    cbn [append_sample cpu_hist mem_hist fst snd] in Hc, Hm.
    apply latest_of_view in Hc. apply latest_of_view in Hm. subst. reflexivity. }
  split; [exact Hleg|]. split; [exact Honce|].
  intros -> ->. split; [rewrite Hleg; vm_compute; reflexivity | exact Honce].
Qed.

Lemma graph_legend_shows_clamped_sample_witness :
  frame_legend (frame_of (graph_iteration bare_world (main_interval 1) empty_history))
  = "CPU:   0.0% | Memory:   0.0%" /\
  main_once bare_world 1 = Ok "CPU: N/A | Memory: N/A".
Proof.
  destruct (graph_legend_shows_clamped_sample bare_world 1 empty_history
              (history_of (graph_iteration bare_world (main_interval 1) empty_history))
              (frame_of (graph_iteration bare_world (main_interval 1) empty_history))
              None None) as (_ & _ & H).
  - reflexivity.
  - vm_compute. reflexivity.
  - apply H; reflexivity.
Defined.

(** What an iteration that succeeds puts in its frame. *)
Lemma graph_iteration_frame :
  forall w interval h h' fr,
    history_inv h ->
    graph_iteration w interval h = Ok (h', fr) ->
    let height := canvas_height (snd (terminal_size w)) in
    let n := Z.min (count h') (canvas_width (fst (terminal_size w))) in
    history_inv h' /\ 1 <= n <= count h' /\
    frame_height fr = height /\ frame_shown fr = n /\
    frame_cpu_view fr = last_items (cpu_hist h') n /\
    frame_mem_view fr = last_items (mem_hist h') n /\
    canvas_shape height n (frame_canvas fr) /\
    frame_baseline fr
    = ("   +" ++ String.concat "" (repeat "-" (Z.to_nat n)))%string /\
    exists tk,
      ticks height = Ok tk /\
      frame_rows height tk (frame_canvas fr) (range height) = Ok (frame_rows_text fr).
Proof.
  intros w interval h h' fr Hinv Hit.
  destruct (graph_iteration_inv _ _ _ _ _ Hinv Hit) as (Hinv' & [Hshape _] & Hcount).
  pose proof Hinv' as (_ & _ & Hc').
  assert (H0 : 0 <= count h) by (destruct Hinv as (_ & _ & ->); lia).
  unfold graph_iteration in Hit.
  destruct (read_metrics w interval) as [s|e]; cbn [bind] in Hit; [|discriminate].
  destruct (terminal_size w) as [columns lines]. cbn [fst snd].
  destruct (render _ _ _ _); cbn [bind] in Hit; [|discriminate].
  destruct (py_index _ _); cbn [bind] in Hit; [|discriminate].
  destruct (py_index _ _); cbn [bind] in Hit; [|discriminate].
  destruct (ticks _) as [tk|] eqn:Htk; cbn [bind] in Hit; [|discriminate].
  destruct (frame_rows _ _ _ _) as [rows|] eqn:Hrows; cbn [bind] in Hit; [|discriminate].
  injection Hit as Hh Hfr. rewrite <- Hfr in *.
  cbn [frame_height frame_shown frame_cpu_view frame_mem_view frame_canvas
       frame_baseline frame_rows_text] in *.
  subst h'. cbn [append_sample cpu_hist mem_hist count] in *. rewrite Hc'.
  split; [exact Hinv'|].
  split; [unfold canvas_width; lia|].
  repeat (split; [reflexivity|]).
  split; [exact Hshape|]. split; [reflexivity|].
  exists tk. split; [reflexivity || exact Htk | reflexivity || exact Hrows].
Qed.

(** At every iteration the frame shows the most recent
    [min(count, width)] samples, where [width = max(30, columns - 8)]:
    its two views are the ends of the two histories, of that length, so
    once the count passes the width the oldest samples leave the graph
    (they stay in the histories).  [history_inv] holds for the history
    of every iteration of the loop. *)
Theorem graph_window_is_recent_samples :
  forall (w : World) (interval : float) (h h' : History) (fr : Frame),
    history_inv h ->
    graph_iteration w interval h = Ok (h', fr) ->
    frame_shown fr = Z.min (count h') (Z.max 30 (fst (terminal_size w) - 8)) /\
    1 <= frame_shown fr /\
    Z.of_nat (List.length (frame_cpu_view fr)) = frame_shown fr /\
    Z.of_nat (List.length (frame_mem_view fr)) = frame_shown fr /\
    exists older_cpu older_mem,
      cpu_hist h' = older_cpu ++ frame_cpu_view fr /\
      mem_hist h' = older_mem ++ frame_mem_view fr.
Proof.
  intros w interval h h' fr Hinv Hit.
  destruct (graph_iteration_frame w interval h h' fr Hinv Hit)
    as ((_ & Hlen & Hcount) & Hn & _ & Hshown & Hcv & Hmv & _).
  fold (canvas_width (fst (terminal_size w))).
  rewrite Hshown, Hcv, Hmv.
  split; [reflexivity|]. split; [lia|].
  split; [apply last_items_length; lia|].
  split; [apply last_items_length; lia|].
  destruct (last_items_suffix _ (cpu_hist h')
              (Z.min (count h') (canvas_width (fst (terminal_size w))))) as (oc & Hoc).
  destruct (last_items_suffix _ (mem_hist h')
              (Z.min (count h') (canvas_width (fst (terminal_size w))))) as (om & Hom).
  exists oc, om. split; assumption.
Qed.

Lemma long_history_inv : history_inv long_history.
Proof.
  split; [split|split; reflexivity];
    apply Forall_forall; intros x Hx; apply repeat_spec in Hx; subst; reflexivity.
Qed.

Lemma long_iteration_run :
  graph_iteration (sized_world 20 24) 1 long_history
  = Ok (history_of long_iteration, frame_of long_iteration).
Proof. vm_compute. reflexivity. Qed.

Lemma graph_window_is_recent_samples_witness :
  count (history_of long_iteration) = 41 /\
  frame_shown (frame_of long_iteration) = 30 /\
  Z.of_nat (List.length (frame_cpu_view (frame_of long_iteration))) = 30.
Proof.
  destruct (graph_window_is_recent_samples (sized_world 20 24) 1 long_history
              (history_of long_iteration) (frame_of long_iteration)
              long_history_inv long_iteration_run) as (H1 & _ & H2 & _).
  split; [vm_compute; reflexivity|].
  split; [rewrite H1 | rewrite H2, H1]; vm_compute; reflexivity.
Defined.

(** *** The text of a frame *)

Lemma len_append : forall s t, len (s ++ t)%string = len s + len t.
Proof.
  intros s t. unfold len. induction s as [|c s IH]; cbn [append String.length].
  - lia.
  - rewrite Nat2Z.inj_succ in *. lia.
Qed.

Lemma len_string_of_list :
  forall l, len (string_of_list_ascii l) = Z.of_nat (List.length l).
Proof.
  intros l. unfold len. f_equal.
  induction l as [|c l IH]; cbn [string_of_list_ascii String.length List.length];
    [reflexivity|].
  rewrite IH. reflexivity.
Qed.

Lemma len_dashes :
  forall n, len (String.concat "" (repeat "-"%string n)) = Z.of_nat n.
Proof.
  intros n. unfold len. f_equal. induction n as [|n IH]; [reflexivity|].
  destruct n as [|n]; [reflexivity|].
  change (String.concat "" (repeat "-"%string (S (S n))))
    with (String "-" (String.concat "" (repeat "-"%string (S n)))).
  cbn [String.length]. rewrite IH. reflexivity.
Qed.

(** Each line of text is the label of its row, a bar and the cells of
    that row of the canvas. *)
Lemma frame_rows_spec :
  forall height tk cv rows lines,
    frame_rows height tk cv rows = Ok lines ->
    Forall2 (fun row line =>
               exists label cells,
                 tick_label height tk row = Ok label /\
                 py_index cv row = Ok cells /\
                 line = (label ++ "|" ++ string_of_list_ascii cells)%string)
            rows lines.
Proof.
  intros height tk cv. induction rows as [|row rows IH]; intros lines H.
  - cbn in H. injection H as <-. constructor.
  - cbn [frame_rows] in H.
    destruct (tick_label height tk row) as [label|] eqn:Hl; cbn [bind] in H;
      [|discriminate].
    destruct (py_index cv row) as [cells|] eqn:Hc; cbn [bind] in H; [|discriminate].
    destruct (frame_rows height tk cv rows) as [rest|]; cbn [bind] in H; [|discriminate].
    injection H as <-. constructor; [|apply IH; reflexivity].
    exists label, cells. repeat split; assumption.
Qed.

Lemma Forall2_nth_error :
  forall (A B : Type) (R : A -> B -> Prop) l l' i a,
    Forall2 R l l' -> nth_error l i = Some a ->
    exists b, nth_error l' i = Some b /\ R a b.
Proof.
  intros A B R l l' i a H. revert i. induction H as [|x y l l' Hxy _ IH]; intros i Hi.
  - destruct i; discriminate.
  - destruct i as [|i]; cbn in *.
    + injection Hi as <-. exists y. split; [reflexivity | exact Hxy].
    + apply IH. exact Hi.
Qed.

Lemma nth_error_range :
  forall n row, 0 <= row < n -> nth_error (range n) (Z.to_nat row) = Some row.
Proof.
  intros n row Hr. unfold range.
  rewrite nth_error_map, nth_error_seq.
  destruct (Nat.ltb_spec (Z.to_nat row) (Z.to_nat n)) as [_|H]; [|lia].
  cbn. f_equal. lia.
Qed.

Lemma labels_layout_checked :
  forallb labels_layout_ok
          [10; 11; 12; 13; 14; 15; 16; 17; 18; 19; 20; 21; 22; 23; 24] = true.
Proof. vm_compute. reflexivity. Qed.

Lemma labels_layout_canvas_height :
  forall lines, labels_layout_ok (canvas_height lines) = true.
Proof.
  intros lines. pose proof labels_layout_checked as H.
  rewrite forallb_forall in H. apply H.
  apply small_height_cases. apply canvas_height_range.
Qed.

Lemma labels_layout_sound :
  forall height,
    labels_layout_ok height = true ->
    let tk := [0; height / 4; height / 2; 3 * height / 4; height - 1] in
    ticks height = Ok tk /\
    (forall row, 0 <= row < height ->
       exists label, tick_label height tk row = Ok label /\ len label = 3) /\
    tick_label height tk 0 = Ok "100"%string /\
    tick_label height tk (height - 1) = Ok "  0"%string.
Proof.
  intros height H. unfold labels_layout_ok in H.
  destruct (ticks height) as [[|t0 [|t1 [|t2 [|t3 [|t4 [|t5 tl]]]]]]|e];
    try discriminate.
  repeat (apply andb_true_iff in H; destruct H as [H ?]).
  repeat match goal with
         | E : (_ =? _) = true |- _ => apply Z.eqb_eq in E; subst
         end.
  cbv zeta. split; [reflexivity|]. split; [|split].
  - intros row Hrow.
    match goal with F : forallb _ _ = true |- _ => rewrite forallb_forall in F;
      specialize (F row (proj2 (In_range height row) Hrow)) end.
    destruct (tick_label _ _ row) as [label|]; [|discriminate].
    exists label. split; [reflexivity|]. apply Z.eqb_eq. assumption.
  - destruct (tick_label _ _ 0) as [s|]; [|discriminate].
    f_equal. apply String.eqb_eq. assumption.
  - destruct (tick_label _ _ (height - 1)) as [s|]; [|discriminate].
    f_equal. apply String.eqb_eq. assumption.
Qed.

Lemma py_index_In :
  forall (A : Type) (l : list A) i a, py_index l i = Ok a -> In a l.
Proof.
  intros A l i a. unfold py_index. cbv zeta.
  destruct (_ && _); [|discriminate].
  destruct (nth_error l _) as [b|] eqn:E; [|discriminate].
  intros H. injection H as <-. apply nth_error_In with (1 := E).
Qed.

Lemma Forall2_Forall_r :
  forall (A B : Type) (R : A -> B -> Prop) (P : B -> Prop) l l',
    Forall2 R l l' -> (forall a b, In a l -> R a b -> P b) -> Forall P l'.
Proof.
  intros A B R P l l' H. induction H as [|x y l l' Hxy _ IH]; intros HP.
  - constructor.
  - constructor.
    + apply (HP x y); [left; reflexivity | exact Hxy].
    + apply IH. intros a b Ha. apply HP. right. exact Ha.
Qed.

(** The text of a frame is aligned: it has one line per row of the
    canvas, [max(10, min(24, lines - 5))] of them, and every line, like
    the base line under them, is four characters (the label and the
    bar) longer than the number of samples shown. *)
Theorem graph_text_is_aligned :
  forall (w : World) (interval : float) (h h' : History) (fr : Frame),
    history_inv h ->
    graph_iteration w interval h = Ok (h', fr) ->
    Z.of_nat (List.length (frame_rows_text fr))
    = Z.max 10 (Z.min 24 (snd (terminal_size w) - 5)) /\
    Forall (fun line => len line = frame_shown fr + 4) (frame_rows_text fr) /\
    len (frame_baseline fr) = frame_shown fr + 4.
Proof.
  intros w interval h h' fr Hinv Hit.
  destruct (graph_iteration_frame w interval h h' fr Hinv Hit)
    as (_ & Hn & _ & Hshown & _ & _ & [Hrowsn Hcols] & Hbase & tk & Htk & Hrows).
  fold (canvas_height (snd (terminal_size w))).
  set (height := canvas_height (snd (terminal_size w))) in *.
  set (n := Z.min (count h') (canvas_width (fst (terminal_size w)))) in *.
  destruct (labels_layout_sound height (labels_layout_canvas_height _))
    as (Htk' & Hlabels & _).
  assert (Etk : tk = [0; height / 4; height / 2; 3 * height / 4; height - 1])
    by congruence.
  subst tk.
  pose proof (frame_rows_spec _ _ _ _ _ Hrows) as Hall.
  assert (Hh : 10 <= height <= 24) by apply canvas_height_range.
  split; [|split].
  - rewrite <- (Forall2_length Hall). unfold range. rewrite length_map, length_seq. lia.
  - apply (Forall2_Forall_r _ _ _ _ _ _ Hall).
    intros row line Hrow (label & cells & Hl & Hc & ->).
    apply In_range in Hrow. destruct (Hlabels row Hrow) as (label' & Hl' & Hlen).
    rewrite Hl in Hl'. injection Hl' as <-.
    rewrite !len_append, len_string_of_list, Hlen, Hshown.
    rewrite Forall_forall in Hcols. rewrite (Hcols cells (py_index_In _ _ _ _ Hc)).
    change (len "|") with 1. lia.
  - rewrite Hbase, Hshown.
    change ("   +" ++ String.concat "" (repeat "-" (Z.to_nat n)))%string
      with (String " " (String " " (String " " (String "+"
              (String.concat "" (repeat "-"%string (Z.to_nat n))))))).
    pose proof (len_dashes (Z.to_nat n)) as Hd. unfold len in *.
    cbn [String.length]. lia.
Qed.

Lemma graph_text_is_aligned_witness :
  Z.of_nat (List.length (frame_rows_text (frame_of long_iteration))) = 19 /\
  Forall (fun line => len line = 34) (frame_rows_text (frame_of long_iteration)) /\
  len (frame_baseline (frame_of long_iteration)) = 34.
Proof.
  destruct (graph_text_is_aligned (sized_world 20 24) 1 long_history
              (history_of long_iteration) (frame_of long_iteration)
              long_history_inv long_iteration_run) as (H1 & H2 & H3).
  assert (Hn : frame_shown (frame_of long_iteration) + 4 = 34)
    by (vm_compute; reflexivity).
  rewrite Hn in H2, H3.
  split; [exact H1|]. split; [exact H2 | exact H3].
Defined.

(** The labels of a frame: the rows that carry one are row 0, the
    quarters of the height (rounded down) and the bottom row; each line
    of text is the label of its row (three characters, blank off the
    ticks), a bar and the cells of that row of the canvas; the top row
    is labelled 100 and the bottom row 0. *)
Theorem graph_rows_and_labels :
  forall (w : World) (interval : float) (h h' : History) (fr : Frame),
    history_inv h ->
    graph_iteration w interval h = Ok (h', fr) ->
    let height := frame_height fr in
    let tk := [0; height / 4; height / 2; 3 * height / 4; height - 1] in
    ticks height = Ok tk /\
    (forall row, 0 <= row < height ->
       exists label cells,
         tick_label height tk row = Ok label /\ len label = 3 /\
         (existsb (Z.eqb row) tk = false -> label = "   "%string) /\
         nth_error (frame_canvas fr) (Z.to_nat row) = Some cells /\
         nth_error (frame_rows_text fr) (Z.to_nat row)
         = Some (label ++ "|" ++ string_of_list_ascii cells)%string) /\
    tick_label height tk 0 = Ok "100"%string /\
    tick_label height tk (height - 1) = Ok "  0"%string.
Proof.
  intros w interval h h' fr Hinv Hit.
  destruct (graph_iteration_frame w interval h h' fr Hinv Hit)
    as (_ & _ & Hheight & _ & _ & _ & [Hrowsn _] & _ & tk & Htk & Hrows).
  rewrite Hheight. cbv zeta.
  set (height := canvas_height (snd (terminal_size w))) in *.
  destruct (labels_layout_sound height (labels_layout_canvas_height _))
    as (Htk' & Hlabels & Htop & Hbottom).
  assert (Etk : tk = [0; height / 4; height / 2; 3 * height / 4; height - 1])
    by congruence.
  subst tk.
  pose proof (frame_rows_spec _ _ _ _ _ Hrows) as Hall.
  split; [exact Htk|]. split; [|split; assumption].
  intros row Hrow.
  destruct (Forall2_nth_error _ _ _ _ _ _ _ Hall (nth_error_range height row Hrow))
    as (line & Hline & label & cells & Hl & Hc & ->).
  destruct (Hlabels row Hrow) as (label' & Hl' & Hlen).
  rewrite Hl in Hl'. injection Hl' as <-.
  exists label, cells. split; [exact Hl|]. split; [exact Hlen|].
  split; [|split; [|exact Hline]].
  - intros Hoff. unfold tick_label in Hl. rewrite Hoff in Hl.
    injection Hl as <-. reflexivity.
  - destruct (py_index_ok _ (frame_canvas fr) row ltac:(lia)) as (c & Hnth & Hidx).
    rewrite Hidx in Hc. injection Hc as <-. exact Hnth.
Qed.

Lemma graph_rows_and_labels_witness :
  ticks 19 = Ok [0; 4; 9; 14; 18] /\
  tick_label 19 [0; 4; 9; 14; 18] 0 = Ok "100"%string /\
  tick_label 19 [0; 4; 9; 14; 18] 18 = Ok "  0"%string.
Proof.
  destruct (graph_rows_and_labels (sized_world 20 24) 1 long_history
              (history_of long_iteration) (frame_of long_iteration)
              long_history_inv long_iteration_run) as (H1 & _ & H3 & H4).
  assert (E : frame_height (frame_of long_iteration) = 19) by (vm_compute; reflexivity).
  rewrite E in H1, H3, H4.
  split; [exact H1|]. split; [exact H3 | exact H4].
Defined.

(** ** The interval of typeperf *)

Lemma int_of_float_below_2 :
  forall x,
    PrimFloat.ltb 0 x = true -> PrimFloat.ltb x 2 = true ->
    exists n, int_of_float x = Ok n /\ 0 <= n <= 1.
Proof.
  intros x H0 H2. rewrite ltb_spec in H0, H2. unfold int_of_float.
  pose proof (Prim2SF_valid x) as Hv.
  change (Prim2SF 0) with (S754_zero false) in H0.
  change (Prim2SF 2) with (S754_finite false 4503599627370496 (-51)) in H2.
  destruct (Prim2SF x) as [s|s| |s m e]; try discriminate.
  - destruct s; discriminate.
  - destruct s; [discriminate|].
    destruct (valid_finite_canonical _ _ _ Hv) as [([_ Hm] & _) _].
    unfold SFltb, SFcompare in H2.
    eexists. split; [reflexivity|].
    destruct (Z.compare_spec e (-51)) as [->|Hlt|Hgt]; [| |discriminate].
    + destruct (Pos.compare_cont Eq m 4503599627370496) eqn:Hc; try discriminate.
      assert (Hlt : (m < 4503599627370496)%positive) by exact Hc.
      apply Pos2Z.pos_lt_pos in Hlt.
      change (Z.pos 4503599627370496) with (2 ^ 51 * 2) in Hlt.
      change (0 <=? -51) with false. cbv iota. change (- -51) with 51.
      split; [apply Z.div_pos; [apply Pos2Z.is_nonneg | reflexivity]|].
      apply Z.lt_succ_r. apply Z.div_lt_upper_bound; [reflexivity | exact Hlt].
    + destruct (Z.leb_spec 0 e) as [He|_]; [lia|].
      assert (Hp : 0 < 2 ^ (- e)) by (apply Z.pow_pos_nonneg; lia).
      split; [apply Z.div_pos; [apply Pos2Z.is_nonneg | exact Hp]|].
      apply Z.lt_succ_r. apply Z.div_lt_upper_bound; [exact Hp|].
      apply Z.lt_le_trans with (1 := Hm).
      change (2 ^ 53) with (2 ^ 52 * 2). apply Z.mul_le_mono_nonneg_r; [lia|].
      apply Z.pow_le_mono_r; lia.
Qed.

(** typeperf measures over whole seconds: an interval between 0 and 2
    is passed to it as [-si 1], so that the Windows sampler does for it
    what it does for an interval of one second. *)
Theorem typeperf_interval_is_whole_seconds :
  forall x : float,
    PrimFloat.ltb 0 x = true -> PrimFloat.ltb x 2 = true ->
    typeperf_cmd x
    = Ok ["typeperf"; "-sc"; "1"; "-si"; "1";
          "\Processor(_Total)\% Processor Time"; "\Memory\% Committed Bytes In Use"]
      %string /\
    forall w : World, _read_windows_typeperf w x = _read_windows_typeperf w 1.
Proof.
  intros x H0 H2.
  assert (Hcmd : typeperf_cmd x = typeperf_cmd 1).
  { unfold typeperf_cmd at 1, truthy_float, f0.
    destruct (zero_div_positive x H0) as [-> _]. cbn [negb].
    destruct (int_of_float_below_2 x H0 H2) as (n & -> & Hn). cbn [bind].
    assert (Hmax : Z.max 1 n = 1) by lia. rewrite Hmax. reflexivity. }
  split; [rewrite Hcmd; reflexivity|].
  intros w. unfold _read_windows_typeperf. rewrite Hcmd. reflexivity.
Qed.

Lemma typeperf_interval_is_whole_seconds_witness :
  _read_windows_typeperf (windows_world (Some typeperf_three_lines)) 0.25
  = _read_windows_typeperf (windows_world (Some typeperf_three_lines)) 1.
Proof.
  apply (typeperf_interval_is_whole_seconds 0.25%float); reflexivity.
Defined.

(** ** The width of the text line *)

Lemma tenths_width_checked : tenths_width_ok = true.
Proof. vm_compute. reflexivity. Qed.

Lemma fmt_5_1f_width :
  forall x, in_range x = true -> len (fmt_5_1f x) = 5.
Proof.
  intros x Hx. pose proof (in_range_between x Hx) as Hb. unfold fmt_5_1f.
  destruct (Prim2SF x) as [s|s| |s m e]; try contradiction.
  - destruct s; reflexivity.
  - destruct s; [contradiction|]. cbn [sf_between] in Hb. destruct Hb as [_ Hb].
    cbv zeta.
    set (n := if 0 <=? e then Z.pos m * 2 ^ e * 10
              else div_half_even (Z.pos m * 10) (2 ^ (- e))).
    change (len (pad_left 5 (tenths_text n)) = 5).
    assert (Hn : 0 <= n <= 1000).
    { unfold n. destruct (Z.leb_spec 0 e) as [He|He].
      - assert (0 < 2 ^ e) by (apply Z.pow_pos_nonneg; lia).
        assert (Z.pos m * 2 ^ e <= 100); [|nia].
        apply le_IZR.
        assert (E : IZR (Z.pos m * 2 ^ e) = F2R (Z.pos m) e).
        { rewrite <- F2R_IZR, F2R_shift by lia. f_equal. }
        rewrite E. exact Hb.
      - assert (0 < 2 ^ (- e)) by (apply Z.pow_pos_nonneg; lia).
        apply div_half_even_le; try lia.
        assert (Z.pos m <= 100 * 2 ^ (- e)); [|lia].
        apply (F2R_le_inv _ _ e). rewrite <- (F2R_IZR 100) in Hb.
        rewrite (F2R_rescale 100 0 e ltac:(lia)) in Hb. rewrite Z.sub_0_l in Hb.
        exact Hb. }
    pose proof tenths_width_checked as Hall. unfold tenths_width_ok in Hall.
    rewrite forallb_forall in Hall. apply Z.eqb_eq. apply Hall.
    apply In_range. lia.
Qed.

(** For two values between 0 and 100 the text line is 28 characters
    long, whatever the values: each one fills the five columns of its
    format; with one of the two absent it is 25 characters long.  The
    legend of graph mode gets such values. *)
Theorem format_line_has_fixed_width :
  forall cpu mem : float,
    PrimFloat.leb 0 cpu = true -> PrimFloat.leb cpu 100 = true ->
    PrimFloat.leb 0 mem = true -> PrimFloat.leb mem 100 = true ->
    len (format_line (Some cpu) (Some mem)) = 28 /\
    len (format_line None (Some mem)) = 25 /\
    len (format_line (Some cpu) None) = 25.
Proof.
  intros cpu mem Hc0 Hc1 Hm0 Hm1.
  assert (Hc : len (fmt_5_1f cpu) = 5)
    by (apply fmt_5_1f_width; unfold in_range, f0, f100; rewrite Hc0, Hc1; reflexivity).
  assert (Hm : len (fmt_5_1f mem) = 5)
    by (apply fmt_5_1f_width; unfold in_range, f0, f100; rewrite Hm0, Hm1; reflexivity).
  unfold format_line. cbn [app String.concat].
  rewrite !len_append, Hc, Hm.
  repeat split; reflexivity.
Qed.

Lemma format_line_has_fixed_width_witness :
  len (format_line (Some 100%float) (Some 0.04%float)) = 28.
Proof.
  apply (format_line_has_fixed_width 100%float 0.04%float); reflexivity.
Defined.

(** ** The range of the percentages *)

Lemma F2R_sub : forall a b e, F2R (a - b) e = (F2R a e - F2R b e)%R.
Proof. intros a b e. unfold F2R. rewrite minus_IZR. ring. Qed.

Lemma shl_align_F2R :
  forall mx ex ez,
    ez <= ex ->
    F2R (Z.pos (fst (shl_align mx ex ez))) ez = F2R (Z.pos mx) ex.
Proof.
  intros mx ex ez Hle. pose proof (shl_align_spec mx ex ez) as H.
  destruct (shl_align mx ex ez) as [mz ez']. cbn [fst].
  destruct H as [(H1 & -> & _)|(H1 & H2 & _)].
  - assert (ex = ez) by lia. subst. reflexivity.
  - rewrite H2. symmetry. apply F2R_rescale. lia.
Qed.

(** [1 - q] for a float [q] between 0 and 1 is between 0 and 1. *)
Lemma one_minus_between :
  forall q,
    sf_between 0 q 1 ->
    sf_between 0 (SF64sub (S754_finite false 4503599627370496 (-52)) q) 1 /\
    valid_binary (SF64sub (S754_finite false 4503599627370496 (-52)) q) = true.
Proof.
  intros q Hq. destruct canonical_one as [C1 E1].
  change (2 ^ 52) with (Z.pos 4503599627370496) in C1, E1.
  unfold SF64sub. destruct q as [s|s| |s m e]; try contradiction.
  - cbn [SFsub sf_between]. rewrite E1. split; [lra | reflexivity].
  - destruct s; [contradiction|]. cbn [sf_between] in Hq. cbn [SFsub cond_Zopp].
    set (ez := IntDef.Z.min (-52) e).
    assert (Hez : ez <= -52 /\ ez <= e)
      by (unfold ez; split; [apply Z.le_min_l | apply Z.le_min_r]).
    pose proof (shl_align_F2R 4503599627370496 (-52) ez (proj1 Hez)) as Ha.
    pose proof (shl_align_F2R m e ez (proj2 Hez)) as Hb.
    set (a := Z.pos (fst (shl_align 4503599627370496 (-52) ez))) in *.
    set (b := Z.pos (fst (shl_align m e ez))) in *.
    assert (Hd : F2R (a - b) ez = (1 - F2R (Z.pos m) e)%R)
      by (rewrite F2R_sub, Ha, Hb, E1; reflexivity).
    assert (Hge : 0 <= a - b).
    { apply (F2R_le_inv _ _ ez). rewrite F2R_0, Hd. lra. }
    destruct (a - b) as [|p|p] eqn:Hab; [| |lia].
    + cbn [binary_normalize sf_between]. split; [lra | reflexivity].
    + cbn [binary_normalize]. rewrite <- E1, <- F2R_0 with (e := -1074).
      apply binary_round_between; try assumption; [apply canonical_zero|].
      rewrite Hd, F2R_0, E1. pose proof (F2R_pos m e). lra.
Qed.

Lemma SFmul_comm :
  forall x y, SF64mul x y = SF64mul y x.
Proof.
  intros x y. unfold SF64mul.
  destruct x as [sx|sx| |sx mx ex], y as [sy|sy| |sy my ey]; cbn [SFmul];
    try reflexivity; try (rewrite (xorb_comm sx sy); reflexivity).
  rewrite (xorb_comm sx sy), (Pos.mul_comm mx my), (Z.add_comm ex ey). reflexivity.
Qed.

(** The order of [SFcompare] on canonical floats is the order of their
    values. *)
Lemma canonical_lt_exponent :
  forall m1 e1 m2 e2,
    canonical_at m1 e1 -> canonical_at m2 e2 -> e1 < e2 ->
    (F2R m1 e1 < F2R m2 e2)%R.
Proof.
  intros m1 e1 m2 e2 ([_ H1] & He1 & _) (_ & _ & H2) Hlt.
  specialize (H2 ltac:(lia)).
  rewrite (F2R_rescale m2 e2 e1 ltac:(lia)). apply F2R_lt.
  assert (Hk : 2 ^ 1 <= 2 ^ (e2 - e1)) by (apply Z.pow_le_mono_r; lia).
  change (2 ^ 1) with 2 in Hk.
  apply Z.lt_le_trans with (1 := H1).
  change (2 ^ 53) with (2 ^ 52 * 2).
  apply Z.mul_le_mono_nonneg; try assumption; [|lia].
  apply Z.pow_nonneg. lia.
Qed.

Lemma SFcompare_real :
  forall m1 e1 m2 e2 c,
    canonical_at (Z.pos m1) e1 -> canonical_at (Z.pos m2) e2 ->
    SFcompare (S754_finite false m1 e1) (S754_finite false m2 e2) = Some c ->
    match c with
    | Lt => (F2R (Z.pos m1) e1 < F2R (Z.pos m2) e2)%R
    | Eq => F2R (Z.pos m1) e1 = F2R (Z.pos m2) e2
    | Gt => (F2R (Z.pos m2) e2 < F2R (Z.pos m1) e1)%R
    end.
Proof.
  intros m1 e1 m2 e2 c C1 C2. cbn [SFcompare].
  destruct (Z.compare_spec e1 e2) as [->|Hlt|Hgt]; intros H; injection H as <-.
  - change (Pos.compare_cont Eq m1 m2) with (Pos.compare m1 m2).
    destruct (Pos.compare_spec m1 m2) as [->|H|H].
    + reflexivity.
    + apply F2R_lt. apply Pos2Z.pos_lt_pos. exact H.
    + apply F2R_lt. apply Pos2Z.pos_lt_pos. exact H.
  - apply canonical_lt_exponent; assumption.
  - apply canonical_lt_exponent; assumption.
Qed.

(** A float between 0 and 100 passes the two comparisons. *)
Lemma between_in_range :
  forall c, sf_between 0 (Prim2SF c) 100 -> in_range c = true.
Proof.
  intros c H. unfold in_range. rewrite !leb_spec, Prim2SF_f0, Prim2SF_f100.
  pose proof (Prim2SF_valid c) as Hv.
  pose proof (Prim2SF_valid f100) as Hv100. rewrite Prim2SF_f100 in Hv100.
  destruct (Prim2SF c) as [s|s| |s m e]; try contradiction.
  - reflexivity.
  - destruct s; [contradiction|]. cbn [sf_between] in H.
    destruct (valid_finite_canonical _ _ _ Hv) as [Cc _].
    destruct (valid_finite_canonical _ _ _ Hv100) as [C100 _].
    apply andb_true_iff. split; [reflexivity|].
    unfold SFleb.
    destruct (SFcompare (S754_finite false m e)
                (S754_finite false 7036874417766400 (-46))) as [[| |]|] eqn:E;
      try reflexivity.
    + pose proof (SFcompare_real _ _ _ _ _ Cc C100 E) as Hgt. cbv iota in Hgt.
      rewrite F2R_f100 in Hgt. lra.
    + cbn [SFcompare] in E. discriminate.
Qed.

(** The quotient of two integers [0 <= a <= b], [b > 0], is a float
    between 0 and 1. *)
Lemma int_truediv_between :
  forall a b,
    0 <= a <= b -> 0 < b ->
    exists q, int_truediv a b = Ok q /\ sf_between 0 (Prim2SF q) 1.
Proof.
  intros a b [Ha Hab] Hb. unfold int_truediv.
  destruct (Z.eqb_spec b 0) as [E|_]; [lia|].
  destruct (Z.ltb_spec a 0) as [E|_]; [lia|].
  destruct (Z.ltb_spec b 0) as [E|_]; [lia|].
  cbn [xorb].
  destruct (Z.eqb_spec a 0) as [->|Hne].
  - eexists. split; [reflexivity|]. cbn. lra.
  - destruct a as [|pa|pa]; try lia. destruct b as [|pb|pb]; try lia.
    cbn [Z.abs]. unfold sf_quotient.
    destruct (SFdiv_core_binary prec emax (Z.pos pa) 0 (Z.pos pb) 0)
      as [[q e] l] eqn:Hcore.
    destruct (SFdiv_core_binary_spec _ _ _ _ _ _ _ Hcore) as [Henc Hpre].
    destruct canonical_one as [C1 E1].
    destruct (binary_round_aux_between _ _ _ _ _ _ _ _ Henc Hpre canonical_zero C1)
      as [Hbt Hval]; [lia | |].
    + rewrite F2R_0, E1, !F2R_IZR.
      assert (H1 : (0 < IZR (Z.pos pa))%R) by (apply IZR_lt; lia).
      assert (H2 : (IZR (Z.pos pa) <= IZR (Z.pos pb))%R) by (apply IZR_le; lia).
      set (x := (IZR (Z.pos pa) / IZR (Z.pos pb))%R).
      assert (Hx : (x * IZR (Z.pos pb) = IZR (Z.pos pa))%R)
        by (unfold x; field; lra).
      split; nra.
    + rewrite F2R_0, E1 in Hbt.
      destruct (binary_round_aux prec emax false q e l) as [s|s| |s m' e'] eqn:Hr;
        try contradiction.
      * eexists. split; [reflexivity|].
        rewrite Prim2SF_SF2Prim by exact Hval. exact Hbt.
      * eexists. split; [reflexivity|].
        rewrite Prim2SF_SF2Prim by exact Hval. exact Hbt.
Qed.

(** [100 * (1 - q)] for a float [q] between 0 and 1 is between 0 and
    100. *)
Lemma percent_between :
  forall q : float,
    sf_between 0 (Prim2SF q) 1 ->
    in_range (f100 * (f1 - q))%float = true.
Proof.
  intros q Hq. apply between_in_range.
  rewrite mul_spec, sub_spec, SFmul_comm.
  change (Prim2SF f1) with (S754_finite false 4503599627370496 (-52)).
  destruct (one_minus_between (Prim2SF q) Hq) as [Hb Hv].
  apply SFmul_between.
  - exact Hv.
  - apply Prim2SF_valid.
  - exact Hb.
  - rewrite Prim2SF_f100. cbn [sf_between]. rewrite F2R_f100. lra.
Qed.

(** When the counters of /proc/stat advance as they do on a running
    machine (the idle time grows, by no more than the total time, and
    the total time grows), the Linux sampler returns a cpu percentage
    between 0 and 100, roundings included. *)
Theorem linux_cpu_percent_in_range :
  forall (w : World) (interval : float) (idle1 total1 idle2 total2 : Z),
    read_cpu_times (proc_stat w 0%nat) = Ok (Some (idle1, total1)) ->
    time_sleep w (interval_or_1 interval) = Ok tt ->
    read_cpu_times (proc_stat w 1%nat) = Ok (Some (idle2, total2)) ->
    idle1 <= idle2 -> idle2 - idle1 <= total2 - total1 -> total1 < total2 ->
    exists (c : float) (mem : option float),
      _read_linux_proc w interval = Ok (Some c, mem) /\
      PrimFloat.leb 0 c = true /\ PrimFloat.leb c 100 = true.
Proof.
  intros w interval idle1 total1 idle2 total2 H1 Hs H2 Hidle Hle Htotal.
  destruct (int_truediv_between (idle2 - idle1) (total2 - total1)) as (q & Hq & Hb);
    [lia | lia |].
  pose proof (percent_between q Hb) as Hr.
  unfold in_range in Hr. apply andb_true_iff in Hr as [Hr0 Hr100].
  assert (Hc : cpu_percent idle1 total1 idle2 total2
               = Ok (Some (f100 * (f1 - q))%float)).
  { unfold cpu_percent. destruct (Z.gtb_spec (total2 - total1) 0) as [_|H]; [|lia].
    rewrite Hq. reflexivity. }
  destruct (linux_memory_failure_keeps_cpu w interval idle1 total1 idle2 total2 _
              H1 Hs H2 Hc) as (mem & Hres).
  exists (f100 * (f1 - q))%float, mem. split; [exact Hres|]. split; assumption.
Qed.

Lemma linux_cpu_percent_in_range_witness :
  exists (c : float) (mem : option float),
    _read_linux_proc world_snapshots 1 = Ok (Some c, mem) /\
    PrimFloat.leb 0 c = true /\ PrimFloat.leb c 100 = true.
Proof.
  apply (linux_cpu_percent_in_range world_snapshots 1 100 1000 110 1100);
    try (vm_compute; reflexivity); lia.
Defined.

Lemma leb_between :
  forall a t mt et,
    Prim2SF t = S754_finite false mt et ->
    PrimFloat.leb 0 a = true -> PrimFloat.leb a t = true ->
    sf_between 0 (Prim2SF a) (F2R (Z.pos mt) et).
Proof.
  intros a t mt et Ht H0 Hle. rewrite leb_spec in H0, Hle. rewrite Ht in Hle.
  change (Prim2SF 0) with (S754_zero false) in H0.
  pose proof (Prim2SF_valid a) as Va.
  pose proof (Prim2SF_valid t) as Vt. rewrite Ht in Vt.
  pose proof (F2R_pos mt et) as Hpos.
  destruct (Prim2SF a) as [s|s| |s m e]; try discriminate.
  - cbn [sf_between]. lra.
  - destruct s; discriminate.
  - destruct s; [discriminate|]. cbn [sf_between].
    destruct (valid_finite_canonical _ _ _ Va) as [Ca _].
    destruct (valid_finite_canonical _ _ _ Vt) as [Ct _].
    pose proof (F2R_pos m e). split; [lra|].
    unfold SFleb in Hle.
    destruct (SFcompare (S754_finite false m e) (S754_finite false mt et))
      as [[| |]|] eqn:E; try discriminate;
      pose proof (SFcompare_real _ _ _ _ _ Ca Ct E) as Hc; cbv iota in Hc; lra.
Qed.

(** When /proc/meminfo gives a finite positive total and an available
    memory between 0 and that total, the memory percentage of the Linux
    sampler is between 0 and 100, roundings included. *)
Theorem linux_mem_percent_in_range :
  forall (lines : list string) (d : dict) (total avail : float),
    read_meminfo_lines lines [] = Ok d ->
    kb d "MemTotal" = Ok total ->
    kb d "MemAvailable" = Ok avail ->
    PrimFloat.ltb 0 total = true -> PrimFloat.ltb total infinity = true ->
    PrimFloat.leb 0 avail = true -> PrimFloat.leb avail total = true ->
    exists m : float,
      mem_percent (Some lines) = Ok (Some m) /\
      PrimFloat.leb 0 m = true /\ PrimFloat.leb m 100 = true.
Proof.
  intros lines d total avail Hread Ht Ha Hpos Hfin Ha0 Hale.
  assert (Hsf : exists mt et, Prim2SF total = S754_finite false mt et).
  { rewrite ltb_spec in Hpos, Hfin.
    change (Prim2SF 0) with (S754_zero false) in Hpos.
    change (Prim2SF infinity) with (S754_infinity false) in Hfin.
    destruct (Prim2SF total) as [s|s| |s m e]; try discriminate.
    - destruct s; discriminate.
    - destruct s; [discriminate|]. exists m, e. reflexivity. }
  destruct Hsf as (mt & et & Hsf).
  pose proof (leb_between avail total mt et Hsf Ha0 Hale) as Hb.
  assert (Hq : sf_between 0 (Prim2SF (avail / total)%float) 1).
  { rewrite div_spec, Hsf. apply SFdiv_le_one; [apply Prim2SF_valid | exact Hb]. }
  pose proof (percent_between _ Hq) as Hr.
  unfold in_range in Hr. apply andb_true_iff in Hr as [Hr0 Hr100].
  exists (f100 * (f1 - avail / total))%float.
  split; [|split; assumption].
  unfold mem_percent. cbn [open_lines bind]. rewrite Hread. cbn [bind].
  rewrite Ht, Ha. cbn [bind]. unfold f0 at 1. rewrite Hpos.
  unfold float_div, f0. destruct (zero_div_positive total Hpos) as [-> _].
  reflexivity.
Qed.

Lemma linux_mem_percent_in_range_witness :
  exists m : float,
    mem_percent (Some meminfo_60) = Ok (Some m) /\
    PrimFloat.leb 0 m = true /\ PrimFloat.leb m 100 = true.
Proof.
  apply (linux_mem_percent_in_range meminfo_60
           [("MemTotal", "100 kB"); ("MemFree", "10 kB"); ("MemAvailable", "40 kB")]
           100%float 40%float);
    vm_compute; reflexivity.
Defined.

(** ** Results and errors of the samplers *)

(** The Windows sampler never returns one value without the other: its
    result is [(None, None)] or two values. *)
Theorem windows_sampler_all_or_nothing :
  forall (w : World) (interval : float) (s : sample),
    _read_windows_typeperf w interval = Ok s ->
    s = (None, None) \/ exists cpu mem, s = (Some cpu, Some mem).
Proof.
  intros w interval s. unfold _read_windows_typeperf, bind, catch.
  repeat (cbv beta iota;
          match goal with
          | |- Ok _ = Ok _ -> _ =>
              let H := fresh in
              intros H; injection H as <-;
              first [left; reflexivity | right; eexists; eexists; reflexivity]
          | |- Raise _ = Ok _ -> _ => discriminate
          | |- context [match ?x with _ => _ end] =>
              lazymatch x with
              | context [match _ with _ => _ end] => fail
              | _ => destruct x
              end
          end).
Qed.

Lemma windows_sampler_all_or_nothing_witness :
  (Some 2%float, Some 40%float) = (None, None) \/
  exists cpu mem, (Some 2%float, Some 40%float) = (Some cpu, Some mem).
Proof.
  apply (windows_sampler_all_or_nothing (windows_world (Some typeperf_three_lines)) 1).
  vm_compute. reflexivity.
Defined.

(** [read_metrics] has no handler of its own.  An exception of the
    psutil calls goes to the caller, with no attempt at the platform
    sampler; otherwise an exception of [read_metrics] is the exception
    of the one platform sampler that it selected; and on a platform
    with neither psutil, typeperf nor /proc/stat it returns
    [(None, None)]. *)
Theorem read_metrics_errors :
  forall (w : World) (interval : float),
    (forall e, _read_with_psutil w interval = Raise e ->
               read_metrics w interval = Raise e) /\
    (forall e, read_metrics w interval = Raise e ->
       _read_with_psutil w interval = Raise e \/
       (String.eqb (platform_system w) "Windows" = true /\
        _read_windows_typeperf w interval = Raise e) \/
       (String.eqb (platform_system w) "Windows" = false /\
        proc_stat_exists w = true /\
        _read_linux_proc w interval = Raise e)) /\
    (psutil w = None ->
     String.eqb (platform_system w) "Windows" = false ->
     proc_stat_exists w = false ->
     read_metrics w interval = Ok (None, None)).
Proof.
  intros w interval. unfold read_metrics. split; [|split].
  - intros e ->. reflexivity.
  - intros e. destruct (_read_with_psutil w interval) as [[cpu mem]|e'];
      cbn [bind]; [|intros H; left; exact H].
    assert (Hnative :
              (if String.eqb (platform_system w) "Windows"
               then _read_windows_typeperf w interval
               else if proc_stat_exists w then _read_linux_proc w interval
                    else Ok (None, None)) = Raise e ->
              Ok (cpu, mem) = Raise e \/
              (String.eqb (platform_system w) "Windows" = true /\
               _read_windows_typeperf w interval = Raise e) \/
              (String.eqb (platform_system w) "Windows" = false /\
               proc_stat_exists w = true /\
               _read_linux_proc w interval = Raise e)).
    { destruct (String.eqb (platform_system w) "Windows").
      - intros H. right. left. split; [reflexivity | exact H].
      - destruct (proc_stat_exists w); [|discriminate].
        intros H. right. right. repeat split. exact H. }
    destruct cpu as [c|]; [destruct mem as [m|]|]; try exact Hnative.
    discriminate.
  - intros Hps Hwin Hstat. unfold _read_with_psutil. rewrite Hps. cbn [bind].
    rewrite Hwin, Hstat. reflexivity.
Qed.

Lemma read_metrics_errors_witness :
  read_metrics bare_world 1 = Ok (None, None) /\
  read_metrics (with_psutil world_snapshots (fun _ => Raise OSError)) 1 = Raise OSError.
Proof.
  split.
  - apply (read_metrics_errors bare_world 1); reflexivity.
  - apply (proj1 (read_metrics_errors
                    (with_psutil world_snapshots (fun _ => Raise OSError)) 1)).
    reflexivity.
Defined.

(** ** The interval of [main] *)

(** [main] samples with a positive interval: an [--interval] that is
    zero, negative or not a number is replaced by 1.0.  With that
    interval the command line of typeperf is always built, except for
    an infinite [--interval], where [int] raises OverflowError. *)
Theorem main_interval_is_positive :
  forall args_interval : float,
    PrimFloat.ltb 0 (main_interval args_interval) = true /\
    (PrimFloat.ltb 0 args_interval = false -> main_interval args_interval = 1%float) /\
    (forall e, typeperf_cmd (main_interval args_interval) = Raise e ->
               e = OverflowError /\ args_interval = infinity).
Proof.
  intros a. unfold main_interval, f0, f1.
  destruct (PrimFloat.ltb 0 a) eqn:Hpos.
  - split; [exact Hpos|]. split; [discriminate|].
    intros e. unfold typeperf_cmd, truthy_float, f0.
    destruct (zero_div_positive a Hpos) as [-> _]. cbn [negb].
    unfold int_of_float. rewrite ltb_spec in Hpos.
    change (Prim2SF 0) with (S754_zero false) in Hpos.
    destruct (Prim2SF a) as [s|s| |s m ex] eqn:Ha; try discriminate.
    destruct s; [discriminate|]. cbn [bind]. intros H. injection H as <-.
    split; [reflexivity|].
    rewrite <- (SF2Prim_Prim2SF a), Ha. reflexivity.
  - split; [reflexivity|]. split; [reflexivity|].
    intros e H. vm_compute in H. discriminate.
Qed.

Lemma main_interval_is_positive_witness :
  main_interval nan = 1%float /\
  PrimFloat.ltb 0 (main_interval (-5)) = true.
Proof.
  split.
  - apply (main_interval_is_positive nan). reflexivity.
  - apply (main_interval_is_positive (-5)%float).
Defined.

(** ** The modes of [main] *)

(** [--graph] decides the mode: with it [--once] changes nothing, so
    that [--once --graph] without a positive [--samples] does not stop
    after one sample but keeps drawing; without [--graph], [--samples]
    changes nothing. *)
Theorem main_modes :
  forall (fuel : nat) (worlds : nat -> World) (interval : float) (samples : Z)
         (once : bool),
    main fuel worlds {| args_interval := interval; args_once := once;
                        args_graph := true; args_samples := samples |}
    = main fuel worlds {| args_interval := interval; args_once := false;
                          args_graph := true; args_samples := samples |} /\
    main fuel worlds {| args_interval := interval; args_once := once;
                        args_graph := false; args_samples := samples |}
    = main fuel worlds {| args_interval := interval; args_once := once;
                          args_graph := false; args_samples := 0 |} /\
    (samples <= 0 ->
     (forall k, exists s, read_metrics (worlds k) (main_interval interval) = Ok s) ->
     exists h fs,
       main fuel worlds {| args_interval := interval; args_once := true;
                           args_graph := true; args_samples := samples |}
       = Ok (RunGraph (Running h fs)) /\ count h = Z.of_nat fuel).
Proof.
  intros fuel worlds interval samples once. unfold main.
  cbn [args_interval args_once args_graph args_samples negb andb].
  rewrite Bool.andb_false_r.
  split; [reflexivity|]. split; [reflexivity|].
  intros Hs Hreads. unfold main_graph.
  destruct (graph_loop_unlimited fuel worlds (main_interval interval) samples 0
              empty_history [] Hs empty_history_inv (fun j _ => Hreads j))
    as (h & fs & -> & _ & Hc & _).
  exists h, fs. split; [reflexivity|]. cbn [empty_history count] in Hc. lia.
Qed.

Lemma main_modes_witness :
  exists h fs,
    main 4 example_worlds {| args_interval := 1; args_once := true;
                             args_graph := true; args_samples := 0 |}
    = Ok (RunGraph (Running h fs)) /\ count h = 4.
Proof.
  destruct (main_modes 4 example_worlds 1 0 true) as (_ & _ & H).
  apply H; [lia|]. intros k. eexists. vm_compute. reflexivity.
Defined.

(** ** The live line *)

Lemma format_line_len_bounds :
  forall cpu mem,
    percentage cpu = true -> percentage mem = true ->
    22 <= len (format_line cpu mem) <= 28.
Proof.
  intros cpu mem Hc Hm. unfold format_line. cbn [app String.concat].
  destruct cpu as [c|], mem as [m|]; cbn [percentage] in Hc, Hm;
    rewrite !len_append;
    try rewrite (fmt_5_1f_width c Hc); try rewrite (fmt_5_1f_width m Hm);
    cbn; lia.
Qed.

Lemma live_loop_writes :
  forall fuel worlds interval k out out',
    live_loop fuel worlds interval k out = Ok out' ->
    exists written,
      out' = out ++ written /\ List.length written = fuel /\
      forall j, (j < fuel)%nat ->
        exists cpu mem,
          read_metrics (worlds (k + j)%nat) interval = Ok (cpu, mem) /\
          nth_error written j = Some (live_write cpu mem).
Proof.
  induction fuel as [|fuel IH]; intros worlds interval k out out' H.
  - cbn in H. injection H as <-. exists []. rewrite app_nil_r.
    split; [reflexivity|]. split; [reflexivity|]. intros j Hj. lia.
  - cbn [live_loop] in H.
    destruct (read_metrics (worlds k) interval) as [[cpu mem]|e] eqn:Hread;
      cbn [bind] in H; [|discriminate].
    destruct (IH _ _ _ _ _ H) as (written & -> & Hlen & Hnth).
    exists (live_write cpu mem :: written).
    split; [rewrite <- app_assoc; reflexivity|].
    split; [cbn [List.length]; lia|].
    intros [|j] Hj.
    + rewrite Nat.add_0_r. exists cpu, mem. split; [exact Hread | reflexivity].
    + destruct (Hnth j ltac:(lia)) as (c & m & Hr & Hn).
      exists c, m. replace (k + S j)%nat with (S k + j)%nat by lia.
      split; [exact Hr | exact Hn].
Qed.

(** In the live line every iteration writes a carriage return, the line
    of its sample and ten spaces; as long as the values are absent or
    between 0 and 100, the lines differ in length by at most six
    characters, so each write covers all of the line written before it:
    nothing of an older line stays on the screen. *)
Theorem live_line_covers_previous :
  forall (fuel : nat) (worlds : nat -> World) (interval : float) (samples : Z)
         (out : list string),
    main fuel worlds {| args_interval := interval; args_once := false;
                        args_graph := false; args_samples := samples |}
    = Ok (RunLive out) ->
    List.length out = fuel /\
    forall j, (j < fuel)%nat ->
      exists cpu mem,
        read_metrics (worlds j) (main_interval interval) = Ok (cpu, mem) /\
        nth_error out j = Some (live_write cpu mem) /\
        len (live_write cpu mem) = len (format_line cpu mem) + 11 /\
        (percentage cpu = true -> percentage mem = true ->
         forall cpu' mem',
           percentage cpu' = true -> percentage mem' = true ->
           len (format_line cpu' mem') <= len (format_line cpu mem) + 10).
Proof.
  intros fuel worlds interval samples out. unfold main.
  cbn [args_interval args_once args_graph args_samples negb andb].
  destruct (live_loop fuel worlds (main_interval interval) 0 []) as [out'|e] eqn:Hloop;
    cbn [bind]; [|discriminate].
  intros H. injection H as <-.
  destruct (live_loop_writes _ _ _ _ _ _ Hloop) as (written & -> & Hlen & Hnth).
  cbn [app]. split; [exact Hlen|].
  intros j Hj. destruct (Hnth j Hj) as (cpu & mem & Hread & Hn).
  exists cpu, mem. split; [exact Hread|]. split; [exact Hn|]. split.
  - unfold live_write. rewrite !len_append.
    change (len carriage_return) with 1.
    change (len (String.concat "" (repeat " "%string 10))) with 10. lia.
  - intros Hc Hm cpu' mem' Hc' Hm'.
    pose proof (format_line_len_bounds cpu mem Hc Hm).
    pose proof (format_line_len_bounds cpu' mem' Hc' Hm'). lia.
Qed.

Lemma live_line_covers_previous_witness :
  List.length
    [live_write (Some 90%float) (Some 60%float);
     live_write (Some 90%float) (Some 60%float)] = 2%nat.
Proof.
  apply (live_line_covers_previous 2 example_worlds 1 0
           [live_write (Some 90%float) (Some 60%float);
            live_write (Some 90%float) (Some 60%float)]).
  vm_compute. reflexivity.
Defined.

(** ** The counters of the cpu line *)

(** From the line [cpu ...] the idle time is the fourth counter plus
    the fifth (iowait), which counts as 0 when the line has only four
    counters, and the total is the sum of all the counters; a line with
    fewer than four counters raises IndexError, and a counter that is
    not the text of an integer raises the error of [int]. *)
Theorem cpu_line_counters :
  forall (line : string),
    startswith "cpu " line = true ->
    (forall e, mapM py_int (tl (split_ws line)) = Raise e ->
               read_cpu_times (Some [line]) = Raise e) /\
    (forall nums, mapM py_int (tl (split_ws line)) = Ok nums ->
       (Z.of_nat (List.length nums) < 4 ->
        read_cpu_times (Some [line]) = Raise IndexError) /\
       (forall user nice system idle rest,
          nums = user :: nice :: system :: idle :: rest ->
          read_cpu_times (Some [line]) = Ok (Some (idle + hd 0 rest, sum nums)))).
Proof.
  intros line Hcpu. unfold read_cpu_times. cbn [open_lines bind scan_cpu_line].
  rewrite Hcpu. split.
  - intros e ->. reflexivity.
  - intros nums ->. cbn [bind]. split.
    + intros Hlen. unfold py_index. cbv zeta. change (3 <? 0) with false. cbv iota.
      destruct (Z.ltb_spec 3 (Z.of_nat (List.length nums))) as [H|_]; [lia|].
      reflexivity.
    + intros user nice system idle rest ->.
      destruct rest as [|iowait rest]; [reflexivity|].
      cbn [hd].
      assert (H3 : py_index (user :: nice :: system :: idle :: iowait :: rest) 3 = Ok idle).
      { destruct (py_index_ok _ (user :: nice :: system :: idle :: iowait :: rest) 3)
          as (x & Hx & ->); [cbn [List.length]; lia|].
        cbn in Hx. injection Hx as <-. reflexivity. }
      assert (H4 : py_index (user :: nice :: system :: idle :: iowait :: rest) 4 = Ok iowait).
      { destruct (py_index_ok _ (user :: nice :: system :: idle :: iowait :: rest) 4)
          as (x & Hx & ->); [cbn [List.length]; lia|].
        cbn in Hx. injection Hx as <-. reflexivity. }
      rewrite H3. cbn [bind].
      destruct (Z.ltb_spec 4 (Z.of_nat (List.length
                  (user :: nice :: system :: idle :: iowait :: rest)))) as [_|H];
        [|cbn [List.length] in H; lia].
      rewrite H4. reflexivity.
Qed.

Lemma cpu_line_counters_witness :
  read_cpu_times (Some ["cpu  900 0 0 100"]) = Ok (Some (100, 1000)) /\
  read_cpu_times (Some ["cpu  990 0 0 100 10"]) = Ok (Some (110, 1100)) /\
  read_cpu_times (Some ["cpu  900 0 0"]) = Raise IndexError.
Proof.
  split; [|split].
  - destruct (cpu_line_counters "cpu  900 0 0 100" eq_refl) as [_ H].
    destruct (H [900; 0; 0; 100] eq_refl) as [_ H4].
    apply (H4 900 0 0 100 []). reflexivity.
  - destruct (cpu_line_counters "cpu  990 0 0 100 10" eq_refl) as [_ H].
    destruct (H [990; 0; 0; 100; 10] eq_refl) as [_ H5].
    apply (H5 990 0 0 100 [10]). reflexivity.
  - destruct (cpu_line_counters "cpu  900 0 0" eq_refl) as [_ H].
    destruct (H [900; 0; 0] eq_refl) as [H3 _].
    apply H3. cbn. lia.
Defined.
